(** * Jaal: the data transforms behind the dashboard callbacks

    A shallow embedding of [jaal/jaal.py] (class [Jaal]) and the properties
    of its search, filter, colour and size callbacks.

    Conventions of the embedding.
    - Node and edge dicts are Python objects that several containers refer
      to at once ([self.data], [self.filtered_data], [node_map], the
      snapshot handed to a callback).  They live in a heap indexed by
      references; a graph dict holds lists of references.
    - A callback is a function from the [Jaal] object to the object after
      the call and an outcome: a returned value or a raised exception.
      What a callback wrote before it raised stays written.
    - A string is the sequence of the bytes of its UTF-8 encoding, on
      which [in] tests the same as on the characters.
    - A number is taken by its value; what the values are made of (ints
      and floats of Python, scalars of numpy) and so how they round, wrap
      or divide by zero is left to the interpreter.
    - What the class takes from outside [jaal.py] is a parameter of the
      development: the interpreter ([str.lower], the arithmetic of the
      numbers at hand, the depth of recursion it allows),
      [DataFrame.query]'s expression language, [get_distinct_colors] and
      the [DEFAULT_*] constants. *)

From Stdlib Require Import Ascii String QArith Lqa.
From stdpp Require Import gmap strings list fin_maps.

Set Default Proof Using "Type".
Open Scope string_scope.
Open Scope list_scope.
Open Scope nat_scope.

(** ** Exceptions and outcomes *)

Inductive exn : Type :=
  | KeyError
  | TypeError
  | ZeroDivisionError
  | QueryError
  | RecursionError.

Inductive result (A : Type) : Type :=
  | Ok (a : A)
  | Raise (e : exn).
Arguments Ok {A} a.
Arguments Raise {A} e.

(** Sequencing stops at the first exception; [x ← r; k] is stdpp's
    notation for it. *)
#[global] Instance result_ret : MRet result := λ A a, Ok a.
#[global] Instance result_bind : MBind result := λ A B k r,
  match r with
  | Ok a => k a
  | Raise e => Raise e
  end.
#[global] Instance result_fmap : FMap result := λ A B f r,
  match r with
  | Ok a => Ok (f a)
  | Raise e => Raise e
  end.

Definition returns {A : Type} (r : result A) : Prop :=
  match r with Ok _ => True | Raise _ => False end.

(** ** Numbers and the interpreter *)

(** The value of a number, whether an int or a float of Python or a scalar
    of numpy: a rational, or one of the floats that are no number. *)
Inductive number : Type :=
  | Finite (q : Q)
  | NaN
  | Infinity (negative : bool).
Coercion Finite : Q >-> number.
Bind Scope Q_scope with number.

(** [x == y] on numbers: nan equals nothing. *)
Definition number_eqb (x y : number) : bool :=
  match x, y with
  | Finite a, Finite b => Qeq_bool a b
  | Infinity s, Infinity t => Bool.eqb s t
  | _, _ => false
  end.

(** What the callbacks take from the interpreter they run on.
    [str_lower] is [str.lower], which follows the Unicode tables.
    [num_sub], [num_mul], [num_truediv] and [num_add] are [-], [*], [/]
    and [+] on the numbers at hand: each gives a number, rounded or
    wrapped as the types of its operands have it, or raises.
    [recursion_limit] is the number of nested calls of
    [_get_related_nodes] that fit below the interpreter's limit on the
    depth of recursion. *)
Record interpreter : Type := Interpreter {
  str_lower : string → string;
  recursion_limit : nat;
  num_sub : number → number → result number;
  num_mul : number → number → result number;
  num_truediv : number → number → result number;
  num_add : number → number → result number
}.

(** ** Strings: the [in] operator, and [str.lower] on ASCII *)

Module Str.

(** What [str.lower] does to a string of ASCII characters: the capitals A
    to Z become a to z. *)
Definition lower_char (c : ascii) : ascii :=
  let n := nat_of_ascii c in
  if (65 <=? n)%nat && (n <=? 90)%nat then ascii_of_nat (n + 32) else c.

Fixpoint lower (s : string) : string :=
  match s with
  | EmptyString => EmptyString
  | String c s' => String (lower_char c) (lower s')
  end.


(** [s.startswith(p)] *)
Fixpoint starts_with (p s : string) : bool :=
  match p, s with
  | EmptyString, _ => true
  | String a p', String b s' => bool_decide (a = b) && starts_with p' s'
  | String _ _, EmptyString => false
  end.

(** [sub in s] on strings; also [Series.str.contains] with a pattern made
    of plain letters. *)
Fixpoint contains (sub s : string) : bool :=
  starts_with sub s ||
  match s with
  | EmptyString => false
  | String _ s' => contains sub s'
  end.

(** [s.partition(sep)]: the text before and after the first [sep]. *)
Fixpoint split_at (sep s : string) : option (string * string) :=
  if starts_with sep s then
    Some (EmptyString, String.substring (String.length sep)
                         (String.length s - String.length sep) s)
  else
    match s with
    | EmptyString => None
    | String c s' =>
        match split_at sep s' with
        | Some (pre, post) => Some (String c pre, post)
        | None => None
        end
    end.

End Str.

(** ** Values, node and edge records *)

(** A cell of the source tables.  [VDict c] is the nested dict
    [{'color': c}] that every edge carries under ['color']. *)
Inductive val : Type :=
  | VStr (s : string)
  | VNum (x : number)
  | VBool (b : bool)
  | VDict (c : string).

Abbreviation loc := positive.

(** A node dict: the keys the callbacks read and write by name, and the
    columns of the node table under [node_attrs]. ['hidden'] is absent
    until a search writes it. *)
Record node : Type := Node {
  node_id : string;
  node_label : string;
  node_hidden : option bool;
  node_size : number;
  node_color : string;
  node_attrs : gmap string val
}.

(** An edge dict. ['width'] is absent until a sizing writes it;
    [edge_color] is [edge['color']['color']]. *)
Record edge : Type := Edge {
  edge_id : string;
  edge_from : string;
  edge_to : string;
  edge_width : option number;
  edge_color : string;
  edge_attrs : gmap string val
}.

Definition set_hidden (b : bool) (n : node) : node :=
  Node (node_id n) (node_label n) (Some b) (node_size n) (node_color n) (node_attrs n).

Definition set_size (q : number) (n : node) : node :=
  Node (node_id n) (node_label n) (node_hidden n) q (node_color n) (node_attrs n).

Definition set_color (c : string) (n : node) : node :=
  Node (node_id n) (node_label n) (node_hidden n) (node_size n) c (node_attrs n).

Definition set_width (q : number) (e : edge) : edge :=
  Edge (edge_id e) (edge_from e) (edge_to e) (Some q) (edge_color e) (edge_attrs e).

Definition set_edge_color (c : string) (e : edge) : edge :=
  Edge (edge_id e) (edge_from e) (edge_to e) (edge_width e) c (edge_attrs e).

Definition with_key (k : string) (o : option val) (d : gmap string val) : gmap string val :=
  match o with
  | Some v => <[k := v]> d
  | None => d
  end.

(** The record as the dict it stands for: [node_dict n !! k] is [n[k]],
    [None] when the key is missing. *)
Definition node_dict (n : node) : gmap string val :=
  <["id" := VStr (node_id n)]>
    (<["label" := VStr (node_label n)]>
       (with_key "hidden" (VBool <$> node_hidden n)
          (<["size" := VNum (node_size n)]>
             (<["color" := VStr (node_color n)]> (node_attrs n))))).

Definition edge_dict (e : edge) : gmap string val :=
  <["id" := VStr (edge_id e)]>
    (<["from" := VStr (edge_from e)]>
       (<["to" := VStr (edge_to e)]>
          (with_key "width" (VNum <$> edge_width e)
             (<["color" := VDict (edge_color e)]> (edge_attrs e))))).

(** A number out of a cell; Python's [bool] is an [int]. *)
Definition as_number (v : val) : result number :=
  match v with
  | VNum x => Ok x
  | VBool b => Ok (Finite (if b then 1 else 0))
  | VStr _ | VDict _ => Raise TypeError
  end.

(** [a == b] on cells. *)
Definition val_eqb (a b : val) : bool :=
  match a, b with
  | VStr s, VStr t => bool_decide (s = t)
  | VDict c, VDict d => bool_decide (c = d)
  | _, _ =>
      match as_number a, as_number b with
      | Ok x, Ok y => number_eqb x y
      | _, _ => false
      end
  end.

(** ** Graph dicts and the [Jaal] object *)

(** [{'nodes': [...], 'edges': [...]}]: the lists hold references to node
    and edge dicts. *)
Record graph : Type := Graph {
  nodes : list loc;
  edges : list loc
}.

(** [scaling_vars[kind][attr]] is [{'min': m, 'max': M}], here [(m, M)]. *)
Record scaling : Type := Scaling {
  scaling_node : gmap string (number * number);
  scaling_edge : gmap string (number * number)
}.

(** A value-to-colour dict, in insertion order. The key [None] is the NaN
    that pandas puts in a column for the rows lacking the attribute. *)
Abbreviation color_mapping := (list (option val * string)).

(** What the callbacks write to the console. *)
Inductive event : Type :=
  | Print (args : list string)
  | PrintException (e : exn)
  | PrintTraceback (e : exn).

(** The object [self] together with the node and edge dicts it and the
    caller's snapshots refer to. *)
Record Jaal : Type := mkJaal {
  node_objs : gmap loc node;
  edge_objs : gmap loc edge;
  data : graph;
  filtered_data : graph;
  scaling_vars : scaling;
  node_value_color_mapping : color_mapping;
  edge_value_color_mapping : color_mapping;
  add_related_entities : bool;
  include_related_org : bool;
  include_related_wf : bool;
  include_related_tables : bool;
  console : list event
}.

Definition set_node_objs (h : gmap loc node) (self : Jaal) : Jaal :=
  mkJaal h (edge_objs self) (data self) (filtered_data self) (scaling_vars self)
    (node_value_color_mapping self) (edge_value_color_mapping self)
    (add_related_entities self) (include_related_org self)
    (include_related_wf self) (include_related_tables self) (console self).

Definition set_edge_objs (h : gmap loc edge) (self : Jaal) : Jaal :=
  mkJaal (node_objs self) h (data self) (filtered_data self) (scaling_vars self)
    (node_value_color_mapping self) (edge_value_color_mapping self)
    (add_related_entities self) (include_related_org self)
    (include_related_wf self) (include_related_tables self) (console self).

Definition set_filtered_data (g : graph) (self : Jaal) : Jaal :=
  mkJaal (node_objs self) (edge_objs self) (data self) g (scaling_vars self)
    (node_value_color_mapping self) (edge_value_color_mapping self)
    (add_related_entities self) (include_related_org self)
    (include_related_wf self) (include_related_tables self) (console self).

Definition set_node_value_color_mapping (m : color_mapping) (self : Jaal) : Jaal :=
  mkJaal (node_objs self) (edge_objs self) (data self) (filtered_data self)
    (scaling_vars self) m (edge_value_color_mapping self)
    (add_related_entities self) (include_related_org self)
    (include_related_wf self) (include_related_tables self) (console self).

Definition set_edge_value_color_mapping (m : color_mapping) (self : Jaal) : Jaal :=
  mkJaal (node_objs self) (edge_objs self) (data self) (filtered_data self)
    (scaling_vars self) (node_value_color_mapping self) m
    (add_related_entities self) (include_related_org self)
    (include_related_wf self) (include_related_tables self) (console self).

Definition set_flags (related org wf tables : bool) (self : Jaal) : Jaal :=
  mkJaal (node_objs self) (edge_objs self) (data self) (filtered_data self)
    (scaling_vars self) (node_value_color_mapping self)
    (edge_value_color_mapping self) related org wf tables (console self).

Definition set_console (c : list event) (self : Jaal) : Jaal :=
  mkJaal (node_objs self) (edge_objs self) (data self) (filtered_data self)
    (scaling_vars self) (node_value_color_mapping self)
    (edge_value_color_mapping self) (add_related_entities self)
    (include_related_org self) (include_related_wf self)
    (include_related_tables self) c.

(** [Jaal.__init__], given what [parse_dataframe] returned: the dicts it
    built, the graph over them and the scaling bounds.
    [self.data.copy()] is a shallow copy: a new graph dict over the same
    lists of the same node and edge dicts. *)
Definition __init__ (node_dicts : gmap loc node) (edge_dicts : gmap loc edge)
    (parsed : graph) (bounds : scaling) : Jaal :=
  mkJaal node_dicts edge_dicts parsed parsed bounds [] [] true true true true
    [Print ["Parsing the data..."]; Print ["Done"]].

(** ** Callbacks as state transformers *)

(** A method body: it changes the object and either returns or raises. *)
Definition M (A : Type) : Type := Jaal → Jaal * result A.

#[global] Instance M_ret : MRet M := λ A a self, (self, Ok a).
#[global] Instance M_bind : MBind M := λ A B k m self,
  match m self with
  | (self', Ok a) => k a self'
  | (self', Raise e) => (self', Raise e)
  end.

Definition get_self : M Jaal := λ self, (self, Ok self).
Definition modify (f : Jaal → Jaal) : M unit := λ self, (f self, Ok tt).
Definition lift {A : Type} (r : result A) : M A := λ self, (self, r).
Definition print (args : list string) : M unit :=
  modify (λ self, set_console (console self ++ [Print args]) self).

(** [try: body except Exception as e: handler(e)] *)
Definition try_except {A : Type} (body : M A) (handler : exn → M A) : M A :=
  λ self,
    match body self with
    | (self', Ok a) => (self', Ok a)
    | (self', Raise e) => handler e self'
    end.

(** [for x in refs: x[...] = ...]: the body reads the dict behind each
    reference and writes it back; the loop stops at the first exception
    and leaves the earlier writes in place. A reference to no object is
    passed over. *)
Fixpoint update_each {A : Type} (body : A → result A) (refs : list loc)
    (h : gmap loc A) : gmap loc A * result unit :=
  match refs with
  | [] => (h, Ok tt)
  | l :: refs' =>
      match h !! l with
      | None => update_each body refs' h
      | Some x =>
          match body x with
          | Ok x' => update_each body refs' (<[l := x']> h)
          | Raise e => (h, Raise e)
          end
      end
  end.

Definition for_each_node (refs : list loc) (body : node → result node) : M unit :=
  λ self,
    let (h, r) := update_each body refs (node_objs self) in
    (set_node_objs h self, r).

Definition for_each_edge (refs : list loc) (body : edge → result edge) : M unit :=
  λ self,
    let (h, r) := update_each body refs (edge_objs self) in
    (set_edge_objs h self, r).

(** The dicts behind a list of references, in order. *)
Definition deref {A : Type} (h : gmap loc A) (refs : list loc) : list A :=
  omap (λ l, h !! l) refs.

(** The references whose dict satisfies [p]. *)
Definition refs_where {A : Type} (h : gmap loc A) (p : A → bool)
    (refs : list loc) : list loc :=
  filter (λ l, p <$> h !! l = Some true) refs.

(** ** The callbacks *)

Section Callbacks.

(** The interpreter. *)
Variable py : interpreter.

(** [DataFrame.query]: an expression evaluated against the rows of a table
    fails ([None]) or gives a boolean mask with one entry per row. On no
    row at all it is the answer for a frame that has its columns. *)
Variable query : string → list (gmap string val) → option (list bool).

(** From [jaal/layout.py]. *)
Variable get_distinct_colors : nat → list string.
Variable DEFAULT_COLOR : string.
Variable DEFAULT_NODE_SIZE : number.
Variable DEFAULT_EDGE_SIZE : number.

(** The rows whose mask entry is [True]. *)
Fixpoint select {A : Type} (mask : list bool) (table : list A) : list A :=
  match mask, table with
  | b :: mask', x :: table' =>
      if b then x :: select mask' table' else select mask' table'
  | _, _ => []
  end.

(** *** 4.1 Search *)

(** [_callback_search_graph]: [graph_data['nodes'] = nodes] stores back the
    list it was read from. *)
Definition _callback_search_graph (graph_data : graph) (search_text : string)
    : M graph :=
  for_each_node (nodes graph_data) (λ n,
    if negb (Str.contains (str_lower py search_text) (str_lower py (node_label n)))
    then Ok (set_hidden true n)
    else Ok (set_hidden false n));;
  mret graph_data.

(** *** 4.2 Related-entity expansion *)

(** [_filter_entities]: the identifiers left after the rows containing a
    marker of a switched-off category are dropped. The frame it gets has
    one row label per row, so dropping by label drops exactly the rows
    selected. *)
Definition _filter_entities (self : Jaal) (ids : list string) : list string :=
  let ids :=
    if include_related_org self then ids
    else filter (λ i, Str.contains "org" i = false) ids in
  let ids :=
    if include_related_wf self then ids
    else filter (λ i, Str.contains "wf" i = false) ids in
  let ids :=
    if include_related_tables self then ids
    else filter (λ i, Str.contains "table" i = false) ids in
  ids.

(** [pd.DataFrame(self.filtered_data['edges'])]: a copy of the rows. A
    frame built from no row has no column, and keeps its columns when
    rows are dropped later. *)
Record edge_frame : Type := EdgeFrame {
  has_columns : bool;
  rows : list edge
}.

Definition DataFrame_of_edges (es : list edge) : edge_frame :=
  EdgeFrame (match es with [] => false | _ :: _ => true end) es.

(** The expressions [f"`from`=='{found_node_id}'"] and
    [f"`to`=='{found_node_id}'"]: the identifier goes into the text as it
    is. *)
Definition from_is (found_node_id : string) : string :=
  "`from`=='" +:+ found_node_id +:+ "'".

Definition to_is (found_node_id : string) : string :=
  "`to`=='" +:+ found_node_id +:+ "'".

(** [edge_df.query(expr)[column]]: the cells under [column] in the rows
    that the expression selects. *)
Definition query_column (expr : string) (column : edge → string) (es : list edge)
    : result (list string) :=
  match query expr (edge_dict <$> es) with
  | None => Raise QueryError
  | Some mask =>
      if negb (bool_decide (length mask = length es)) then Raise QueryError
      else Ok (column <$> select mask es)
  end.

(** [edge_df.query(f"`from`=='{k}'")['to']] and
    [edge_df.query(f"`to`=='{k}'")['from']] *)
Definition targets_of (k : string) (es : list edge) : result (list string) :=
  query_column (from_is k) edge_to es.

Definition sources_of (k : string) (es : list edge) : result (list string) :=
  query_column (to_is k) edge_from es.

(** [edge_df.drop(edge_df[edge_df['from'].isin(out)].index, inplace=True)] *)
Definition drop_from (out : list string) (es : list edge) : list edge :=
  filter (λ e, edge_from e ∉ out) es.

Abbreviation expansion := (option (result (list loc * edge_frame))).

(** One turn of the loop of [_get_related_nodes], for the identifier
    [found_node_id]; [recurse] is the recursive call. The frame is
    changed in place, so the frame after the turn is part of the outcome.
    [None] means that the recursion was cut off. *)
Definition visit (self : Jaal) (node_map : gmap string loc)
    (recurse : list string → edge_frame → expansion)
    (found_node_id : string) (edge_df : edge_frame) : expansion :=
  match node_map !! found_node_id with
  | None => Some (Raise KeyError)
  | Some n =>
      if negb (has_columns edge_df) then Some (Raise QueryError)
      else
        match targets_of found_node_id (rows edge_df) with
        | Raise e => Some (Raise e)
        | Ok tos =>
            let related_nodes_in := _filter_entities self tos in
            match sources_of found_node_id (rows edge_df) with
            | Raise e => Some (Raise e)
            | Ok froms =>
                let related_nodes_out := _filter_entities self froms in
                let edge_df :=
                  EdgeFrame (has_columns edge_df)
                    (drop_from related_nodes_out (rows edge_df)) in
                match related_nodes_in ++ related_nodes_out with
                | [] => Some (Ok ([n], edge_df))
                | _ :: _ =>
                    match recurse (related_nodes_in ++ related_nodes_out) edge_df with
                    | Some (Ok (sub, edge_df)) => Some (Ok (n :: sub, edge_df))
                    | other => other
                    end
                end
            end
        end
  end.

(** The loop [for found_node_id in found_nodes_ids]. *)
Fixpoint visit_all (self : Jaal) (node_map : gmap string loc)
    (recurse : list string → edge_frame → expansion)
    (found_nodes_ids : list string) (edge_df : edge_frame) : expansion :=
  match found_nodes_ids with
  | [] => Some (Ok ([], edge_df))
  | found_node_id :: rest =>
      match visit self node_map recurse found_node_id edge_df with
      | Some (Ok (here, edge_df)) =>
          match visit_all self node_map recurse rest edge_df with
          | Some (Ok (there, edge_df)) => Some (Ok (here ++ there, edge_df))
          | other => other
          end
      | other => other
      end
  end.

(** [_get_related_nodes] with the depth of the recursion bounded by
    [depth]. *)
Fixpoint get_related_nodes_upto (depth : nat) (self : Jaal)
    (node_map : gmap string loc) (found_nodes_ids : list string)
    (edge_df : edge_frame) : expansion :=
  match depth with
  | O => None
  | S depth' =>
      visit_all self node_map (get_related_nodes_upto depth' self node_map)
        found_nodes_ids edge_df
  end.

(** [_get_related_nodes]: the recursion goes as deep as the interpreter
    lets it, and raises [RecursionError] beyond. *)
Definition _get_related_nodes (self : Jaal) (found_nodes_ids : list string)
    (edge_df : edge_frame) (node_map : gmap string loc) : result (list loc) :=
  match get_related_nodes_upto (recursion_limit py) self node_map
          found_nodes_ids edge_df with
  | Some (Ok (found, _)) => Ok found
  | Some (Raise e) => Raise e
  | None => Raise RecursionError
  end.

(** *** Tables and the dict of nodes *)

(** [pd.DataFrame(table).query(expr)['id'].tolist()]: a frame made from no
    row has no ['id'] column. *)
Definition query_ids {A : Type} (view : A → gmap string val) (ident : A → string)
    (table : list A) (expr : string) : result (list string) :=
  match query expr (view <$> table) with
  | None => Raise QueryError
  | Some mask =>
      if negb (bool_decide (length mask = length table)) then Raise QueryError
      else
        match table with
        | [] => Raise KeyError
        | _ :: _ => Ok (ident <$> select mask table)
        end
  end.

(** [{node['id']: node for node in refs}]: a later node wins. *)
Definition build_node_map (h : gmap loc node) (refs : list loc) : gmap string loc :=
  foldl (λ m l, match h !! l with
                | Some n => <[node_id n := l]> m
                | None => m
                end) ∅ refs.

(** [[node_map[k] for k in ids]] *)
Fixpoint lookup_each (node_map : gmap string loc) (ids : list string)
    : result (list loc) :=
  match ids with
  | [] => Ok []
  | k :: ids' =>
      match node_map !! k with
      | None => Raise KeyError
      | Some l => ls ← lookup_each node_map ids'; Ok (l :: ls)
      end
  end.

(** *** 4.2 Node filter *)

Definition _callback_filter_nodes (graph_data : graph) (filter_nodes_text : string)
    (add_related include_org include_wf include_tables : bool) : M graph :=
  modify (set_flags add_related include_org include_wf include_tables);;
  modify (λ self, set_filtered_data (data self) self);;
  try_except
    (self ← get_self;
     let node_df := deref (node_objs self) (nodes (filtered_data self)) in
     let node_map := build_node_map (node_objs self) (nodes (filtered_data self)) in
     found_nodes_ids ← lift (query_ids node_dict node_id node_df filter_nodes_text);
     found ← lift (lookup_each node_map found_nodes_ids);
     related ←
       (if add_related_entities self then
          let edge_df :=
            DataFrame_of_edges (deref (edge_objs self) (edges (filtered_data self))) in
          lift (_get_related_nodes self found_nodes_ids edge_df node_map)
        else mret []);
     modify (λ self,
       set_filtered_data (Graph (found ++ related) (edges (filtered_data self))) self);;
     self ← get_self;
     mret (filtered_data self))
    (λ e,
      modify (λ self,
        set_console (console self ++ [PrintTraceback e; PrintException e]) self);;
      self ← get_self;
      print ["wrong node filter query!!"];;
      mret (data self)).

(** What the body of the [try] of [_callback_filter_nodes] computes: the
    new node list of the filtered view. *)
Definition filtered_nodes_of (self : Jaal) (filter_nodes_text : string)
    : result (list loc) :=
  let node_df := deref (node_objs self) (nodes (data self)) in
  let node_map := build_node_map (node_objs self) (nodes (data self)) in
  found_nodes_ids ← query_ids node_dict node_id node_df filter_nodes_text;
  found ← lookup_each node_map found_nodes_ids;
  related ←
    (if add_related_entities self then
       _get_related_nodes self found_nodes_ids
         (DataFrame_of_edges (deref (edge_objs self) (edges (data self)))) node_map
     else Ok []);
  Ok (found ++ related).

(** *** 4.3 Edge filter *)

Definition _callback_filter_edges (graph_data : graph) (filter_edges_text : string)
    : M graph :=
  modify (λ self, set_filtered_data (data self) self);;
  self ← get_self;
  let edges_df := deref (edge_objs self) (edges (filtered_data self)) in
  try_except
    (edges_list ← lift (query_ids edge_dict edge_id edges_df filter_edges_text);
     modify (λ self,
       set_filtered_data
         (Graph (nodes (filtered_data self))
            (refs_where (edge_objs self)
               (λ e, bool_decide (edge_id e ∈ edges_list))
               (edges (filtered_data self)))) self);;
     self ← get_self;
     mret (filtered_data self))
    (λ _,
      self ← get_self;
      print ["wrong edge filter query!!"];;
      mret (data self)).

(** *** The filtered view re-derived from the full dataset

    [filtered = [x['id'] for x in self.filtered_data[kind]]] then
    [self.filtered_data[kind] = [x for x in self.data[kind] if x['id'] in filtered]] *)

Definition refilter_nodes : M unit :=
  modify (λ self,
    let filtered_nodes := node_id <$> deref (node_objs self) (nodes (filtered_data self)) in
    set_filtered_data
      (Graph (refs_where (node_objs self)
                (λ x, bool_decide (node_id x ∈ filtered_nodes)) (nodes (data self)))
         (edges (filtered_data self))) self).

Definition refilter_edges : M unit :=
  modify (λ self,
    let filtered_edges := edge_id <$> deref (edge_objs self) (edges (filtered_data self)) in
    set_filtered_data
      (Graph (nodes (filtered_data self))
         (refs_where (edge_objs self)
            (λ x, bool_decide (edge_id x ∈ filtered_edges)) (edges (data self)))) self).

(** *** 4.4 Colouring *)

Definition cell_eqb (a b : option val) : bool :=
  match a, b with
  | Some x, Some y => val_eqb x y
  | None, None => true
  | _, _ => false
  end.

(** A cell that holds nan: the number nan, or the cell of a row that has
    not the key. *)
Definition is_nan (c : option val) : bool :=
  match c with
  | None | Some (VNum NaN) => true
  | _ => false
  end.

(** [Series.unique()]: the distinct cells in order of first appearance,
    where nan is taken once. *)
Fixpoint unique (cells : list (option val)) : list (option val) :=
  match cells with
  | [] => []
  | c :: cells' =>
      c :: List.filter (λ d, negb (cell_eqb c d || is_nan c && is_nan d))
             (unique cells')
  end.

Definition is_dict (c : option val) : bool :=
  match c with Some (VDict _) => true | _ => false end.

(** [pd.DataFrame(table)[attr].unique()]: the column exists when some row
    has the key, a row without it holds NaN; a dict cannot be hashed. *)
Definition unique_of_column {A : Type} (view : A → gmap string val)
    (table : list A) (attr : string) : result (list (option val)) :=
  let cells := (λ x, view x !! attr) <$> table in
  if forallb (λ c, negb (bool_decide (is_Some c))) cells then Raise KeyError
  else if existsb is_dict cells then Raise TypeError
  else Ok (unique cells).

(** [value_color_mapping[v]] *)
Fixpoint color_of (mapping : color_mapping) (v : val) : result string :=
  match mapping with
  | [] => Raise KeyError
  | (k, c) :: mapping' =>
      if cell_eqb k (Some v) then Ok c else color_of mapping' v
  end.

(** [d[attr]] *)
Definition item (d : gmap string val) (attr : string) : result val :=
  match d !! attr with
  | Some v => Ok v
  | None => Raise KeyError
  end.

Definition _callback_color_nodes (graph_data : graph) (color_nodes_value : string)
    : M (graph * color_mapping) :=
  value_color_mapping ←
    (if bool_decide (color_nodes_value = "None") then
       self ← get_self;
       for_each_node (nodes (data self)) (λ n, Ok (set_color DEFAULT_COLOR n));;
       mret []
     else
       print ["inside color node"; color_nodes_value];;
       self ← get_self;
       unique_values ←
         lift (unique_of_column node_dict
                 (deref (node_objs self) (nodes (data self))) color_nodes_value);
       let colors := get_distinct_colors (length unique_values) in
       let value_color_mapping := zip unique_values colors in
       for_each_node (nodes (data self)) (λ n,
         v ← item (node_dict n) color_nodes_value;
         c ← color_of value_color_mapping v;
         Ok (set_color c n));;
       mret value_color_mapping);
  refilter_nodes;;
  self ← get_self;
  mret (filtered_data self, value_color_mapping).

Definition _callback_color_edges (graph_data : graph) (color_edges_value : string)
    : M (graph * color_mapping) :=
  value_color_mapping ←
    (if bool_decide (color_edges_value = "None") then
       self ← get_self;
       for_each_edge (edges (data self)) (λ e, Ok (set_edge_color DEFAULT_COLOR e));;
       mret []
     else
       print ["inside color edge"; color_edges_value];;
       self ← get_self;
       unique_values ←
         lift (unique_of_column edge_dict
                 (deref (edge_objs self) (edges (data self))) color_edges_value);
       let colors := get_distinct_colors (length unique_values) in
       let value_color_mapping := zip unique_values colors in
       for_each_edge (edges (data self)) (λ e,
         v ← item (edge_dict e) color_edges_value;
         c ← color_of value_color_mapping v;
         Ok (set_edge_color c e));;
       mret value_color_mapping);
  refilter_edges;;
  self ← get_self;
  mret (filtered_data self, value_color_mapping).

(** *** 4.5 Sizing *)

(** [scaling_vars[kind][attr]['min']], [...['max']] *)
Definition bounds_of (table : gmap string (number * number)) (attr : string)
    : result (number * number) :=
  match table !! attr with
  | Some b => Ok b
  | None => Raise KeyError
  end.

(** [scale_val = lambda x: 20 * (x - minn) / (maxx - minn)]: the product
    is taken first, then the difference of the bounds, then the quotient.
    A cell that is no number makes the first subtraction raise. *)
Definition scale_val (minn maxx : number) (x : val) : result number :=
  x ← as_number x;
  a ← num_sub py x minn;
  b ← num_mul py 20 a;
  c ← num_sub py maxx minn;
  num_truediv py b c.

Definition _callback_size_nodes (graph_data : graph) (size_nodes_value : string)
    : M graph :=
  (if bool_decide (size_nodes_value = "None") then
     self ← get_self;
     for_each_node (nodes (data self)) (λ n, Ok (set_size DEFAULT_NODE_SIZE n))
   else
     print ["Modifying node size using "; size_nodes_value];;
     self ← get_self;
     '(minn, maxx) ← lift (bounds_of (scaling_node (scaling_vars self)) size_nodes_value);
     for_each_node (nodes (data self)) (λ n,
       x ← item (node_dict n) size_nodes_value;
       d ← scale_val minn maxx x;
       s ← num_add py (node_size n) d;
       Ok (set_size s n)));;
  refilter_nodes;;
  self ← get_self;
  mret (filtered_data self).

Definition _callback_size_edges (graph_data : graph) (size_edges_value : string)
    : M graph :=
  (if bool_decide (size_edges_value = "None") then
     self ← get_self;
     for_each_edge (edges (data self)) (λ e, Ok (set_width DEFAULT_EDGE_SIZE e))
   else
     print ["Modifying edge size using "; size_edges_value];;
     self ← get_self;
     '(minn, maxx) ← lift (bounds_of (scaling_edge (scaling_vars self)) size_edges_value);
     for_each_edge (edges (data self)) (λ e,
       x ← item (edge_dict e) size_edges_value;
       d ← scale_val minn maxx x;
       Ok (set_width d e)));;
  refilter_edges;;
  self ← get_self;
  mret (filtered_data self).

(** *** 4.6 Event dispatch *)

(** The legend handed to the page, as the two colour dicts it is drawn
    from ([get_color_popover_legend_children]). *)
Abbreviation legend := (color_mapping * color_mapping)%type.

(** [setting_pane_callback]. [triggered] is the identifier of the control
    that changed ([ctx.triggered[0]['prop_id'].split('.')[0]]), [None] on
    first load; [graph_data] is the snapshot the page holds. *)
Definition setting_pane_callback (triggered : option string)
    (search_text filter_nodes_text filter_edges_text : string)
    (add_related include_org include_wf include_tables : bool)
    (color_nodes_value color_edges_value size_nodes_value size_edges_value : string)
    (graph_data : graph) : M (graph * legend) :=
  match triggered with
  | None =>
      print ["No trigger"];;
      self ← get_self;
      mret (data self, ([], []))
  | Some input_id =>
      graph_data ←
        (if bool_decide (input_id = "search_graph") then
           _callback_search_graph graph_data search_text
         else if bool_decide (input_id = "filter_nodes")
                 || bool_decide (input_id = "add_related_entities")
                 || bool_decide (input_id = "include_related_org")
                 || bool_decide (input_id = "include_related_wf")
                 || bool_decide (input_id = "include_related_tables") then
           _callback_filter_nodes graph_data filter_nodes_text add_related
             include_org include_wf include_tables
         else if bool_decide (input_id = "filter_edges") then
           _callback_filter_edges graph_data filter_edges_text
         else mret graph_data);
      graph_data ←
        (if bool_decide (input_id = "color_nodes") then
           '(graph_data, mapping) ← _callback_color_nodes graph_data color_nodes_value;
           modify (set_node_value_color_mapping mapping);;
           mret graph_data
         else mret graph_data);
      graph_data ←
        (if bool_decide (input_id = "color_edges") then
           '(graph_data, mapping) ← _callback_color_edges graph_data color_edges_value;
           modify (set_edge_value_color_mapping mapping);;
           mret graph_data
         else mret graph_data);
      graph_data ←
        (if bool_decide (input_id = "size_nodes") then
           _callback_size_nodes graph_data size_nodes_value
         else mret graph_data);
      graph_data ←
        (if bool_decide (input_id = "size_edges") then
           _callback_size_edges graph_data size_edges_value
         else mret graph_data);
      self ← get_self;
      mret (graph_data, (node_value_color_mapping self, edge_value_color_mapping self))
  end.

End Callbacks.

(** ** The colour legend *)

(** The children of the legend popover: headers, bodies, and whatever
    [create_color_legend] (of [jaal/layout.py]) makes of a value and its
    colour. *)
Inductive component (legend_entry : Type) : Type :=
  | PopoverHeader (text : string)
  | PopoverBody (text : string)
  | ColorLegend (entry : legend_entry).
Arguments PopoverHeader {legend_entry} text.
Arguments PopoverBody {legend_entry} text.
Arguments ColorLegend {legend_entry} entry.

Section Legend.
Context {legend_entry : Type}.
Variable create_color_legend : option val → string → legend_entry.

(** [create_legends_for], local to [get_color_popover_legend_children]. *)
Definition create_legends_for (title : string) (legends : color_mapping)
    : list (component legend_entry) :=
  PopoverHeader (title +:+ " legends")
  :: match legends with
     | _ :: _ => (λ kv, ColorLegend (create_color_legend kv.1 kv.2)) <$> legends
     | [] => [PopoverBody ("no " +:+ Str.lower title +:+ " colored!")]
     end.

Definition get_color_popover_legend_children
    (node_value_color_mapping edge_value_color_mapping : color_mapping)
    : list (component legend_entry) :=
  create_legends_for "Node" node_value_color_mapping
  ++ create_legends_for "Edge" edge_value_color_mapping.

End Legend.

(** ** A sample of the expression language

    Comparisons [col=='text'] and [col!='text'] of a column with a string,
    joined by [and] and [or], as [DataFrame.query] evaluates them: [col]
    is a plain name (letters, digits and underscores, no keyword of
    Python) or a name between backticks, [text] has neither quote nor
    blank, and [and] binds tighter than [or]. An unknown column and any
    other syntax fail. It instantiates [query] in the examples. *)

Definition is_name_char (c : ascii) : bool :=
  let n := nat_of_ascii c in
  ((65 <=? n) && (n <=? 90)) || ((97 <=? n) && (n <=? 122))
  || ((48 <=? n) && (n <=? 57)) || (n =? 95).

Fixpoint all_name_chars (s : string) : bool :=
  match s with
  | EmptyString => true
  | String c s' => is_name_char c && all_name_chars s'
  end.

Definition python_keywords : list string :=
  ["False"; "None"; "True"; "and"; "as"; "assert"; "async"; "await"; "break";
   "class"; "continue"; "def"; "del"; "elif"; "else"; "except"; "finally";
   "for"; "from"; "global"; "if"; "import"; "in"; "is"; "lambda"; "nonlocal";
   "not"; "or"; "pass"; "raise"; "return"; "try"; "while"; "with"; "yield"].

Definition is_plain_name (s : string) : bool :=
  match s with
  | EmptyString => false
  | String c _ =>
      all_name_chars s
      && negb ((48 <=? nat_of_ascii c) && (nat_of_ascii c <=? 57))
      && negb (bool_decide (s ∈ python_keywords))
  end.

Inductive comparison : Type :=
  | Compare (column : string) (equal : bool) (text : string).

Definition column_of (c : comparison) : string :=
  match c with Compare column _ _ => column end.

(** The column a name stands for. *)
Definition column_name (s : string) : option string :=
  if Str.starts_with "`" s then
    match Str.split_at "`" (String.substring 1 (String.length s - 1) s) with
    | Some (String c name, EmptyString) => Some (String c name)
    | _ => None
    end
  else if is_plain_name s then Some s
  else None.

Definition parse_comparison (s : string) : option comparison :=
  match Str.split_at "=='" s with
  | Some (name, rest) =>
      match column_name name, Str.split_at "'" rest with
      | Some column, Some (text, EmptyString) => Some (Compare column true text)
      | _, _ => None
      end
  | None =>
      match Str.split_at "!='" s with
      | Some (name, rest) =>
          match column_name name, Str.split_at "'" rest with
          | Some column, Some (text, EmptyString) => Some (Compare column false text)
          | _, _ => None
          end
      | None => None
      end
  end.

(** [s.split(sep)] *)
Fixpoint split_all (fuel : nat) (sep s : string) : list string :=
  match fuel with
  | O => [s]
  | S fuel' =>
      match Str.split_at sep s with
      | Some (pre, post) => pre :: split_all fuel' sep post
      | None => [s]
      end
  end.

(** An expression as the alternatives it offers, each a list of
    comparisons that must all hold. *)
Definition parse (expr : string) : option (list (list comparison)) :=
  mapM (λ alternative,
          mapM parse_comparison
            (split_all (String.length alternative) " and " alternative))
    (split_all (String.length expr) " or " expr).

Definition holds (row : gmap string val) (c : comparison) : bool :=
  match c with
  | Compare column equal text =>
      let same :=
        match row !! column with
        | Some (VStr cell) => bool_decide (cell = text)
        | _ => false
        end in
      if equal then same else negb same
  end.

(** A frame has the keys of its rows for columns. *)
Definition known (table : list (gmap string val)) (column : string) : bool :=
  match table with
  | [] => true
  | _ :: _ => existsb (λ row, bool_decide (is_Some (row !! column))) table
  end.

Definition equality_query (expr : string) (table : list (gmap string val))
    : option (list bool) :=
  match parse expr with
  | Some alternatives =>
      if forallb (forallb (λ c, known table (column_of c))) alternatives then
        Some ((λ row, existsb (forallb (holds row)) alternatives) <$> table)
      else None
  | None => None
  end.

(** ** A sample of the interpreter *)

Module Numbers.

(** Floats where they are exact, as on the small whole numbers of the
    examples: every result below is a number that a float holds without
    rounding there. Zero has no sign. *)
Definition is_negative (a : Q) : bool := negb (Qle_bool 0 a).

Definition is_zero (x : number) : bool :=
  match x with
  | Finite a => Qeq_bool a 0
  | _ => false
  end.

Definition opposite (x : number) : number :=
  match x with
  | Finite a => Finite (Qred (- a))
  | NaN => NaN
  | Infinity s => Infinity (negb s)
  end.

(** [x + y] *)
Definition add (x y : number) : result number :=
  Ok match x, y with
     | Finite a, Finite b => Finite (Qred (a + b))
     | NaN, _ | _, NaN => NaN
     | Infinity s, Infinity t => if Bool.eqb s t then Infinity s else NaN
     | Infinity s, Finite _ | Finite _, Infinity s => Infinity s
     end.

(** [x - y] *)
Definition sub (x y : number) : result number := add x (opposite y).

(** [x * y] *)
Definition mul (x y : number) : result number :=
  Ok match x, y with
     | Finite a, Finite b => Finite (Qred (a * b))
     | NaN, _ | _, NaN => NaN
     | Infinity s, Infinity t => Infinity (xorb s t)
     | Infinity s, Finite a | Finite a, Infinity s =>
         if Qeq_bool a 0 then NaN else Infinity (xorb s (is_negative a))
     end.

(** [x / y] for a divisor other than zero. *)
Definition quotient (x y : number) : number :=
  match x, y with
  | Finite a, Finite b => Finite (Qred (a / b))
  | NaN, _ | _, NaN => NaN
  | Infinity _, Infinity _ => NaN
  | Infinity s, Finite b => Infinity (xorb s (is_negative b))
  | Finite _, Infinity _ => Finite 0
  end.

(** [/] on the numbers of Python: a zero divisor raises. *)
Definition python_truediv (x y : number) : result number :=
  if is_zero y then Raise ZeroDivisionError else Ok (quotient x y).

(** [/] on the scalars of numpy: a zero divisor gives nan or an infinity,
    with a warning and no exception. *)
Definition numpy_truediv (x y : number) : result number :=
  if is_zero y then
    Ok match x with
       | Finite a => if Qeq_bool a 0 then NaN else Infinity (is_negative a)
       | _ => x
       end
  else Ok (quotient x y).

End Numbers.

Module Text.

Definition is_ascii_letter (c : ascii) : bool :=
  let n := nat_of_ascii c in
  ((65 <=? n) && (n <=? 90)) || ((97 <=? n) && (n <=? 122)).

(** Whether a letter starts the string: an ASCII letter, or any character
    beyond ASCII. *)
Definition letter_ahead (s : string) : bool :=
  match s with
  | EmptyString => false
  | String c _ => is_ascii_letter c || (192 <=? nat_of_ascii c)
  end.

(** [str.lower] on strings of ASCII characters and the Greek letters Α
    and Σ (with α, σ and ς): the capital sigma becomes the final sigma
    after a letter when no letter follows. Other characters beyond ASCII
    are left as they are. *)
Fixpoint lower_after (after_letter : bool) (s : string) : string :=
  match s with
  | EmptyString => EmptyString
  | String c rest =>
      match rest with
      | String d rest' =>
          if (nat_of_ascii c =? 206) && (nat_of_ascii d =? 145) then
            "α" +:+ lower_after true rest'
          else if (nat_of_ascii c =? 206) && (nat_of_ascii d =? 163) then
            (if after_letter && negb (letter_ahead rest') then "ς" else "σ")
            +:+ lower_after true rest'
          else
            String (Str.lower_char c)
              (lower_after (is_ascii_letter c || (128 <=? nat_of_ascii c)) rest)
      | EmptyString => String (Str.lower_char c) EmptyString
      end
  end.

Definition lower (s : string) : string := lower_after false s.

End Text.

(** ** Sample data *)

Module Sample.

(** Python run with numbers of its own, and with the scalars of numpy. *)
Definition python : interpreter :=
  Interpreter Text.lower 1000
    Numbers.sub Numbers.mul Numbers.python_truediv Numbers.add.

Definition numpy : interpreter :=
  Interpreter Text.lower 1000
    Numbers.sub Numbers.mul Numbers.numpy_truediv Numbers.add.

Definition plain_node (k label : string) : node :=
  Node k label None 7 "#97C2FC" ∅.

Definition plain_edge (a b : string) : edge :=
  Edge (a +:+ "__" +:+ b) a b None "#97C2FC" ∅.

(** Nodes A ("Alpha") and B ("Beta"), one edge A -> B. *)
Definition two_nodes : Jaal :=
  __init__
    (<[1%positive := plain_node "A" "Alpha"]> (<[2%positive := plain_node "B" "Beta"]> ∅))
    (<[1%positive := plain_edge "A" "B"]> ∅)
    (Graph [1%positive; 2%positive] [1%positive])
    (Scaling ∅ ∅).

(** The page showing [two_nodes]: its snapshot is a decoded copy of the
    dataset, with node dicts of its own (3 and 4). *)
Definition page_snapshot : graph :=
  Graph [3%positive; 4%positive] [2%positive].

Definition browsing : Jaal :=
  set_edge_objs (<[2%positive := plain_edge "A" "B"]> (edge_objs two_nodes))
    (set_node_objs
       (<[3%positive := plain_node "A" "Alpha"]>
          (<[4%positive := plain_node "B" "Beta"]> (node_objs two_nodes)))
       two_nodes).

(** The cycle A -> B -> C -> A. *)
Definition triangle : Jaal :=
  __init__
    (<[1%positive := plain_node "A" "Alpha"]>
       (<[2%positive := plain_node "B" "Beta"]>
          (<[3%positive := plain_node "C" "Gamma"]> ∅)))
    (<[1%positive := plain_edge "A" "B"]>
       (<[2%positive := plain_edge "B" "C"]>
          (<[3%positive := plain_edge "C" "A"]> ∅)))
    (Graph [1%positive; 2%positive; 3%positive] [1%positive; 2%positive; 3%positive])
    (Scaling ∅ ∅).

(** Nodes A, B and org1, edges A -> B and A -> org1. *)
Definition org_chart : Jaal :=
  __init__
    (<[1%positive := plain_node "A" "Alpha"]>
       (<[2%positive := plain_node "B" "Beta"]>
          (<[3%positive := plain_node "org1" "Org one"]> ∅)))
    (<[1%positive := plain_edge "A" "B"]>
       (<[2%positive := plain_edge "A" "org1"]> ∅))
    (Graph [1%positive; 2%positive; 3%positive] [1%positive; 2%positive])
    (Scaling ∅ ∅).

(** The frame and the dict that [_callback_filter_nodes] builds before it
    expands. *)
Definition edge_df (self : Jaal) : edge_frame :=
  DataFrame_of_edges (deref (edge_objs self) (edges (data self))).

Definition id_map (self : Jaal) : gmap string loc :=
  build_node_map (node_objs self) (nodes (data self)).

(** [org_chart] with the category "org" switched off. *)
Definition org_chart_without_org : Jaal :=
  set_flags true false true true org_chart.

(** Two nodes and an edge that all weigh 5, so that the bounds of
    "weight" are (5, 5); there are bounds for "height", an attribute that
    no record has. *)
Definition weighted_node (k label : string) (w : number) : node :=
  Node k label None 7 "#97C2FC" (<["weight" := VNum w]> ∅).

Definition weighted_edge (a b : string) (w : number) : edge :=
  Edge (a +:+ "__" +:+ b) a b None "#97C2FC" (<["weight" := VNum w]> ∅).

Definition flat_weights : Jaal :=
  __init__
    (<[1%positive := weighted_node "A" "Alpha" 5]>
       (<[2%positive := weighted_node "B" "Beta" 5]> ∅))
    (<[1%positive := weighted_edge "A" "B" 5]> ∅)
    (Graph [1%positive; 2%positive] [1%positive])
    (Scaling
       (<["weight" := (Finite 5, Finite 5)]> (<["height" := (Finite 0, Finite 2)]> ∅))
       (<["weight" := (Finite 5, Finite 5)]> (<["height" := (Finite 0, Finite 2)]> ∅))).

(** Nodes that weigh 0, 10 and 20 and edges that weigh 0 and 20, with the
    bounds (0, 20). *)
Definition graded : Jaal :=
  __init__
    (<[1%positive := weighted_node "A" "Alpha" 0]>
       (<[2%positive := weighted_node "B" "Beta" 10]>
          (<[3%positive := weighted_node "C" "Gamma" 20]> ∅)))
    (<[1%positive := weighted_edge "A" "B" 0]>
       (<[2%positive := weighted_edge "B" "C" 20]> ∅))
    (Graph [1%positive; 2%positive; 3%positive] [1%positive; 2%positive])
    (Scaling (<["weight" := (Finite 0, Finite 20)]> ∅)
       (<["weight" := (Finite 0, Finite 20)]> ∅)).

(** A node with a height and a node without, with bounds (0, 2) for the
    height. *)
Definition measured_node (k label : string) (height : number) : node :=
  Node k label None 7 "#97C2FC" (<["height" := VNum height]> ∅).

Definition half_measured : Jaal :=
  __init__
    (<[1%positive := measured_node "A" "Alpha" 1]>
       (<[2%positive := plain_node "B" "Beta"]> ∅))
    (<[1%positive := plain_edge "A" "B"]> ∅)
    (Graph [1%positive; 2%positive] [1%positive])
    (Scaling (<["height" := (Finite 0, Finite 2)]> ∅) ∅).

(** Nodes A and B and no edge; and a dataset with nothing in it. *)
Definition no_edges : Jaal :=
  __init__
    (<[1%positive := plain_node "A" "Alpha"]> (<[2%positive := plain_node "B" "Beta"]> ∅))
    ∅ (Graph [1%positive; 2%positive] []) (Scaling ∅ ∅).

Definition no_data : Jaal :=
  __init__ ∅ ∅ (Graph [] []) (Scaling ∅ ∅).


(** A node whose identifier holds quotes, beside the nodes a and b and
    the edge a -> b, which does not touch it. *)
Definition quoted : Jaal :=
  __init__
    (<[1%positive := plain_node "x' or `to`!='" "Ex"]>
       (<[2%positive := plain_node "a" "Alpha"]>
          (<[3%positive := plain_node "b" "Beta"]> ∅)))
    (<[1%positive := plain_edge "a" "b"]> ∅)
    (Graph [1%positive; 2%positive; 3%positive] [1%positive])
    (Scaling ∅ ∅).

(** The constants of [jaal/layout.py] and a generator of four colours. *)
Definition DEFAULT_COLOR : string := "#97C2FC".
Definition DEFAULT_NODE_SIZE : number := 7.
Definition DEFAULT_EDGE_SIZE : number := 1.
Definition get_distinct_colors (n : nat) : list string :=
  take n ["#e6194b"; "#3cb44b"; "#ffe119"; "#4363d8"].

End Sample.

(** ** The wording of the specification, for comparison *)





(** ** The runs of the expansion that return, as a relation

    [expands query self node_map ids df found df']: the loop over [ids]
    started on the frame [df] returns the nodes [found] and leaves the
    frame [df']. *)

(** The frame after the drop, for the sources [froms] that the query gave. *)
Definition after_drop (self : Jaal) (froms : list string) (df : edge_frame)
    : edge_frame :=
  EdgeFrame (has_columns df) (drop_from (_filter_entities self froms) (rows df)).

Inductive expands (query : string → list (gmap string val) → option (list bool))
    (self : Jaal) (node_map : gmap string loc)
    : list string → edge_frame → list loc → edge_frame → Prop :=
  | expands_done df :
      expands query self node_map [] df [] df
  | expands_alone k rest df n tos froms there df' :
      node_map !! k = Some n →
      has_columns df = true →
      targets_of query k (rows df) = Ok tos →
      sources_of query k (rows df) = Ok froms →
      _filter_entities self tos ++ _filter_entities self froms = [] →
      expands query self node_map rest (after_drop self froms df) there df' →
      expands query self node_map (k :: rest) df ([n] ++ there) df'
  | expands_related k rest df n tos froms sub df1 there df' :
      node_map !! k = Some n →
      has_columns df = true →
      targets_of query k (rows df) = Ok tos →
      sources_of query k (rows df) = Ok froms →
      _filter_entities self tos ++ _filter_entities self froms ≠ [] →
      expands query self node_map
        (_filter_entities self tos ++ _filter_entities self froms)
        (after_drop self froms df) sub df1 →
      expands query self node_map rest df1 there df' →
      expands query self node_map (k :: rest) df ((n :: sub) ++ there) df'.

(** ** Identifiers for which the queries are the tests they are meant to be

    For an identifier without a quote or a backslash, the expressions
    [from_is k] and [to_is k] select the rows whose ['from'] or ['to'] is
    [k]. *)

Definition targets_by_equality (k : string) (es : list edge) : list string :=
  edge_to <$> filter (λ e, edge_from e = k) es.

Definition sources_by_equality (k : string) (es : list edge) : list string :=
  edge_from <$> filter (λ e, edge_to e = k) es.

Definition answers_by_equality
    (query : string → list (gmap string val) → option (list bool))
    (ids : list string) : Prop :=
  ∀ k es, k ∈ ids →
    targets_of query k es = Ok (targets_by_equality k es)
    ∧ sources_of query k es = Ok (sources_by_equality k es).

(** The identifiers that a frame mentions. *)
Definition endpoints (es : list edge) : list string :=
  (edge_from <$> es) ++ (edge_to <$> es).

(** A query that answers so for every identifier, whatever is in it: it
    takes the text between the opening [`from`=='] or [`to`=='] and the
    last character for the identifier. *)
Fixpoint without_prefix (prefix s : string) : string :=
  match prefix, s with
  | String _ prefix', String _ s' => without_prefix prefix' s'
  | _, _ => s
  end.

Fixpoint without_last (s : string) : string :=
  match s with
  | EmptyString => EmptyString
  | String c EmptyString => EmptyString
  | String c s' => String c (without_last s')
  end.

Definition between (prefix expr : string) : string :=
  without_last (without_prefix prefix expr).

Definition cell_is (column text : string) (row : gmap string val) : bool :=
  match row !! column with
  | Some (VStr cell) => bool_decide (cell = text)
  | _ => false
  end.

Definition equality_test (expr : string) (table : list (gmap string val))
    : option (list bool) :=
  if Str.starts_with "`from`=='" expr then
    Some (cell_is "from" (between "`from`=='" expr) <$> table)
  else if Str.starts_with "`to`=='" expr then
    Some (cell_is "to" (between "`to`=='" expr) <$> table)
  else None.

(** What the related nodes of [k] are then. *)
Definition related_nodes_in (self : Jaal) (k : string) (df : edge_frame) : list string :=
  _filter_entities self (targets_by_equality k (rows df)).

Definition related_nodes_out (self : Jaal) (k : string) (df : edge_frame) : list string :=
  _filter_entities self (sources_by_equality k (rows df)).

Definition dropped_for (self : Jaal) (k : string) (df : edge_frame) : edge_frame :=
  after_drop self (sources_by_equality k (rows df)) df.

(** "Reachable from a seed node via edges": along edges taken in either
    direction, as the expansion takes them. *)
Definition linked (es : list edge) (a b : string) : Prop :=
  ∃ e, e ∈ es
       ∧ ((edge_from e = a ∧ edge_to e = b) ∨ (edge_from e = b ∧ edge_to e = a)).

Definition reachable (es : list edge) : string → string → Prop :=
  rtc (linked es).

(** "Contains no marker of a switched-off category". *)
Definition permitted (self : Jaal) (k : string) : Prop :=
  (include_related_org self = false → Str.contains "org" k = false)
  ∧ (include_related_wf self = false → Str.contains "wf" k = false)
  ∧ (include_related_tables self = false → Str.contains "table" k = false).

(** The identifiers of the nodes and of the edges behind a list of
    references. *)
Definition node_ids (self : Jaal) (refs : list loc) : list string :=
  node_id <$> deref (node_objs self) refs.

Definition edge_ids (self : Jaal) (refs : list loc) : list string :=
  edge_id <$> deref (edge_objs self) refs.

(** "The filtered view is a subset of the full dataset's nodes and edges
    (by identifier)". *)
Definition view_within_dataset (self : Jaal) : Prop :=
  node_ids self (nodes (filtered_data self)) ⊆ node_ids self (nodes (data self))
  ∧ edge_ids self (edges (filtered_data self)) ⊆ edge_ids self (edges (data self)).

(** The controls that trigger the node filter. *)
Definition node_filter_controls : list string :=
  ["filter_nodes"; "add_related_entities"; "include_related_org";
   "include_related_wf"; "include_related_tables"].

(** ** Vocabulary of the proofs *)

(** The search as one write per node of the snapshot. *)
Definition search_mark (py : interpreter) (search_text : string) (n : node) : node :=
  set_hidden
    (negb (Str.contains (str_lower py search_text) (str_lower py (node_label n)))) n.

(** A depth that the recursion does not reach when the queries are the
    tests they are meant to be (lemma [upto_finishes]). *)
Definition enough_depth (edge_df : edge_frame) : nat :=
  2 * length (rows edge_df) + 2.

(** [terminates_within n]: on a frame of at most [n] rows, a call on
    identifiers that passed the category filter needs a depth of at most
    [2 * n + 1]. *)
Definition terminates_within
    (query : string → list (gmap string val) → option (list bool))
    (self : Jaal) (node_map : gmap string loc) (n : nat) : Prop :=
  ∀ df ids depth,
    length (rows df) ≤ n →
    Forall (permitted self) ids →
    2 * n + 1 ≤ depth →
    is_Some (get_related_nodes_upto query depth self node_map ids df).

(** The frame of an operation that stops before it writes to a dict. *)
Definition untouched (self self' : Jaal) : Prop :=
  node_objs self' = node_objs self
  ∧ edge_objs self' = edge_objs self
  ∧ data self' = data self
  ∧ filtered_data self' = filtered_data self.

(** [same_identities self self']: the two states have the same graph
    dicts, and every reference leads to a record of the same identifier
    in both. *)
Definition same_identities (self self' : Jaal) : Prop :=
  data self' = data self
  ∧ filtered_data self' = filtered_data self
  ∧ (∀ l, node_id <$> node_objs self' !! l = node_id <$> node_objs self !! l)
  ∧ (∀ l, edge_id <$> edge_objs self' !! l = edge_id <$> edge_objs self !! l).

(** [keeps I m]: the method body [m] maintains [I], whether it returns or
    raises. *)
Definition keeps {A : Type} (I : Jaal → Prop) (m : M A) : Prop :=
  ∀ self, I self → I (m self).1.

(** [inert m]: [m] changes neither a graph dict nor an identifier. *)
Definition inert {A : Type} (m : M A) : Prop :=
  ∀ self, same_identities self (m self).1.

(** An invariant that speaks of the graph dicts and of identifiers only. *)
Definition about_identities (I : Jaal → Prop) : Prop :=
  ∀ self self', same_identities self self' → I self → I self'.

(** The filtered view lies within the full dataset, whose nodes have
    identifiers of their own. *)
Definition sound_view (self : Jaal) : Prop :=
  view_within_dataset self ∧ NoDup (node_ids self (nodes (data self))).

(** Moreover the filtered view lists no node twice. *)
Definition tidy_view (self : Jaal) : Prop :=
  sound_view self ∧ NoDup (node_ids self (nodes (filtered_data self))).

(** [preserves f m]: the method body [m] leaves the part [f] of the object
    as it was, whether it returns or raises. *)
Definition preserves {X A : Type} (f : Jaal → X) (m : M A) : Prop :=
  ∀ self, f (m self).1 = f self.

(** [shows ns es self]: the filtered view shows the nodes with the
    identifiers [ns] and the edges with the identifiers [es], all of them
    of the full dataset. *)
Definition shows (ns es : list string) (self : Jaal) : Prop :=
  (∀ k, k ∈ node_ids self (nodes (filtered_data self)) ↔ k ∈ ns)
  ∧ (∀ k, k ∈ edge_ids self (edges (filtered_data self)) ↔ k ∈ es)
  ∧ ns ⊆ node_ids self (nodes (data self))
  ∧ es ⊆ edge_ids self (edges (data self)).

(** The entries that [create_color_legend] made, among the children of the
    legend popover. *)
Definition legend_entries {legend_entry : Type}
    (children : list (component legend_entry)) : list legend_entry :=
  omap (λ c, match c with ColorLegend entry => Some entry | _ => None end) children.

(** The controls wired to [setting_pane_callback]. *)
Definition controls : list string :=
  ["search_graph"; "filter_nodes"; "filter_edges"; "add_related_entities";
   "include_related_org"; "include_related_wf"; "include_related_tables";
   "color_nodes"; "color_edges"; "size_nodes"; "size_edges"].

(** The four flags of the related-entity expansion. *)
Definition flags (self : Jaal) : bool * bool * bool * bool :=
  (add_related_entities self, include_related_org self,
   include_related_wf self, include_related_tables self).

(** * Properties *)

(** ** Strings *)









(** ** Loops over the heap *)

(** Contradictory facts about membership in a list that is given by its
    head and tail. *)
Ltac membership :=
  exfalso;
  repeat match goal with
         | H : _ ∈ _ :: _ |- _ => apply elem_of_cons in H as [H | H]
         | H : _ ∉ _ :: _ |- _ => apply not_elem_of_cons in H as [? H]
         end;
  done || congruence.

Section UpdateEach.
Context {A : Type}.
Implicit Types (body : A → result A) (h : gmap loc A) (refs : list loc).

(** Only the dicts the loop runs over are written. *)
Lemma update_each_frame body refs h l :
  l ∉ refs → (update_each body refs h).1 !! l = h !! l.
Proof.
  revert h. induction refs as [|r refs IH]; intros h Hl; simpl; [done |].
  apply not_elem_of_cons in Hl as [Hne Hl].
  destruct (h !! r) as [x|] eqn:Hr; [|by apply IH].
  destruct (body x) as [x'|e]; simpl; [|done].
  rewrite IH by done. by rewrite lookup_insert_ne.
Qed.

(** Whatever each turn of the body maintains, the loop maintains, also
    when it is cut short by an exception. *)
Lemma update_each_related (R : A → A → Prop) `{!Reflexive R} `{!Transitive R}
    body refs h l x :
  (∀ y y', body y = Ok y' → R y y') →
  h !! l = Some x →
  ∃ x', (update_each body refs h).1 !! l = Some x' ∧ R x x'.
Proof.
  intros Hbody. revert h x. induction refs as [|r refs IH]; intros h x Hl; simpl.
  - by exists x.
  - destruct (h !! r) as [y|] eqn:Hr; [|by apply IH].
    destruct (body y) as [y'|e] eqn:Hy; simpl; [|by exists x].
    destruct (decide (r = l)) as [->|Hne].
    + assert (y = x) as -> by congruence.
      destruct (IH (<[l := y']> h) y') as (x' & Hx' & HR);
        [by rewrite lookup_insert_eq |].
      exists x'. split; [done |]. etrans; [by apply Hbody | done].
    + apply IH. by rewrite lookup_insert_ne.
Qed.

Lemma update_each_None body refs h l :
  h !! l = None → (update_each body refs h).1 !! l = None.
Proof.
  revert h. induction refs as [|r refs IH]; intros h Hl; simpl; [done |].
  destruct (h !! r) as [x|] eqn:Hr; [|by apply IH].
  destruct (body x) as [x'|e]; simpl; [|done].
  apply IH. rewrite lookup_insert_ne; [done | congruence].
Qed.

(** A body that never raises and writes the same thing when run twice:
    the loop returns, and every dict it ran over holds what one turn
    writes. *)
Lemma update_each_total (f : A → A) refs h :
  (∀ x, f (f x) = f x) →
  (update_each (λ x, Ok (f x)) refs h).2 = Ok tt ∧
  ∀ l, (update_each (λ x, Ok (f x)) refs h).1 !! l
       = if decide (l ∈ refs) then f <$> h !! l else h !! l.
Proof.
  intros Hf. revert h. induction refs as [|r refs IH]; intros h; simpl.
  - split; [done |]. intros l. destruct (decide (l ∈ [])) as [Hin|]; [|done].
    by apply elem_of_nil in Hin.
  - destruct (h !! r) as [x|] eqn:Hr.
    + destruct (IH (<[r := f x]> h)) as [Hok Hl]. split; [done |].
      intros l. rewrite Hl. destruct (decide (l = r)) as [->|Hne].
      * rewrite lookup_insert_eq, Hr. simpl. rewrite Hf.
        repeat case_decide; try done; membership.
      * rewrite lookup_insert_ne by done.
        repeat case_decide; try done; membership.
    + destruct (IH h) as [Hok Hl]. split; [done |].
      intros l. rewrite Hl. destruct (decide (l = r)) as [->|Hne].
      * rewrite Hr. by repeat case_decide.
      * repeat case_decide; try done; membership.
Qed.

(** The loop depends on what the body computes only. *)
Lemma update_each_ext body body' refs h :
  (∀ x, body x = body' x) → update_each body refs h = update_each body' refs h.
Proof.
  intros Hext. revert h. induction refs as [|r refs IH]; intros h; simpl; [done |].
  destruct (h !! r) as [x|]; [|done]. rewrite <- Hext.
  by destruct (body x).
Qed.

End UpdateEach.

(** ** 4.1 Search *)

Lemma set_hidden_twice b n : set_hidden b (set_hidden b n) = set_hidden b n.
Proof. reflexivity. Qed.

Lemma search_unfold py graph_data search_text self :
  _callback_search_graph py graph_data search_text self
  = (set_node_objs
       (update_each (λ n, Ok (search_mark py search_text n)) (nodes graph_data)
          (node_objs self)).1 self,
     Ok graph_data).
Proof.
  unfold _callback_search_graph, mbind, M_bind, for_each_node.
  rewrite (update_each_ext _ (λ n, Ok (search_mark py search_text n))).
  2: { intros n. unfold search_mark. by destruct (negb _). }
  pose proof (update_each_total (search_mark py search_text) (nodes graph_data)
                (node_objs self) (λ _, eq_refl)) as [Hok _].
  destruct (update_each _ _ _) as [h r]. simpl in *. by subst r.
Qed.





(** C3, as the code has it. The search writes ['hidden'] on the node dicts
    of the snapshot it is given, whosever they are, and on nothing else.
    When the snapshot shares no dict with [self.data], as the snapshot
    that the page sends back, decoded afresh, every node record of the
    full dataset is unchanged; a record of the full dataset that is in the
    snapshot is marked like any other. *)
Theorem search_leaves_the_dataset_alone py graph_data search_text self :
  let self' := (_callback_search_graph py graph_data search_text self).1 in
  (∀ l, l ∉ nodes graph_data → node_objs self' !! l = node_objs self !! l)
  ∧ (∀ l, l ∈ nodes graph_data →
          node_objs self' !! l = search_mark py search_text <$> node_objs self !! l)
  ∧ edge_objs self' = edge_objs self
  ∧ data self' = data self
  ∧ filtered_data self' = filtered_data self
  ∧ ((∀ l, l ∈ nodes (data self) → l ∉ nodes graph_data) →
     ∀ l, l ∈ nodes (data self) → node_objs self' !! l = node_objs self !! l).
Proof.
  rewrite search_unfold. simpl.
  assert (∀ l, l ∉ nodes graph_data →
    (update_each (λ n, Ok (search_mark py search_text n)) (nodes graph_data)
       (node_objs self)).1 !! l = node_objs self !! l) as Hframe.
  { intros l Hl. by apply update_each_frame. }
  destruct (update_each_total (search_mark py search_text) (nodes graph_data)
              (node_objs self) (λ _, eq_refl)) as [_ Hh].
  split; [done |]. split.
  { intros l Hl. by rewrite Hh, decide_True. }
  repeat split; auto.
Qed.

Lemma search_leaves_the_dataset_alone_witness :
  (∀ l, l ∈ nodes (data Sample.browsing) → l ∉ nodes Sample.page_snapshot)
  ∧ let self' :=
      (_callback_search_graph Sample.python Sample.page_snapshot "al"
         Sample.browsing).1 in
    (∀ l, l ∉ nodes Sample.page_snapshot →
          node_objs self' !! l = node_objs Sample.browsing !! l)
    ∧ (∀ l, l ∈ nodes Sample.page_snapshot →
            node_objs self' !! l
            = search_mark Sample.python "al" <$> node_objs Sample.browsing !! l)
    ∧ edge_objs self' = edge_objs Sample.browsing
    ∧ data self' = data Sample.browsing
    ∧ filtered_data self' = filtered_data Sample.browsing
    ∧ ∀ l, l ∈ nodes (data Sample.browsing) →
           node_objs self' !! l = node_objs Sample.browsing !! l.
Proof.
  assert (∀ l, l ∈ nodes (data Sample.browsing) → l ∉ nodes Sample.page_snapshot)
    as Hsep.
  { intros l Hl Hl'. simpl in Hl, Hl'.
    repeat (apply elem_of_cons in Hl as [->|Hl]);
      repeat (apply elem_of_cons in Hl' as [Hl'|Hl']);
      try discriminate; try (by apply elem_of_nil in Hl');
      by apply elem_of_nil in Hl. }
  split; [exact Hsep |].
  destruct (search_leaves_the_dataset_alone Sample.python Sample.page_snapshot "al"
              Sample.browsing) as (H1 & H2 & H3 & H4 & H5 & H6).
  split; [exact H1 |]. split; [exact H2 |]. split; [exact H3 |].
  split; [exact H4 |]. split; [exact H5 |]. exact (H6 Hsep).
Defined.

(** C3 as worded fails: handed [self.data] itself, or the filtered view,
    which holds the same dicts, the search marks records of the full
    dataset. *)
Lemma search_on_the_dataset_itself :
  node_hidden <$> node_objs Sample.two_nodes !! 2%positive = Some None
  ∧ 2%positive ∈ nodes (data Sample.two_nodes)
  ∧ node_hidden <$>
      node_objs (_callback_search_graph Sample.python (data Sample.two_nodes) "al"
                   Sample.two_nodes).1 !! 2%positive
    = Some (Some true)
  ∧ node_hidden <$>
      node_objs (_callback_search_graph Sample.python
                   (filtered_data Sample.two_nodes) "al"
                   Sample.two_nodes).1 !! 2%positive
    = Some (Some true)
  ∧ node_objs (_callback_search_graph Sample.python (data Sample.two_nodes) "al"
                 Sample.two_nodes).1 !! 2%positive
    ≠ node_objs Sample.two_nodes !! 2%positive.
Proof.
  split; [reflexivity |]. split; [right; left |]. split; [reflexivity |].
  split; [reflexivity |]. discriminate.
Qed.

(** ** 4.2 Related-entity expansion *)

Section Expansion.
Variable py : interpreter.
Variable query : string → list (gmap string val) → option (list bool).
Variable self : Jaal.
Variable node_map : gmap string loc.

Lemma filter_entities_spec k ids :
  k ∈ _filter_entities self ids ↔ k ∈ ids ∧ permitted self k.
Proof.
  clear py query node_map. unfold _filter_entities, permitted.
  destruct (include_related_org self), (include_related_wf self),
    (include_related_tables self); rewrite ?list_elem_of_filter;
    intuition congruence.
Qed.

Lemma filter_entities_sublist ids : _filter_entities self ids `sublist_of` ids.
Proof.
  unfold _filter_entities.
  destruct (include_related_org self), (include_related_wf self),
    (include_related_tables self);
    repeat (etrans; [apply sublist_filter |]); done.
Qed.

Lemma targets_by_equality_spec k b es :
  b ∈ targets_by_equality k es ↔ ∃ e, e ∈ es ∧ edge_from e = k ∧ edge_to e = b.
Proof.
  unfold targets_by_equality. rewrite list_elem_of_fmap. split.
  - intros (e & -> & [Hk He]%list_elem_of_filter). by exists e.
  - intros (e & He & Hk & <-). exists e. split; [done |].
    apply list_elem_of_filter. done.
Qed.

Lemma sources_by_equality_spec k a es :
  a ∈ sources_by_equality k es ↔ ∃ e, e ∈ es ∧ edge_from e = a ∧ edge_to e = k.
Proof.
  unfold sources_by_equality. rewrite list_elem_of_fmap. split.
  - intros (e & -> & [Hk He]%list_elem_of_filter). by exists e.
  - intros (e & He & <- & Hk). exists e. split; [done |].
    apply list_elem_of_filter. done.
Qed.

Lemma drop_from_nil es : drop_from [] es = es.
Proof.
  unfold drop_from. induction es as [|e es IH]; [done |].
  rewrite filter_cons_True by apply not_elem_of_nil. by rewrite IH.
Qed.

Lemma drop_from_sublist out es : drop_from out es `sublist_of` es.
Proof. apply sublist_filter. Qed.

Lemma sublist_same_or_shorter {A : Type} (l1 l2 : list A) :
  l1 `sublist_of` l2 → l1 = l2 ∨ length l1 < length l2.
Proof.
  induction 1 as [|x l1 l2 _ [-> | IH]|x l1 l2 Hsub _]; simpl; auto with lia.
  right. apply sublist_length in Hsub. lia.
Qed.

(** What a query gives comes from the rows it was asked about. *)
Lemma select_subseteq {A : Type} (mask : list bool) (table : list A) :
  select mask table ⊆ table.
Proof.
  revert table. induction mask as [|b mask IH]; intros [|x table]; simpl;
    try apply list_subseteq_nil.
  destruct b.
  - intros y [-> | Hy]%elem_of_cons; [left | right; by apply IH].
  - intros y Hy. right. by apply IH.
Qed.

Lemma query_column_within expr column es found :
  query_column query expr column es = Ok found → found ⊆ column <$> es.
Proof.
  unfold query_column. destruct (query expr _) as [mask|]; [|done].
  destruct (negb _); [done |]. intros [= <-] k (e & -> & He)%list_elem_of_fmap.
  apply list_elem_of_fmap. exists e. split; [done |]. by eapply select_subseteq.
Qed.

(** *** The function and the relation *)

Lemma visit_unfold recurse k df :
  visit query self node_map recurse k df
  = match node_map !! k with
    | None => Some (Raise KeyError)
    | Some n =>
        if has_columns df then
          match targets_of query k (rows df) with
          | Raise e => Some (Raise e)
          | Ok tos =>
              match sources_of query k (rows df) with
              | Raise e => Some (Raise e)
              | Ok froms =>
                  match _filter_entities self tos ++ _filter_entities self froms with
                  | [] => Some (Ok ([n], after_drop self froms df))
                  | _ :: _ =>
                      match recurse
                              (_filter_entities self tos ++ _filter_entities self froms)
                              (after_drop self froms df) with
                      | Some (Ok (sub, df')) => Some (Ok (n :: sub, df'))
                      | other => other
                      end
                  end
              end
          end
        else Some (Raise QueryError)
    end.
Proof.
  unfold visit, after_drop.
  destruct (node_map !! k); [|done].
  by destruct (has_columns df).
Qed.

Lemma visit_all_expands recurse ids df found df' :
  (∀ ids df found df',
     recurse ids df = Some (Ok (found, df')) →
     expands query self node_map ids df found df') →
  visit_all query self node_map recurse ids df = Some (Ok (found, df')) →
  expands query self node_map ids df found df'.
Proof.
  intros Hrec. revert df found df'.
  induction ids as [|k rest IH]; intros df found df' Hrun; simpl in Hrun.
  - injection Hrun as <- <-. constructor.
  - rewrite visit_unfold in Hrun.
    destruct (node_map !! k) as [n|] eqn:Hn; [|done].
    destruct (has_columns df) eqn:Hcols; [|done].
    destruct (targets_of query k (rows df)) as [tos|e] eqn:Htos; [|done].
    destruct (sources_of query k (rows df)) as [froms|e] eqn:Hfroms; [|done].
    destruct (_filter_entities self tos ++ _filter_entities self froms)
      as [|k' ks] eqn:Hnear.
    + destruct (visit_all query self node_map recurse rest (after_drop self froms df))
        as [[[there df1]|e]|] eqn:Hrest; try done.
      injection Hrun as <- <-.
      eapply expands_alone; eauto.
    + destruct (recurse (k' :: ks) (after_drop self froms df))
        as [[[sub df1]|e]|] eqn:Hsub; try done.
      destruct (visit_all query self node_map recurse rest df1)
        as [[[there df2]|e]|] eqn:Hrest; try done.
      injection Hrun as <- <-.
      eapply expands_related with (df1 := df1); eauto.
      * by rewrite Hnear.
      * rewrite Hnear. by apply Hrec.
Qed.

Lemma upto_expands depth ids df found df' :
  get_related_nodes_upto query depth self node_map ids df = Some (Ok (found, df')) →
  expands query self node_map ids df found df'.
Proof.
  revert ids df found df'. induction depth as [|depth IH]; intros ids df found df';
    simpl; [done |].
  by apply visit_all_expands.
Qed.

(** *** What a run that returns leaves behind *)

(** The frame only loses rows. *)
Lemma expands_frame ids df found df' :
  expands query self node_map ids df found df' →
  has_columns df' = has_columns df ∧ rows df' `sublist_of` rows df.
Proof.
  induction 1 as [df|k rest df n tos froms there df' _ _ _ _ _ _ [IHc IHr]
                 |k rest df n tos froms sub df1 there df' _ _ _ _ _ _ [IHc1 IHr1]
                    _ [IHc2 IHr2]].
  - done.
  - split; [by rewrite IHc |]. etrans; [exact IHr |]. apply drop_from_sublist.
  - split; [by rewrite IHc2, IHc1 |].
    etrans; [exact IHr2 |]. etrans; [exact IHr1 |]. apply drop_from_sublist.
Qed.

(** A larger bound on the depth changes nothing once the run is
    complete. *)
Lemma visit_all_mono recurse recurse' ids df r :
  (∀ ids df r, recurse ids df = Some r → recurse' ids df = Some r) →
  visit_all query self node_map recurse ids df = Some r →
  visit_all query self node_map recurse' ids df = Some r.
Proof.
  intros Hrec. revert df r. induction ids as [|k rest IH]; intros df r; simpl; [done |].
  rewrite !visit_unfold.
  destruct (node_map !! k) as [n|]; [|done].
  destruct (has_columns df); [|done].
  destruct (targets_of query k (rows df)) as [tos|e]; [|done].
  destruct (sources_of query k (rows df)) as [froms|e]; [|done].
  destruct (_filter_entities self tos ++ _filter_entities self froms) as [|k' ks].
  - destruct (visit_all query self node_map recurse rest (after_drop self froms df))
      as [r'|] eqn:Hr; [|by destruct r].
    by rewrite (IH _ _ Hr).
  - destruct (recurse (k' :: ks) (after_drop self froms df)) as [r'|] eqn:Hr; [|done].
    rewrite (Hrec _ _ _ Hr). destruct r' as [[sub df1]|e]; [|done].
    destruct (visit_all query self node_map recurse rest df1) as [r''|] eqn:Hr'; [|done].
    by rewrite (IH _ _ Hr').
Qed.

Lemma upto_mono depth depth' ids df r :
  depth ≤ depth' →
  get_related_nodes_upto query depth self node_map ids df = Some r →
  get_related_nodes_upto query depth' self node_map ids df = Some r.
Proof.
  revert depth' ids df r. induction depth as [|depth IH];
    intros depth' ids df r Hle; simpl; [done |].
  destruct depth' as [|depth']; [lia |]. simpl.
  apply visit_all_mono. intros ids' df' r'. apply IH. lia.
Qed.

(** *** Where the nodes of a run come from *)

Lemma related_permitted tos froms :
  Forall (permitted self) (_filter_entities self tos ++ _filter_entities self froms).
Proof.
  apply Forall_app. split; apply Forall_forall; intros x Hx;
    by apply filter_entities_spec in Hx as [_ ?].
Qed.

Lemma expands_permitted ids df found df' :
  expands query self node_map ids df found df' →
  ∀ l, l ∈ found → ∃ k, node_map !! k = Some l ∧ (k ∈ ids ∨ permitted self k).
Proof.
  induction 1 as [df|k rest df n tos froms there df' Hn _ _ _ _ _ IH
                 |k rest df n tos froms sub df1 there df' Hn _ _ _ _ _ IH1 _ IH2];
    intros l Hl.
  - by apply elem_of_nil in Hl.
  - apply elem_of_app in Hl as [Hl | Hl].
    + apply list_elem_of_singleton in Hl as ->.
      exists k. split; [done |]. left. left.
    + destruct (IH l Hl) as (k' & ? & [? | ?]); exists k'; split; auto.
      left. by right.
  - apply elem_of_app in Hl as [Hl | Hl].
    + apply elem_of_cons in Hl as [-> | Hl].
      * exists k. split; [done |]. left. left.
      * destruct (IH1 l Hl) as (k' & ? & [Hnear | ?]); exists k'; split; auto.
        right. by eapply Forall_forall in Hnear; [|apply related_permitted].
    + destruct (IH2 l Hl) as (k' & ? & [? | ?]); exists k'; split; auto.
      left. by right.
Qed.

(** [_get_related_nodes] is the run at the depth that the interpreter
    allows. *)
Lemma get_related_nodes_Ok ids df found :
  _get_related_nodes py query self ids df node_map = Ok found →
  ∃ df', expands query self node_map ids df found df'.
Proof.
  unfold _get_related_nodes.
  destruct (get_related_nodes_upto _ _ _ _ _ _) as [[[found' df']|e]|] eqn:Hrun;
    try done.
  intros [= <-]. exists df'. by eapply upto_expands.
Qed.

(** *** When the queries are the tests they are meant to be *)

Hypothesis by_equality :
  ∀ k es, targets_of query k es = Ok (targets_by_equality k es)
          ∧ sources_of query k es = Ok (sources_by_equality k es).

Lemma visit_unfold_by_equality recurse k df :
  visit query self node_map recurse k df
  = match node_map !! k with
    | None => Some (Raise KeyError)
    | Some n =>
        if has_columns df then
          match related_nodes_in self k df ++ related_nodes_out self k df with
          | [] => Some (Ok ([n], dropped_for self k df))
          | _ :: _ =>
              match recurse (related_nodes_in self k df ++ related_nodes_out self k df)
                      (dropped_for self k df) with
              | Some (Ok (sub, df')) => Some (Ok (n :: sub, df'))
              | other => other
              end
          end
        else Some (Raise QueryError)
    end.
Proof using Type*.
  rewrite visit_unfold. destruct (by_equality k (rows df)) as [-> ->]. done.
Qed.

(** The guard against cycles: when the node has a source that passes the
    category filter, the drop removes at least the edge from that source. *)
Lemma drop_from_shrinks k df :
  related_nodes_out self k df ≠ [] →
  length (rows (dropped_for self k df)) < length (rows df).
Proof.
  intros Hout. simpl. fold (related_nodes_out self k df).
  destruct (related_nodes_out self k df) as [|a out] eqn:Ha; [done |].
  assert (a ∈ related_nodes_out self k df) as Hin by (rewrite Ha; left).
  unfold related_nodes_out in Hin.
  apply filter_entities_spec in Hin as [Hin _].
  apply sources_by_equality_spec in Hin as (e & He & Hfrom & _).
  apply (length_filter_lt _ _ e); [done |].
  intros Hno. apply Hno. rewrite Hfrom. left.
Qed.

(** *** Termination *)

(** The loop returns or raises as soon as every recursive call it makes
    does. *)
Lemma visit_all_finishes recurse ids df :
  (∀ ids df found df',
     recurse ids df = Some (Ok (found, df')) →
     expands query self node_map ids df found df') →
  (∀ k cur, k ∈ ids → rows cur `sublist_of` rows df →
     related_nodes_in self k cur ++ related_nodes_out self k cur ≠ [] →
     is_Some (recurse (related_nodes_in self k cur ++ related_nodes_out self k cur)
                (dropped_for self k cur))) →
  ∀ cur, rows cur `sublist_of` rows df →
    is_Some (visit_all query self node_map recurse ids cur).
Proof using Type*.
  intros Hrec. induction ids as [|k rest IH]; intros Hcall cur Hcur; simpl; [done |].
  assert (∀ cur', rows cur' `sublist_of` rows df →
            is_Some (visit_all query self node_map recurse rest cur')) as Hrest.
  { apply IH. intros k' cur' Hk'. apply Hcall. by right. }
  rewrite visit_unfold_by_equality.
  destruct (node_map !! k) as [n|]; [|done].
  destruct (has_columns cur); [|done].
  destruct (related_nodes_in self k cur ++ related_nodes_out self k cur)
    as [|k' ks] eqn:Hnear.
  - destruct (Hrest (dropped_for self k cur)) as [[[there df1]|e] Hr].
    + etrans; [apply drop_from_sublist | done].
    + by rewrite Hr.
    + by rewrite Hr.
  - destruct (Hcall k cur) as [r Hr]; [by left | done | by rewrite Hnear |].
    rewrite Hnear in Hr. rewrite Hr.
    destruct r as [[sub df1]|e]; [|done].
    apply Hrec, expands_frame in Hr as [_ Hsub].
    destruct (Hrest df1) as [[[there df2]|e] Hr'].
    + etrans; [exact Hsub |]. etrans; [apply drop_from_sublist | done].
    + by rewrite Hr'.
    + by rewrite Hr'.
Qed.

Lemma related_nodes_permitted k df :
  Forall (permitted self) (related_nodes_in self k df ++ related_nodes_out self k df).
Proof. apply related_permitted. Qed.

Lemma dropped_for_length k df :
  length (rows (dropped_for self k df)) ≤ length (rows df).
Proof. apply sublist_length, drop_from_sublist. Qed.

(** A call on the targets of [k] when no row was dropped for [k]: the
    first target visited finds [k] among its sources and drops its rows. *)
Lemma targets_finish m df k ids depth :
  terminates_within query self node_map m →
  length (rows df) ≤ S m →
  permitted self k →
  (∀ s, s ∈ ids → ∃ e, e ∈ rows df ∧ edge_from e = k ∧ edge_to e = s) →
  2 * m + 2 ≤ depth →
  is_Some (get_related_nodes_upto query depth self node_map ids df).
Proof using Type*.
  intros Hm Hlen Hk Hedges Hdepth.
  destruct depth as [|depth]; [lia |]. simpl.
  apply (visit_all_finishes _ ids df); [apply upto_expands | | done].
  intros s cur Hs Hcur _.
  apply Hm; [| apply related_nodes_permitted | lia].
  destruct (sublist_same_or_shorter _ _ Hcur) as [Heq | Hlt].
  - rewrite <- Heq in Hlen.
    assert (length (rows (dropped_for self s cur)) < length (rows cur)); [|lia].
    apply drop_from_shrinks.
    destruct (Hedges s Hs) as (e & He & Hfrom & Hto).
    assert (k ∈ related_nodes_out self s cur) as Hin.
    { apply filter_entities_spec. split; [|done].
      apply sources_by_equality_spec. exists e. by rewrite Heq. }
    intros Hnil. rewrite Hnil in Hin. by apply elem_of_nil in Hin.
  - pose proof (dropped_for_length s cur). lia.
Qed.

Lemma terminates_within_step n :
  (∀ m, n = S m → terminates_within query self node_map m) →
  terminates_within query self node_map n.
Proof using Type*.
  intros IH df ids depth Hlen Hids Hdepth.
  destruct depth as [|depth]; [lia |]. simpl.
  apply (visit_all_finishes _ ids df); [apply upto_expands | | done].
  intros k cur Hk Hcur Hnear.
  assert (permitted self k) as Hpk by (by eapply Forall_forall in Hids).
  apply sublist_length in Hcur.
  destruct (related_nodes_out self k cur) as [|a out] eqn:Hout.
  - (* no source passes the filter: nothing is dropped *)
    rewrite app_nil_r in *.
    assert (rows (dropped_for self k cur) = rows cur) as Hsame.
    { unfold dropped_for, after_drop. simpl. fold (related_nodes_out self k cur).
      rewrite Hout. apply drop_from_nil. }
    destruct n as [|m].
    + destruct (related_nodes_in self k cur) as [|s ss] eqn:Hin; [done |].
      assert (s ∈ related_nodes_in self k cur) as Hs by (rewrite Hin; left).
      apply filter_entities_spec in Hs as [Hs _].
      apply targets_by_equality_spec in Hs as (e & He & _).
      destruct (rows cur); [by apply elem_of_nil in He | simpl in *; lia].
    + apply (targets_finish m _ k); [by apply IH | rewrite Hsame; lia | done | | lia].
      intros s Hs. apply filter_entities_spec in Hs as [Hs _].
      apply targets_by_equality_spec in Hs as (e & He & Hfrom & Hto).
      exists e. by rewrite Hsame.
  - (* a source passes the filter: its rows are dropped *)
    assert (length (rows (dropped_for self k cur)) < length (rows cur)) as Hlt.
    { apply drop_from_shrinks. by rewrite Hout. }
    rewrite <- Hout.
    destruct n as [|m]; [lia |].
    apply (IH m eq_refl); [lia | apply related_nodes_permitted | lia].
Qed.

Lemma terminates_within_all n : terminates_within query self node_map n.
Proof using Type*.
  induction n as [|n IH]; apply terminates_within_step; intros m Hm;
    [discriminate | by injection Hm as <-].
Qed.

(** The depth [enough_depth] is never reached, whatever the seeds. *)
Lemma upto_finishes ids df depth :
  enough_depth df ≤ depth →
  is_Some (get_related_nodes_upto query depth self node_map ids df).
Proof using Type*.
  unfold enough_depth. intros Hdepth.
  destruct depth as [|depth]; [lia |]. simpl.
  apply (visit_all_finishes _ ids df); [apply upto_expands | | done].
  intros k cur _ Hcur _.
  apply (terminates_within_all (length (rows df)));
    [| apply related_nodes_permitted | lia].
  apply sublist_length in Hcur. pose proof (dropped_for_length k cur). lia.
Qed.

Lemma expands_reachable E0 ids df found df' :
  expands query self node_map ids df found df' →
  rows df ⊆ E0 →
  ∀ l, l ∈ found →
    ∃ k seed, node_map !! k = Some l ∧ seed ∈ ids ∧ reachable E0 seed k.
Proof using Type*.
  induction 1 as [df|k rest df n tos froms there df' Hn _ Htos Hfroms _ Hrest IH
                 |k rest df n tos froms sub df1 there df' Hn _ Htos Hfroms _
                    Hsub IH1 Hrest IH2];
    intros HE l Hl.
  - by apply elem_of_nil in Hl.
  - assert (rows (after_drop self froms df) ⊆ E0) as HE'.
    { etrans; [apply sublist_subseteq, drop_from_sublist | done]. }
    apply elem_of_app in Hl as [Hl | Hl].
    + apply list_elem_of_singleton in Hl as ->.
      exists k, k. split; [done |]. split; [left | constructor].
    + destruct (IH HE' l Hl) as (k' & seed & ? & ? & ?).
      exists k', seed. split; [done |]. split; [by right | done].
  - assert (rows (after_drop self froms df) ⊆ E0) as HE'.
    { etrans; [apply sublist_subseteq, drop_from_sublist | done]. }
    assert (rows df1 ⊆ E0) as HE1.
    { apply expands_frame in Hsub as [_ Hsub].
      etrans; [by apply sublist_subseteq | done]. }
    destruct (by_equality k (rows df)) as [Htos' Hfroms'].
    rewrite Htos' in Htos. rewrite Hfroms' in Hfroms.
    injection Htos as <-. injection Hfroms as <-.
    apply elem_of_app in Hl as [Hl | Hl].
    + apply elem_of_cons in Hl as [-> | Hl].
      * exists k, k. split; [done |]. split; [left | constructor].
      * destruct (IH1 HE' l Hl) as (k' & near & Hk' & Hnear & Hpath).
        exists k', k. split; [done |]. split; [left |].
        apply rtc_l with near; [|done].
        apply elem_of_app in Hnear as [Hin | Hin];
          apply filter_entities_spec in Hin as [Hin _].
        -- apply targets_by_equality_spec in Hin as (e & He & Hfrom & Hto).
           exists e. split; [by apply HE | by left].
        -- apply sources_by_equality_spec in Hin as (e & He & Hfrom & Hto).
           exists e. split; [by apply HE | by right].
    + destruct (IH2 HE1 l Hl) as (k' & seed & ? & ? & ?).
      exists k', seed. split; [done |]. split; [by right | done].
Qed.

End Expansion.

(** *** Queries that are the tests they are meant to be *)

Lemma edge_dict_from e : edge_dict e !! "from" = Some (VStr (edge_from e)).
Proof.
  unfold edge_dict. rewrite !lookup_insert. repeat case_decide; congruence.
Qed.

Lemma edge_dict_to e : edge_dict e !! "to" = Some (VStr (edge_to e)).
Proof.
  unfold edge_dict. rewrite !lookup_insert. repeat case_decide; congruence.
Qed.

Lemma select_by (p : edge → bool) (P : edge → Prop) `{!∀ e, Decision (P e)} es :
  (∀ e, p e = bool_decide (P e)) → select (p <$> es) es = filter P es.
Proof.
  intros Hp. induction es as [|e es IH]; [done |].
  rewrite fmap_cons. cbn [select]. rewrite Hp, IH.
  by destruct (decide (P e)) as [He|He];
    [rewrite bool_decide_eq_true_2, filter_cons_True by done
    |rewrite bool_decide_eq_false_2, filter_cons_False by done].
Qed.

Lemma without_last_app k : without_last (k +:+ "'") = k.
Proof.
  induction k as [|c k IH]; [done |]. destruct k as [|d k]; [done |].
  change (without_last (String c (String d k) +:+ "'"))
    with (String c (without_last (String d k +:+ "'"))).
  by rewrite IH.
Qed.

Lemma between_from k : between "`from`=='" (from_is k) = k.
Proof. unfold between, from_is. apply without_last_app. Qed.

Lemma between_to k : between "`to`=='" (to_is k) = k.
Proof. unfold between, to_is. apply without_last_app. Qed.

(** [equality_test] answers by equality for every identifier. *)
Lemma equality_test_by_equality k es :
  targets_of equality_test k es = Ok (targets_by_equality k es)
  ∧ sources_of equality_test k es = Ok (sources_by_equality k es).
Proof.
  unfold targets_of, sources_of, query_column, equality_test,
    targets_by_equality, sources_by_equality.
  assert (Str.starts_with "`from`=='" (from_is k) = true) as -> by reflexivity.
  assert (Str.starts_with "`from`=='" (to_is k) = false) as -> by reflexivity.
  assert (Str.starts_with "`to`=='" (to_is k) = true) as -> by reflexivity.
  rewrite between_from, between_to, !length_fmap, !bool_decide_eq_true_2 by done.
  cbn [negb]. rewrite <- !list_fmap_compose. split; do 2 f_equal; apply select_by;
    intros e; unfold compose, cell_is; by rewrite ?edge_dict_from, ?edge_dict_to.
Qed.

(** The sample of the expression language answers by equality for the
    identifiers that it reads as they were put in. *)
Lemma equality_query_answers ids :
  Forall (λ k, parse (from_is k) = Some [[Compare "from" true k]]
               ∧ parse (to_is k) = Some [[Compare "to" true k]]) ids →
  answers_by_equality equality_query ids.
Proof.
  intros Hids k es Hk. eapply Forall_forall in Hids as [Hfrom Hto]; [|exact Hk].
  assert (known (edge_dict <$> es) "from" = true) as Hknown_from.
  { destruct es as [|e es]; [done |]. cbn [fmap list_fmap known existsb].
    by rewrite edge_dict_from. }
  assert (known (edge_dict <$> es) "to" = true) as Hknown_to.
  { destruct es as [|e es]; [done |]. cbn [fmap list_fmap known existsb].
    by rewrite edge_dict_to. }
  unfold targets_of, sources_of, query_column, equality_query,
    targets_by_equality, sources_by_equality.
  rewrite Hfrom, Hto. cbn [forallb column_of]. rewrite Hknown_from, Hknown_to.
  cbn [andb]. rewrite !length_fmap, !bool_decide_eq_true_2 by done.
  cbn [negb]. rewrite <- !list_fmap_compose. split; do 2 f_equal; apply select_by;
    intros e; unfold compose; cbn [existsb forallb holds];
    rewrite ?edge_dict_from, ?edge_dict_to;
    by destruct (bool_decide _).
Qed.

(** *** Queries that agree on the identifiers of a graph *)

Lemma endpoints_subseteq es es' : es' ⊆ es → endpoints es' ⊆ endpoints es.
Proof.
  intros Hsub k [Hk | Hk]%elem_of_app; apply elem_of_app; [left | right];
    apply list_elem_of_fmap in Hk as (e & -> & He);
    apply list_elem_of_fmap; exists e; auto.
Qed.

Lemma visit_all_agree query query' self node_map ids recurse recurse' :
  (∀ k es, k ∈ ids →
     targets_of query k es = targets_of query' k es
     ∧ sources_of query k es = sources_of query' k es) →
  (∀ seeds df, seeds ⊆ ids → endpoints (rows df) ⊆ ids →
     recurse seeds df = recurse' seeds df) →
  (∀ seeds df found df',
     recurse seeds df = Some (Ok (found, df')) → rows df' `sublist_of` rows df) →
  ∀ seeds df, seeds ⊆ ids → endpoints (rows df) ⊆ ids →
    visit_all query self node_map recurse seeds df
    = visit_all query' self node_map recurse' seeds df.
Proof.
  intros Hagree Hrec Hshrink seeds.
  induction seeds as [|k rest IH]; intros df Hseeds Hdf; [done |].
  assert (k ∈ ids) as Hk by (apply Hseeds; left).
  assert (rest ⊆ ids) as Hrest by (intros x Hx; apply Hseeds; by right).
  cbn [visit_all]. rewrite !visit_unfold.
  destruct (Hagree k (rows df) Hk) as [-> ->].
  destruct (node_map !! k) as [n|]; [|done].
  destruct (has_columns df); [|done].
  destruct (targets_of query' k (rows df)) as [tos|e] eqn:Htos; [|done].
  destruct (sources_of query' k (rows df)) as [froms|e] eqn:Hfroms; [|done].
  assert (_filter_entities self tos ++ _filter_entities self froms ⊆ ids) as Hnear.
  { intros x [Hx | Hx]%elem_of_app;
      apply (sublist_subseteq _ _ (filter_entities_sublist self _)) in Hx;
      apply Hdf, elem_of_app.
    - right. by eapply query_column_within.
    - left. by eapply query_column_within. }
  assert (endpoints (rows (after_drop self froms df)) ⊆ ids) as Hdrop.
  { etrans; [|exact Hdf]. apply endpoints_subseteq, sublist_subseteq, drop_from_sublist. }
  destruct (_filter_entities self tos ++ _filter_entities self froms) as [|k' ks].
  - by rewrite IH.
  - rewrite <- Hrec by done.
    destruct (recurse (k' :: ks) (after_drop self froms df))
      as [[[sub df1]|e]|] eqn:Hsub; [|done..].
    rewrite IH; [done | done |].
    etrans; [|exact Hdrop].
    apply endpoints_subseteq, sublist_subseteq. by eapply Hshrink.
Qed.

Lemma upto_agree query query' self node_map ids depth seeds df :
  (∀ k es, k ∈ ids →
     targets_of query k es = targets_of query' k es
     ∧ sources_of query k es = sources_of query' k es) →
  seeds ⊆ ids → endpoints (rows df) ⊆ ids →
  get_related_nodes_upto query depth self node_map seeds df
  = get_related_nodes_upto query' depth self node_map seeds df.
Proof.
  intros Hagree. revert seeds df.
  induction depth as [|depth IH]; intros seeds df Hseeds Hdf; [done |].
  cbn [get_related_nodes_upto]. apply (visit_all_agree _ _ _ _ ids); try done.
  intros seeds' df' found df'' Hrun.
  by apply upto_expands, expands_frame in Hrun as [_ ?].
Qed.

Lemma answers_agree query ids :
  answers_by_equality query ids →
  ∀ k es, k ∈ ids →
    targets_of query k es = targets_of equality_test k es
    ∧ sources_of query k es = sources_of equality_test k es.
Proof.
  intros Hquery k es Hk. destruct (Hquery k es Hk) as [-> ->].
  by destruct (equality_test_by_equality k es) as [-> ->].
Qed.

(** C2, as the code has it. The identifier of a node goes into the text of
    the two queries as it is. For a graph and seeds whose identifiers the
    queries take as they are meant (those without a quote or a backslash),
    the expansion terminates on every finite graph, cyclic or not: the
    recursion ends by itself within [enough_depth] nested calls, so that
    one and the same outcome (a list of nodes or an exception) comes out
    at every bound on the depth from there on, and it is what
    [_get_related_nodes] gives when the interpreter allows that depth.
    When it returns, every node of its result is held by [node_map] under
    an identifier that is reachable from a seed along edges of the frame
    it was given, taken in either direction. *)
Theorem related_expansion_terminates_and_reaches py query self found_nodes_ids edge_df
    node_map ids :
  answers_by_equality query ids →
  found_nodes_ids ⊆ ids →
  endpoints (rows edge_df) ⊆ ids →
  (∃ outcome,
      (∀ depth,
         enough_depth edge_df ≤ depth →
         get_related_nodes_upto query depth self node_map found_nodes_ids edge_df
         = Some outcome)
      ∧ (enough_depth edge_df ≤ recursion_limit py →
         _get_related_nodes py query self found_nodes_ids edge_df node_map
         = match outcome with
           | Ok (found, _) => Ok found
           | Raise e => Raise e
           end))
  ∧ (∀ found l,
       _get_related_nodes py query self found_nodes_ids edge_df node_map = Ok found →
       l ∈ found →
       ∃ k seed, node_map !! k = Some l
                 ∧ seed ∈ found_nodes_ids
                 ∧ reachable (rows edge_df) seed k).
Proof.
  intros Hquery Hseeds Hdf. pose proof (answers_agree _ _ Hquery) as Hagree.
  assert (∀ depth,
            get_related_nodes_upto query depth self node_map found_nodes_ids edge_df
            = get_related_nodes_upto equality_test depth self node_map
                found_nodes_ids edge_df) as Hsame.
  { intros depth. by apply (upto_agree _ _ _ _ ids). }
  split.
  - destruct (upto_finishes equality_test self node_map equality_test_by_equality
                found_nodes_ids edge_df (enough_depth edge_df)) as [outcome Hrun];
      [done |].
    assert (∀ depth, enough_depth edge_df ≤ depth →
              get_related_nodes_upto query depth self node_map found_nodes_ids edge_df
              = Some outcome) as Hall.
    { intros depth Hdepth. rewrite Hsame. by eapply upto_mono. }
    exists outcome. split; [exact Hall |].
    intros Hlimit. unfold _get_related_nodes. rewrite (Hall _ Hlimit).
    by destruct outcome as [[]|].
  - intros found l Hrun Hl.
    unfold _get_related_nodes in Hrun. rewrite Hsame in Hrun.
    destruct (get_related_nodes_upto equality_test _ _ _ _ _)
      as [[[found' df']|e]|] eqn:Hupto; try done.
    injection Hrun as <-. apply upto_expands in Hupto.
    by eapply (expands_reachable equality_test _ _ equality_test_by_equality).
Qed.

Lemma related_expansion_terminates_and_reaches_witness :
  answers_by_equality equality_query ["A"; "B"; "C"]
  ∧ ["A"] ⊆ ["A"; "B"; "C"]
  ∧ endpoints (rows (Sample.edge_df Sample.triangle)) ⊆ ["A"; "B"; "C"]
  ∧ enough_depth (Sample.edge_df Sample.triangle) ≤ recursion_limit Sample.python
  ∧ (∃ outcome,
        (∀ depth,
           enough_depth (Sample.edge_df Sample.triangle) ≤ depth →
           get_related_nodes_upto equality_query depth Sample.triangle
             (Sample.id_map Sample.triangle) ["A"] (Sample.edge_df Sample.triangle)
           = Some outcome)
        ∧ _get_related_nodes Sample.python equality_query Sample.triangle ["A"]
            (Sample.edge_df Sample.triangle) (Sample.id_map Sample.triangle)
          = match outcome with
            | Ok (found, _) => Ok found
            | Raise e => Raise e
            end)
  ∧ _get_related_nodes Sample.python equality_query Sample.triangle ["A"]
      (Sample.edge_df Sample.triangle) (Sample.id_map Sample.triangle)
    = Ok [1; 2; 3; 2; 1; 3]%positive
  ∧ 3%positive ∈ [1; 2; 3; 2; 1; 3]%positive
  ∧ ∃ k seed, Sample.id_map Sample.triangle !! k = Some 3%positive
              ∧ seed ∈ ["A"]
              ∧ reachable (rows (Sample.edge_df Sample.triangle)) seed k.
Proof.
  assert (answers_by_equality equality_query ["A"; "B"; "C"]) as Hquery
    by (apply equality_query_answers; repeat constructor).
  assert (["A"] ⊆ ["A"; "B"; "C"]) as Hseeds
    by (apply (bool_decide_unpack _); reflexivity).
  assert (endpoints (rows (Sample.edge_df Sample.triangle)) ⊆ ["A"; "B"; "C"]) as Hdf
    by (apply (bool_decide_unpack _); reflexivity).
  assert (enough_depth (Sample.edge_df Sample.triangle) ≤ recursion_limit Sample.python)
    as Hlimit by (apply (bool_decide_unpack _); reflexivity).
  destruct (related_expansion_terminates_and_reaches Sample.python equality_query
              Sample.triangle ["A"] (Sample.edge_df Sample.triangle)
              (Sample.id_map Sample.triangle) ["A"; "B"; "C"] Hquery Hseeds Hdf)
    as [(outcome & Hall & Hlimited) Hreach].
  assert (3%positive ∈ [1; 2; 3; 2; 1; 3]%positive) as Hin by (right; right; left).
  split; [exact Hquery |]. split; [exact Hseeds |]. split; [exact Hdf |].
  split; [exact Hlimit |].
  split; [exists outcome; split; [exact Hall | exact (Hlimited Hlimit)] |].
  split; [reflexivity |]. split; [exact Hin |].
  exact (Hreach _ _ eq_refl Hin).
Defined.

(** C9. Whatever the graph and the seeds, a node that the expansion returns
    is a seed or is held by [node_map] under an identifier that contains
    no marker of a switched-off category: "org" when [include_related_org] is off, "wf"
    when [include_related_wf] is off, "table" when
    [include_related_tables] is off. The related nodes it adds are free of
    the excluded markers. *)
Theorem related_nodes_respect_exclusions py query self found_nodes_ids edge_df node_map
    found l :
  _get_related_nodes py query self found_nodes_ids edge_df node_map = Ok found →
  l ∈ found →
  ∃ k, node_map !! k = Some l
       ∧ (k ∈ found_nodes_ids
          ∨ ((include_related_org self = false → Str.contains "org" k = false)
             ∧ (include_related_wf self = false → Str.contains "wf" k = false)
             ∧ (include_related_tables self = false → Str.contains "table" k = false))).
Proof.
  intros Hrun Hl. apply get_related_nodes_Ok in Hrun as [df' Hrun].
  by eapply expands_permitted.
Qed.

Lemma related_nodes_respect_exclusions_witness :
  _get_related_nodes Sample.python equality_query Sample.org_chart_without_org ["A"]
    (Sample.edge_df Sample.org_chart_without_org)
    (Sample.id_map Sample.org_chart_without_org)
  = Ok [1; 2; 1]%positive
  ∧ 2%positive ∈ [1; 2; 1]%positive
  ∧ ∃ k, Sample.id_map Sample.org_chart_without_org !! k = Some 2%positive
         ∧ (k ∈ ["A"]
            ∨ ((include_related_org Sample.org_chart_without_org = false →
                Str.contains "org" k = false)
               ∧ (include_related_wf Sample.org_chart_without_org = false →
                  Str.contains "wf" k = false)
               ∧ (include_related_tables Sample.org_chart_without_org = false →
                  Str.contains "table" k = false))).
Proof.
  assert (2%positive ∈ [1; 2; 1]%positive) as Hin by (right; left).
  split; [reflexivity |]. split; [exact Hin |].
  exact (related_nodes_respect_exclusions Sample.python equality_query
           Sample.org_chart_without_org ["A"]
           (Sample.edge_df Sample.org_chart_without_org)
           (Sample.id_map Sample.org_chart_without_org)
           [1; 2; 1]%positive 2%positive eq_refl Hin).
Defined.

(** With the category switched on, the same expansion does return the
    node org1. *)
Example related_nodes_with_org :
  _get_related_nodes Sample.python equality_query Sample.org_chart ["A"]
    (Sample.edge_df Sample.org_chart) (Sample.id_map Sample.org_chart)
  = Ok [1; 2; 1; 3]%positive.
Proof. reflexivity. Qed.

(** ** 4.2 and 4.3 Filters *)

Section Filters.
Variable py : interpreter.
Variable query : string → list (gmap string val) → option (list bool).

Lemma filter_nodes_unfold graph_data text related org wf tables self :
  _callback_filter_nodes py query graph_data text related org wf tables self
  = let self0 := set_filtered_data (data self) (set_flags related org wf tables self) in
    match filtered_nodes_of py query self0 text with
    | Ok ns =>
        (set_filtered_data (Graph ns (edges (data self))) self0,
         Ok (Graph ns (edges (data self))))
    | Raise e =>
        (set_console
           ((console self ++ [PrintTraceback e; PrintException e])
              ++ [Print ["wrong node filter query!!"]]) self0,
         Ok (data self))
    end.
Proof.
  unfold _callback_filter_nodes, filtered_nodes_of, mbind, M_bind, result_bind,
    try_except, modify, get_self, lift, print, mret, M_ret. simpl.
  destruct (query_ids _ _ _ _ _) as [ids|e]; [|done]. simpl.
  destruct (lookup_each _ _) as [found|e]; [|done]. simpl.
  destruct related; simpl; [|done].
  by destruct (_get_related_nodes _ _ _ _).
Qed.

Lemma filter_edges_unfold graph_data text self :
  _callback_filter_edges query graph_data text self
  = let self0 := set_filtered_data (data self) self in
    match query_ids query edge_dict edge_id
            (deref (edge_objs self) (edges (data self))) text with
    | Ok edges_list =>
        let g := Graph (nodes (data self))
                   (refs_where (edge_objs self)
                      (λ e, bool_decide (edge_id e ∈ edges_list))
                      (edges (data self))) in
        (set_filtered_data g self0, Ok g)
    | Raise _ =>
        (set_console (console self ++ [Print ["wrong edge filter query!!"]]) self0,
         Ok (data self))
    end.
Proof.
  unfold _callback_filter_edges, mbind, M_bind, try_except, modify, get_self,
    lift, print, mret, M_ret. simpl.
  by destruct (query_ids _ _ _ _ _).
Qed.

Lemma query_ids_fails {A : Type} (view : A → gmap string val) ident table text :
  query text (view <$> table) = None →
  query_ids query view ident table text = Raise QueryError.
Proof. unfold query_ids. by intros ->. Qed.

(** *** Tables, masks and the dict of nodes *)

Lemma select_sublist {A : Type} (mask : list bool) (table : list A) :
  select mask table `sublist_of` table.
Proof.
  revert table. induction mask as [|b mask IH]; intros [|x table]; simpl;
    try apply sublist_nil_l.
  destruct b; [by apply sublist_skip | by apply sublist_cons].
Qed.

Lemma elem_of_deref {A : Type} (h : gmap loc A) refs x :
  x ∈ deref h refs ↔ ∃ l, l ∈ refs ∧ h !! l = Some x.
Proof. unfold deref. by rewrite list_elem_of_omap. Qed.

Lemma build_node_map_snoc h refs r :
  build_node_map h (refs ++ [r])
  = match h !! r with
    | Some n => <[node_id n := r]> (build_node_map h refs)
    | None => build_node_map h refs
    end.
Proof. unfold build_node_map. by rewrite foldl_app. Qed.

(** A key of [node_map] is the identifier of the node it leads to. *)
Lemma build_node_map_lookup h refs k l :
  build_node_map h refs !! k = Some l →
  l ∈ refs ∧ ∃ n, h !! l = Some n ∧ node_id n = k.
Proof.
  induction refs as [|r refs IH] using rev_ind; [done |].
  rewrite build_node_map_snoc. destruct (h !! r) as [n|] eqn:Hr.
  - destruct (decide (node_id n = k)) as [<-|Hne].
    + rewrite lookup_insert_eq. intros [= <-].
      split; [apply elem_of_app; right; left | eauto].
    + rewrite lookup_insert_ne by done. intros [Hl Hn]%IH.
      split; [apply elem_of_app; by left | done].
  - intros [Hl Hn]%IH. split; [apply elem_of_app; by left | done].
Qed.

(** Every node of the list has its identifier among the keys. *)
Lemma build_node_map_is_Some h refs l n :
  l ∈ refs → h !! l = Some n → is_Some (build_node_map h refs !! node_id n).
Proof.
  induction refs as [|r refs IH] using rev_ind; intros Hl Hn;
    [by apply elem_of_nil in Hl |].
  rewrite build_node_map_snoc.
  apply elem_of_app in Hl as [Hl | Hl].
  - destruct (h !! r) as [n'|]; [|by apply IH].
    destruct (decide (node_id n' = node_id n)) as [->|Hne].
    + rewrite lookup_insert_eq. eauto.
    + rewrite lookup_insert_ne by done. by apply IH.
  - apply list_elem_of_singleton in Hl as ->. rewrite Hn, lookup_insert_eq. eauto.
Qed.

Lemma lookup_each_Ok node_map ids found :
  lookup_each node_map ids = Ok found →
  Forall2 (λ k l, node_map !! k = Some l) ids found.
Proof.
  revert found. induction ids as [|k ids IH]; intros found; simpl.
  - intros [= <-]. constructor.
  - destruct (node_map !! k) as [l|] eqn:Hk; [|done].
    destruct (lookup_each node_map ids) as [ls|e]; [|done]. simpl.
    intros [= <-]. constructor; auto.
Qed.

Lemma lookup_each_total node_map ids :
  Forall (λ k, is_Some (node_map !! k)) ids →
  ∃ found, lookup_each node_map ids = Ok found.
Proof.
  induction 1 as [|k ids [l Hk] _ [found IH]]; simpl; [by eexists |].
  rewrite Hk, IH. simpl. by eexists.
Qed.

End Filters.

(** C2 as worded fails: the identifier [x' or `to`!='] of the seed turns
    the two queries into [`from`=='x' or `to`!=''] and
    [`to`=='x' or `to`!=''], which select every row of the frame. The
    expansion returns the nodes b and a with the seed, and no edge links
    either of them to the seed. *)
Lemma expansion_reaches_an_unlinked_node :
  let seed := "x' or `to`!='" in
  let edge_df := Sample.edge_df Sample.quoted in
  let node_map := Sample.id_map Sample.quoted in
  from_is seed = "`from`=='x' or `to`!=''"
  ∧ rows edge_df = [Sample.plain_edge "a" "b"]
  ∧ _get_related_nodes Sample.python equality_query Sample.quoted [seed] edge_df node_map
    = Ok [1; 3; 2]%positive
  ∧ ¬ ∃ k seed', node_map !! k = Some 3%positive
                 ∧ seed' ∈ [seed]
                 ∧ reachable (rows edge_df) seed' k.
Proof.
  split; [reflexivity |]. split; [reflexivity |]. split; [reflexivity |].
  intros (k & seed' & Hk & Hseed & Hreach).
  apply build_node_map_lookup in Hk as (_ & n & Hn & <-).
  injection Hn as <-. apply list_elem_of_singleton in Hseed as ->.
  apply rtc_inv in Hreach as [Heq | (y & (e & He & Hlink) & _)]; [discriminate Heq |].
  apply list_elem_of_singleton in He as ->.
  destruct Hlink as [[Hfrom _] | [_ Hto]]; [discriminate Hfrom | discriminate Hto].
Qed.

(** C8. When the expression fails to evaluate (malformed, or naming an
    unknown attribute), the node filter and the edge filter do not raise:
    each returns the full dataset as the snapshot to display, leaves the
    filtered view equal to the full dataset and reports the failure on the
    console. *)
Theorem failed_filter_falls_back py query graph_data text related org wf tables self :
  (query text (node_dict <$> deref (node_objs self) (nodes (data self))) = None →
   let after := _callback_filter_nodes py query graph_data text related org wf tables self in
   after.2 = Ok (data self)
   ∧ filtered_data after.1 = data self
   ∧ data after.1 = data self
   ∧ node_objs after.1 = node_objs self
   ∧ edge_objs after.1 = edge_objs self
   ∧ console after.1
     = console self ++ [PrintTraceback QueryError; PrintException QueryError;
                        Print ["wrong node filter query!!"]])
  ∧ (query text (edge_dict <$> deref (edge_objs self) (edges (data self))) = None →
     let after := _callback_filter_edges query graph_data text self in
     after.2 = Ok (data self)
     ∧ filtered_data after.1 = data self
     ∧ data after.1 = data self
     ∧ node_objs after.1 = node_objs self
     ∧ edge_objs after.1 = edge_objs self
     ∧ console after.1 = console self ++ [Print ["wrong edge filter query!!"]]).
Proof.
  split; intros Hfail.
  - rewrite filter_nodes_unfold. unfold filtered_nodes_of. simpl.
    rewrite (query_ids_fails query) by done. simpl.
    repeat split. by rewrite <- app_assoc.
  - rewrite filter_edges_unfold. simpl.
    rewrite (query_ids_fails query) by done. simpl. done.
Qed.

Lemma failed_filter_falls_back_witness :
  equality_query "idd=='A'"
    (node_dict <$> deref (node_objs Sample.two_nodes) (nodes (data Sample.two_nodes)))
  = None
  ∧ equality_query "idd=='A'"
      (edge_dict <$> deref (edge_objs Sample.two_nodes) (edges (data Sample.two_nodes)))
    = None
  ∧ (let after := _callback_filter_nodes Sample.python equality_query (Graph [] []) "idd=='A'"
                    true true true true Sample.two_nodes in
     after.2 = Ok (data Sample.two_nodes)
     ∧ filtered_data after.1 = data Sample.two_nodes
     ∧ data after.1 = data Sample.two_nodes
     ∧ node_objs after.1 = node_objs Sample.two_nodes
     ∧ edge_objs after.1 = edge_objs Sample.two_nodes
     ∧ console after.1
       = console Sample.two_nodes
           ++ [PrintTraceback QueryError; PrintException QueryError;
               Print ["wrong node filter query!!"]])
  ∧ (let after := _callback_filter_edges equality_query (Graph [] []) "idd=='A'"
                    Sample.two_nodes in
     after.2 = Ok (data Sample.two_nodes)
     ∧ filtered_data after.1 = data Sample.two_nodes
     ∧ data after.1 = data Sample.two_nodes
     ∧ node_objs after.1 = node_objs Sample.two_nodes
     ∧ edge_objs after.1 = edge_objs Sample.two_nodes
     ∧ console after.1
       = console Sample.two_nodes ++ [Print ["wrong edge filter query!!"]]).
Proof.
  destruct (failed_filter_falls_back Sample.python equality_query (Graph [] []) "idd=='A'"
              true true true true Sample.two_nodes) as [Hnodes Hedges].
  split; [reflexivity |]. split; [reflexivity |].
  split; [exact (Hnodes eq_refl) | exact (Hedges eq_refl)].
Defined.


(** C10. Category exclusion never applies to the nodes that the expression
    itself selects: whatever the flags, each selected node is in the node
    list [_callback_filter_nodes] returns, also when its identifier
    contains the marker of a switched-off category. [_filter_entities] is
    applied to the candidates of the expansion only. *)
Theorem seeds_escape_category_exclusion py query graph_data text related org wf tables
    self mask n :
  query text (node_dict <$> deref (node_objs self) (nodes (data self))) = Some mask →
  n ∈ select mask (deref (node_objs self) (nodes (data self))) →
  let after := _callback_filter_nodes py query graph_data text related org wf tables self in
  ∃ g l, after.2 = Ok g
         ∧ l ∈ nodes g
         ∧ node_id <$> node_objs after.1 !! l = Some (node_id n).
Proof.
  intros Hq Hn. rewrite filter_nodes_unfold. simpl.
  destruct (filtered_nodes_of _ _ _) as [ns|e] eqn:Hf; simpl.
  - unfold filtered_nodes_of, query_ids in Hf. simpl in Hf. rewrite Hq in Hf.
    destruct (negb _); [done |].
    destruct (deref (node_objs self) (nodes (data self))) as [|x table] eqn:Htable;
      [done |].
    simpl in Hf.
    destruct (lookup_each _ _) as [found|e] eqn:Hfound; [|done]. simpl in Hf.
    apply lookup_each_Ok in Hfound.
    assert (node_id n ∈ node_id <$> select mask (x :: table)) as Hk
      by (by apply list_elem_of_fmap_2).
    apply list_elem_of_lookup in Hk as [i Hi].
    destruct (Forall2_lookup_l _ _ _ _ _ Hfound Hi) as (l & Hl & Hmap).
    apply build_node_map_lookup in Hmap as (_ & n' & Hn' & Hid).
    assert (l ∈ ns) as Hin.
    { destruct (if related then _ else _) as [more|e]; [|done].
      injection Hf as <-. apply elem_of_app. left.
      by eapply list_elem_of_lookup_2. }
    exists (Graph ns (edges (data self))), l.
    split; [done |]. split; [done |]. by rewrite Hn', <- Hid.
  - apply (sublist_subseteq _ _ (select_sublist _ _)) in Hn.
    apply elem_of_deref in Hn as (l & Hl & Hn).
    exists (data self), l. split; [done |]. split; [done |]. by rewrite Hn.
Qed.

Lemma seeds_escape_category_exclusion_witness :
  equality_query "id=='org1'"
    (node_dict <$> deref (node_objs Sample.org_chart) (nodes (data Sample.org_chart)))
  = Some [false; false; true]
  ∧ Sample.plain_node "org1" "Org one"
    ∈ select [false; false; true]
        (deref (node_objs Sample.org_chart) (nodes (data Sample.org_chart)))
  ∧ let after := _callback_filter_nodes Sample.python equality_query (Graph [] []) "id=='org1'"
                   true false true true Sample.org_chart in
    ∃ g l, after.2 = Ok g
           ∧ l ∈ nodes g
           ∧ node_id <$> node_objs after.1 !! l
             = Some (node_id (Sample.plain_node "org1" "Org one")).
Proof.
  assert (Sample.plain_node "org1" "Org one"
          ∈ select [false; false; true]
              (deref (node_objs Sample.org_chart) (nodes (data Sample.org_chart))))
    as Hin by left.
  split; [reflexivity |]. split; [exact Hin |].
  exact (seeds_escape_category_exclusion Sample.python equality_query (Graph [] []) "id=='org1'"
           true false true true Sample.org_chart [false; false; true]
           (Sample.plain_node "org1" "Org one") eq_refl Hin).
Defined.

(** The instance of C10 in full: "org" is switched off, the expression
    selects org1, and the filtered view lists org1 (node 3), twice, next to
    its neighbour A. *)
Example excluded_category_seed_is_shown :
  (_callback_filter_nodes Sample.python equality_query (Graph [] []) "id=='org1'"
     true false true true Sample.org_chart).2
  = Ok (Graph [3; 3; 1]%positive [1; 2]%positive)
  ∧ Str.contains "org" "org1" = true.
Proof. split; reflexivity. Qed.

Lemma elem_of_refs_where {A : Type} (h : gmap loc A) (p : A → bool) refs l :
  l ∈ refs_where h p refs ↔ l ∈ refs ∧ ∃ x, h !! l = Some x ∧ p x = true.
Proof.
  unfold refs_where. rewrite list_elem_of_filter. split.
  - intros [Hp Hl]. split; [done |].
    destruct (h !! l) as [x|]; [|done]. injection Hp as Hp. eauto.
  - intros [Hl (x & Hx & Hp)]. split; [|done]. by rewrite Hx, <- Hp.
Qed.

Lemma refs_where_sublist {A : Type} (h : gmap loc A) (p : A → bool) refs :
  refs_where h p refs `sublist_of` refs.
Proof. apply sublist_filter. Qed.

(** C4, as the code has it. The edge filter evaluates the expression
    against the full edge table and rebuilds the filtered view from the
    full dataset: its edge list becomes the edges of the full dataset
    whose identifier is among the matching ones, in the order of the full
    dataset, and its node list is reset to the full node list. *)
Theorem edge_filter_rebuilds_from_full_dataset query graph_data text self edges_list :
  query_ids query edge_dict edge_id (deref (edge_objs self) (edges (data self))) text
  = Ok edges_list →
  let after := _callback_filter_edges query graph_data text self in
  after.2 = Ok (filtered_data after.1)
  ∧ nodes (filtered_data after.1) = nodes (data self)
  ∧ (∀ l, l ∈ edges (filtered_data after.1)
          ↔ l ∈ edges (data self)
            ∧ ∃ e, edge_objs self !! l = Some e ∧ edge_id e ∈ edges_list)
  ∧ edges (filtered_data after.1) `sublist_of` edges (data self)
  ∧ data after.1 = data self
  ∧ node_objs after.1 = node_objs self
  ∧ edge_objs after.1 = edge_objs self.
Proof.
  intros Hq. rewrite filter_edges_unfold. simpl. rewrite Hq. simpl.
  split; [done |]. split; [done |]. split; [|split; [apply refs_where_sublist | done]].
  intros l. rewrite elem_of_refs_where.
  split; intros [Hl (e & He & Hp)]; (split; [done |]); exists e; (split; [done |]).
  - by apply bool_decide_eq_true in Hp.
  - by apply bool_decide_eq_true.
Qed.

Lemma edge_filter_rebuilds_from_full_dataset_witness :
  query_ids equality_query edge_dict edge_id
    (deref (edge_objs Sample.triangle) (edges (data Sample.triangle))) "to=='C'"
  = Ok ["B__C"]
  ∧ let after := _callback_filter_edges equality_query (Graph [] []) "to=='C'"
                   Sample.triangle in
    after.2 = Ok (filtered_data after.1)
    ∧ nodes (filtered_data after.1) = nodes (data Sample.triangle)
    ∧ (∀ l, l ∈ edges (filtered_data after.1)
            ↔ l ∈ edges (data Sample.triangle)
              ∧ ∃ e, edge_objs Sample.triangle !! l = Some e ∧ edge_id e ∈ ["B__C"])
    ∧ edges (filtered_data after.1) `sublist_of` edges (data Sample.triangle)
    ∧ data after.1 = data Sample.triangle
    ∧ node_objs after.1 = node_objs Sample.triangle
    ∧ edge_objs after.1 = edge_objs Sample.triangle.
Proof.
  split; [reflexivity |].
  exact (edge_filter_rebuilds_from_full_dataset equality_query (Graph [] [])
           "to=='C'" Sample.triangle ["B__C"] eq_refl).
Defined.

(** C4 as worded fails: a node filter leaves node A alone in the filtered
    view, and the edge filter that follows puts node B back. *)
Lemma edge_filter_discards_node_filter :
  let before :=
    (_callback_filter_nodes Sample.python equality_query (Graph [] []) "id=='A'"
       false true true true Sample.two_nodes).1 in
  let after :=
    (_callback_filter_edges equality_query (filtered_data before) "id=='A__B'"
       before).1 in
  nodes (filtered_data before) = [1%positive]
  ∧ nodes (filtered_data after) = [1%positive; 2%positive]
  ∧ nodes (filtered_data after) ≠ nodes (filtered_data before).
Proof. split; [reflexivity |]. split; [reflexivity |]. discriminate. Qed.

(** ** 4.4 and 4.5 Colouring and sizing *)

(** The loop raises at the first dict on which its body does, before it
    has written anything when that dict is the first. *)
Lemma update_each_raises_first {A : Type} (body : A → result A) refs h x rest e :
  deref h refs = x :: rest →
  body x = Raise e →
  update_each body refs h = (h, Raise e).
Proof.
  unfold deref. induction refs as [|r refs IH]; simpl; [done |].
  destruct (h !! r) as [y|] eqn:Hr; simpl.
  - intros [= -> _] Hbody. by rewrite Hbody.
  - auto.
Qed.

Lemma update_each_no_object {A : Type} (body : A → result A) refs h :
  deref h refs = [] → update_each body refs h = (h, Ok tt).
Proof.
  unfold deref. induction refs as [|r refs IH]; simpl; [done |].
  destruct (h !! r) as [y|] eqn:Hr; simpl; [done | auto].
Qed.

Section Sizing.
Variable py : interpreter.
Variable DEFAULT_NODE_SIZE : number.
Variable DEFAULT_EDGE_SIZE : number.

(** The sizing of nodes by an attribute, up to the point where its loop
    ends. *)
Lemma size_nodes_unfold graph_data attr self :
  attr ≠ "None" →
  _callback_size_nodes py DEFAULT_NODE_SIZE graph_data attr self
  = let self0 :=
      set_console (console self ++ [Print ["Modifying node size using "; attr]]) self in
    match bounds_of (scaling_node (scaling_vars self)) attr with
    | Raise e => (self0, Raise e)
    | Ok (minn, maxx) =>
        match update_each
                (λ n, x ← item (node_dict n) attr;
                      d ← scale_val py minn maxx x;
                      s ← num_add py (node_size n) d;
                      Ok (set_size s n))
                (nodes (data self)) (node_objs self) with
        | (h, Raise e) => (set_node_objs h self0, Raise e)
        | (h, Ok _) =>
            let self1 := set_node_objs h self0 in
            let self2 := (refilter_nodes self1).1 in
            (self2, Ok (filtered_data self2))
        end
    end.
Proof.
  intros Hattr.
  unfold _callback_size_nodes, mbind, M_bind, modify, get_self, lift, print,
    mret, M_ret, for_each_node.
  rewrite bool_decide_eq_false_2 by done. simpl.
  destruct (bounds_of _ _) as [[minn maxx]|e]; [|done]. simpl.
  by destruct (update_each _ _ _) as [h [[]|e]].
Qed.

Lemma size_edges_unfold graph_data attr self :
  attr ≠ "None" →
  _callback_size_edges py DEFAULT_EDGE_SIZE graph_data attr self
  = let self0 :=
      set_console (console self ++ [Print ["Modifying edge size using "; attr]]) self in
    match bounds_of (scaling_edge (scaling_vars self)) attr with
    | Raise e => (self0, Raise e)
    | Ok (minn, maxx) =>
        match update_each
                (λ e, x ← item (edge_dict e) attr;
                      d ← scale_val py minn maxx x;
                      Ok (set_width d e))
                (edges (data self)) (edge_objs self) with
        | (h, Raise e) => (set_edge_objs h self0, Raise e)
        | (h, Ok _) =>
            let self1 := set_edge_objs h self0 in
            let self2 := (refilter_edges self1).1 in
            (self2, Ok (filtered_data self2))
        end
    end.
Proof.
  intros Hattr.
  unfold _callback_size_edges, mbind, M_bind, modify, get_self, lift, print,
    mret, M_ret, for_each_edge.
  rewrite bool_decide_eq_false_2 by done. simpl.
  destruct (bounds_of _ _) as [[minn maxx]|e]; [|done]. simpl.
  by destruct (update_each _ _ _) as [h [[]|e]].
Qed.

End Sizing.

Section Colouring.
Variable get_distinct_colors : nat → list string.
Variable DEFAULT_COLOR : string.

Lemma color_nodes_unfold graph_data attr self :
  attr ≠ "None" →
  _callback_color_nodes get_distinct_colors DEFAULT_COLOR graph_data attr self
  = let self0 :=
      set_console (console self ++ [Print ["inside color node"; attr]]) self in
    match unique_of_column node_dict (deref (node_objs self) (nodes (data self))) attr with
    | Raise e => (self0, Raise e)
    | Ok unique_values =>
        let mapping :=
          zip unique_values (get_distinct_colors (length unique_values)) in
        match update_each
                (λ n, v ← item (node_dict n) attr;
                      c ← color_of mapping v;
                      Ok (set_color c n))
                (nodes (data self)) (node_objs self) with
        | (h, Raise e) => (set_node_objs h self0, Raise e)
        | (h, Ok _) =>
            let self2 := (refilter_nodes (set_node_objs h self0)).1 in
            (self2, Ok (filtered_data self2, mapping))
        end
    end.
Proof.
  intros Hattr.
  unfold _callback_color_nodes, mbind, M_bind, modify, get_self, lift, print,
    mret, M_ret, for_each_node.
  rewrite bool_decide_eq_false_2 by done. simpl.
  destruct (unique_of_column _ _ _) as [unique_values|e]; [|done]. simpl.
  by destruct (update_each _ _ _) as [h [[]|e]].
Qed.

Lemma color_edges_unfold graph_data attr self :
  attr ≠ "None" →
  _callback_color_edges get_distinct_colors DEFAULT_COLOR graph_data attr self
  = let self0 :=
      set_console (console self ++ [Print ["inside color edge"; attr]]) self in
    match unique_of_column edge_dict (deref (edge_objs self) (edges (data self))) attr with
    | Raise e => (self0, Raise e)
    | Ok unique_values =>
        let mapping :=
          zip unique_values (get_distinct_colors (length unique_values)) in
        match update_each
                (λ e, v ← item (edge_dict e) attr;
                      c ← color_of mapping v;
                      Ok (set_edge_color c e))
                (edges (data self)) (edge_objs self) with
        | (h, Raise e) => (set_edge_objs h self0, Raise e)
        | (h, Ok _) =>
            let self2 := (refilter_edges (set_edge_objs h self0)).1 in
            (self2, Ok (filtered_data self2, mapping))
        end
    end.
Proof.
  intros Hattr.
  unfold _callback_color_edges, mbind, M_bind, modify, get_self, lift, print,
    mret, M_ret, for_each_edge.
  rewrite bool_decide_eq_false_2 by done. simpl.
  destruct (unique_of_column _ _ _) as [unique_values|e]; [|done]. simpl.
  by destruct (update_each _ _ _) as [h [[]|e]].
Qed.

End Colouring.

(** A table none of whose rows has the attribute has no such column. *)
Lemma unique_of_column_missing {A : Type} (view : A → gmap string val) table attr :
  (∀ x, x ∈ table → view x !! attr = None) →
  unique_of_column view table attr = Raise KeyError.
Proof.
  intros Hnone. unfold unique_of_column.
  assert (forallb (λ c : option val, negb (bool_decide (is_Some c)))
            ((λ x, view x !! attr) <$> table) = true) as ->; [|done].
  apply forallb_forall. intros c Hc.
  apply list_elem_of_In, list_elem_of_fmap in Hc as (x & -> & Hx).
  rewrite (Hnone x Hx). done.
Qed.

(** C5, as the code has it. A colour or size operation invoked with an
    attribute that is missing, from the scaling bounds or from the data,
    does not catch the lookup failure: it raises [KeyError] to its caller;
    no dict is written, the filtered view stays as it was, and there is no
    fall-back to the full dataset. *)
Theorem missing_attribute_propagates py get_distinct_colors default_color
    default_node_size default_edge_size graph_data attr self :
  attr ≠ "None" →
  ((scaling_node (scaling_vars self) !! attr = None
    ∨ ∃ n rest, deref (node_objs self) (nodes (data self)) = n :: rest
                ∧ node_dict n !! attr = None) →
   let after := _callback_size_nodes py default_node_size graph_data attr self in
   after.2 = Raise KeyError ∧ untouched self after.1)
  ∧ ((scaling_edge (scaling_vars self) !! attr = None
      ∨ ∃ e rest, deref (edge_objs self) (edges (data self)) = e :: rest
                  ∧ edge_dict e !! attr = None) →
     let after := _callback_size_edges py default_edge_size graph_data attr self in
     after.2 = Raise KeyError ∧ untouched self after.1)
  ∧ ((∀ n, n ∈ deref (node_objs self) (nodes (data self)) → node_dict n !! attr = None) →
     let after :=
       _callback_color_nodes get_distinct_colors default_color graph_data attr self in
     after.2 = Raise KeyError ∧ untouched self after.1)
  ∧ ((∀ e, e ∈ deref (edge_objs self) (edges (data self)) → edge_dict e !! attr = None) →
     let after :=
       _callback_color_edges get_distinct_colors default_color graph_data attr self in
     after.2 = Raise KeyError ∧ untouched self after.1).
Proof.
  intros Hattr. repeat apply conj.
  - intros Hmiss. rewrite size_nodes_unfold by done. unfold bounds_of.
    destruct (scaling_node (scaling_vars self) !! attr) as [[minn maxx]|] eqn:Hb;
      [|done].
    destruct Hmiss as [? | (n & rest & Hfirst & Hnone)]; [done |]. simpl.
    erewrite update_each_raises_first; [done | exact Hfirst |].
    unfold item. by rewrite Hnone.
  - intros Hmiss. rewrite size_edges_unfold by done. unfold bounds_of.
    destruct (scaling_edge (scaling_vars self) !! attr) as [[minn maxx]|] eqn:Hb;
      [|done].
    destruct Hmiss as [? | (e & rest & Hfirst & Hnone)]; [done |]. simpl.
    erewrite update_each_raises_first; [done | exact Hfirst |].
    unfold item. by rewrite Hnone.
  - intros Hnone. rewrite color_nodes_unfold by done. simpl.
    by rewrite unique_of_column_missing.
  - intros Hnone. rewrite color_edges_unfold by done. simpl.
    by rewrite unique_of_column_missing.
Qed.

Lemma missing_attribute_propagates_witness :
  "height" ≠ "None"
  ∧ (scaling_node (scaling_vars Sample.flat_weights) !! "height" = None
     ∨ ∃ n rest,
         deref (node_objs Sample.flat_weights) (nodes (data Sample.flat_weights))
         = n :: rest
         ∧ node_dict n !! "height" = None)
  ∧ (scaling_edge (scaling_vars Sample.flat_weights) !! "height" = None
     ∨ ∃ e rest,
         deref (edge_objs Sample.flat_weights) (edges (data Sample.flat_weights))
         = e :: rest
         ∧ edge_dict e !! "height" = None)
  ∧ (∀ n, n ∈ deref (node_objs Sample.flat_weights) (nodes (data Sample.flat_weights)) →
          node_dict n !! "height" = None)
  ∧ (∀ e, e ∈ deref (edge_objs Sample.flat_weights) (edges (data Sample.flat_weights)) →
          edge_dict e !! "height" = None)
  ∧ (let after := _callback_size_nodes Sample.python Sample.DEFAULT_NODE_SIZE (Graph [] [])
                    "height" Sample.flat_weights in
     after.2 = Raise KeyError ∧ untouched Sample.flat_weights after.1)
  ∧ (let after := _callback_size_edges Sample.python Sample.DEFAULT_EDGE_SIZE (Graph [] [])
                    "height" Sample.flat_weights in
     after.2 = Raise KeyError ∧ untouched Sample.flat_weights after.1)
  ∧ (let after := _callback_color_nodes Sample.get_distinct_colors
                    Sample.DEFAULT_COLOR (Graph [] []) "height" Sample.flat_weights in
     after.2 = Raise KeyError ∧ untouched Sample.flat_weights after.1)
  ∧ (let after := _callback_color_edges Sample.get_distinct_colors
                    Sample.DEFAULT_COLOR (Graph [] []) "height" Sample.flat_weights in
     after.2 = Raise KeyError ∧ untouched Sample.flat_weights after.1).
Proof.
  assert ("height" ≠ "None") as Hattr by discriminate.
  assert (scaling_node (scaling_vars Sample.flat_weights) !! "height" = None
          ∨ ∃ n rest,
              deref (node_objs Sample.flat_weights) (nodes (data Sample.flat_weights))
              = n :: rest
              ∧ node_dict n !! "height" = None) as Hnode.
  { right. eexists _, _. split; reflexivity. }
  assert (scaling_edge (scaling_vars Sample.flat_weights) !! "height" = None
          ∨ ∃ e rest,
              deref (edge_objs Sample.flat_weights) (edges (data Sample.flat_weights))
              = e :: rest
              ∧ edge_dict e !! "height" = None) as Hedge.
  { right. eexists _, _. split; reflexivity. }
  assert (∀ n, n ∈ deref (node_objs Sample.flat_weights)
                     (nodes (data Sample.flat_weights)) →
               node_dict n !! "height" = None) as Hnodes.
  { intros n Hn. change (n ∈ [Sample.weighted_node "A" "Alpha" 5;
                              Sample.weighted_node "B" "Beta" 5]) in Hn.
    apply elem_of_cons in Hn as [-> | Hn]; [reflexivity |].
    apply list_elem_of_singleton in Hn as ->. reflexivity. }
  assert (∀ e, e ∈ deref (edge_objs Sample.flat_weights)
                     (edges (data Sample.flat_weights)) →
               edge_dict e !! "height" = None) as Hedges.
  { intros e He. change (e ∈ [Sample.weighted_edge "A" "B" 5]) in He.
    apply list_elem_of_singleton in He as ->. reflexivity. }
  destruct (missing_attribute_propagates Sample.python Sample.get_distinct_colors
              Sample.DEFAULT_COLOR Sample.DEFAULT_NODE_SIZE Sample.DEFAULT_EDGE_SIZE
              (Graph [] []) "height" Sample.flat_weights Hattr)
    as (H1 & H2 & H3 & H4).
  split; [exact Hattr |]. split; [exact Hnode |]. split; [exact Hedge |].
  split; [exact Hnodes |]. split; [exact Hedges |].
  split; [exact (H1 Hnode) |]. split; [exact (H2 Hedge) |].
  split; [exact (H3 Hnodes) | exact (H4 Hedges)].
Defined.

(** C5 as worded fails: sizing or colouring the nodes by "depth", an
    attribute that neither the bounds nor the data have, raises; nothing
    is caught and no snapshot is returned. *)
Lemma missing_attribute_is_not_caught :
  (_callback_size_nodes Sample.python Sample.DEFAULT_NODE_SIZE (Graph [] []) "depth"
     Sample.flat_weights).2 = Raise KeyError
  ∧ (_callback_color_nodes Sample.get_distinct_colors Sample.DEFAULT_COLOR
       (Graph [] []) "depth" Sample.flat_weights).2 = Raise KeyError
  ∧ ¬ returns (_callback_size_nodes Sample.python Sample.DEFAULT_NODE_SIZE (Graph [] []) "depth"
                 Sample.flat_weights).2
  ∧ ¬ returns (_callback_color_nodes Sample.get_distinct_colors Sample.DEFAULT_COLOR
                 (Graph [] []) "depth" Sample.flat_weights).2.
Proof. repeat split; try reflexivity; intros []. Qed.

(** ** Invariants of the filtered view *)

#[global] Instance same_identities_refl : Reflexive same_identities.
Proof. by intros self. Qed.

#[global] Instance same_identities_trans : Transitive same_identities.
Proof.
  intros s1 s2 s3 (Hd & Hf & Hn & He) (Hd' & Hf' & Hn' & He').
  split; [congruence |]. split; [congruence |].
  split; intros l; [by rewrite Hn', Hn | by rewrite He', He].
Qed.

Lemma deref_ids {A : Type} (ident : A → string) (h h' : gmap loc A) refs :
  (∀ l, ident <$> h' !! l = ident <$> h !! l) →
  ident <$> deref h' refs = ident <$> deref h refs.
Proof.
  intros Hid. unfold deref. induction refs as [|r refs IH]; simpl; [done |].
  specialize (Hid r).
  destruct (h' !! r) as [x'|], (h !! r) as [x|]; simpl in *; try done.
  injection Hid as Hid. f_equal; [exact Hid | exact IH].
Qed.

Lemma same_identities_node_ids self self' refs :
  same_identities self self' → node_ids self' refs = node_ids self refs.
Proof. intros (_ & _ & Hn & _). by apply deref_ids. Qed.

Lemma same_identities_edge_ids self self' refs :
  same_identities self self' → edge_ids self' refs = edge_ids self refs.
Proof. intros (_ & _ & _ & He). by apply deref_ids. Qed.

Lemma deref_sublist {A : Type} (h : gmap loc A) refs refs' :
  refs' `sublist_of` refs → deref h refs' `sublist_of` deref h refs.
Proof.
  unfold deref. induction 1 as [|r refs' refs _ IH|r refs' refs _ IH]; simpl.
  - done.
  - destruct (h !! r); [by apply sublist_skip | done].
  - destruct (h !! r); [by apply sublist_cons | done].
Qed.

Lemma deref_subseteq {A : Type} (h : gmap loc A) refs refs' :
  refs' ⊆ refs → deref h refs' ⊆ deref h refs.
Proof.
  intros Hsub x (l & Hl & Hx)%elem_of_deref. apply elem_of_deref. eauto.
Qed.

(** The loops of the callbacks write ['hidden'], ['size'], ['color'] or
    ['width'], never ['id']. *)
Lemma update_each_ids {A : Type} (ident : A → string) (body : A → result A) refs h l :
  (∀ x x', body x = Ok x' → ident x' = ident x) →
  ident <$> (update_each body refs h).1 !! l = ident <$> h !! l.
Proof.
  intros Hbody. destruct (h !! l) as [x|] eqn:Hl.
  - assert (Reflexive (λ x x' : A, ident x' = ident x)) as Hrefl by (by intros ?).
    assert (Transitive (λ x x' : A, ident x' = ident x)) as Htrans
      by (intros ? ? ? ? ?; congruence).
    destruct (update_each_related (λ x x', ident x' = ident x) body refs h l x)
      as (x' & -> & Hx'); [| done | by simpl; rewrite Hx'].
    intros y y'. apply Hbody.
  - by rewrite update_each_None.
Qed.

(** *** A small program logic for the callbacks *)

Lemma inert_keeps {A : Type} (I : Jaal → Prop) (m : M A) :
  about_identities I → inert m → keeps I m.
Proof. intros HI Hm self. apply HI, Hm. Qed.

Lemma keeps_bind {A B : Type} (I : Jaal → Prop) (m : M A) (k : A → M B) :
  keeps I m → (∀ a, keeps I (k a)) → keeps I (m ≫= k).
Proof.
  intros Hm Hk self HI. unfold mbind, M_bind.
  specialize (Hm self HI). destruct (m self) as [self' [a|e]]; simpl in *; [|done].
  by apply Hk.
Qed.

Lemma inert_bind {A B : Type} (m : M A) (k : A → M B) :
  inert m → (∀ a, inert (k a)) → inert (m ≫= k).
Proof.
  intros Hm Hk self. unfold mbind, M_bind.
  specialize (Hm self). destruct (m self) as [self' [a|e]]; simpl in *; [|done].
  etrans; [exact Hm | apply Hk].
Qed.

Lemma inert_ret {A : Type} (a : A) : inert (mret a).
Proof. by intros self. Qed.

Lemma inert_get_self : inert get_self.
Proof. by intros self. Qed.

Lemma inert_lift {A : Type} (r : result A) : inert (lift r).
Proof. by intros self. Qed.

Lemma inert_print args : inert (print args).
Proof. by intros self. Qed.

Lemma inert_set_node_mapping m : inert (modify (set_node_value_color_mapping m)).
Proof. by intros self. Qed.

Lemma inert_set_edge_mapping m : inert (modify (set_edge_value_color_mapping m)).
Proof. by intros self. Qed.

Lemma inert_for_each_node refs body :
  (∀ n n', body n = Ok n' → node_id n' = node_id n) →
  inert (for_each_node refs body).
Proof.
  intros Hbody self. unfold for_each_node.
  pose proof (λ l, update_each_ids node_id body refs (node_objs self) l Hbody) as Hids.
  destruct (update_each body refs (node_objs self)) as [h r]. by repeat split.
Qed.

Lemma inert_for_each_edge refs body :
  (∀ e e', body e = Ok e' → edge_id e' = edge_id e) →
  inert (for_each_edge refs body).
Proof.
  intros Hbody self. unfold for_each_edge.
  pose proof (λ l, update_each_ids edge_id body refs (edge_objs self) l Hbody) as Hids.
  destruct (update_each body refs (edge_objs self)) as [h r]. by repeat split.
Qed.

(** The bodies of the loops. *)
Ltac body_keeps_id :=
  let H := fresh in
  intros ? ? H; unfold mbind, result_bind in H;
  repeat match type of H with
         | context [match ?r with _ => _ end] => destruct r; try discriminate H
         end;
  injection H as <-; reflexivity.

(** One step through the text of a callback. *)
Ltac inert_step :=
  first
    [ apply inert_bind; [|intros ?]
    | apply inert_ret
    | apply inert_get_self
    | apply inert_lift
    | apply inert_print
    | apply inert_set_node_mapping
    | apply inert_set_edge_mapping
    | apply inert_for_each_node; body_keeps_id
    | apply inert_for_each_edge; body_keeps_id
    | match goal with
      | |- inert (if ?b then _ else _) => destruct b
      | |- inert (let '(_, _) := ?p in _) => destruct p
      | |- inert (match ?p with (_, _) => _ end) => destruct p
      end ].

Lemma search_inert py graph_data search_text :
  inert (_callback_search_graph py graph_data search_text).
Proof. unfold _callback_search_graph. repeat inert_step. Qed.

(** *** The three invariants *)

Lemma view_within_dataset_about_identities : about_identities view_within_dataset.
Proof.
  intros self self' Hsame [Hn He]. pose proof Hsame as (Hd & Hf & _ & _).
  unfold view_within_dataset.
  rewrite !(same_identities_node_ids self self'), !(same_identities_edge_ids self self'),
    Hd, Hf by done.
  done.
Qed.

Lemma sound_view_about_identities : about_identities sound_view.
Proof.
  intros self self' Hsame [[Hn He] Hu]. pose proof Hsame as (Hd & Hf & _ & _).
  unfold sound_view, view_within_dataset.
  rewrite !(same_identities_node_ids self self'), !(same_identities_edge_ids self self'),
    Hd, Hf by done.
  done.
Qed.

Lemma tidy_view_about_identities : about_identities tidy_view.
Proof.
  intros self self' Hsame [Hsound Hu]. pose proof Hsame as (Hd & Hf & _ & _).
  split; [by eapply sound_view_about_identities |].
  by rewrite (same_identities_node_ids self self'), Hf.
Qed.

Lemma node_ids_sublist self refs refs' :
  refs' `sublist_of` refs → node_ids self refs' `sublist_of` node_ids self refs.
Proof. intros Hsub. unfold node_ids. by apply fmap_sublist, deref_sublist. Qed.

Lemma node_ids_subseteq self refs refs' :
  refs' ⊆ refs → node_ids self refs' ⊆ node_ids self refs.
Proof.
  intros Hsub k (n & -> & Hn)%list_elem_of_fmap.
  apply list_elem_of_fmap. exists n. split; [done |]. by eapply deref_subseteq.
Qed.

Lemma edge_ids_subseteq self refs refs' :
  refs' ⊆ refs → edge_ids self refs' ⊆ edge_ids self refs.
Proof.
  intros Hsub k (e & -> & He)%list_elem_of_fmap.
  apply list_elem_of_fmap. exists e. split; [done |]. by eapply deref_subseteq.
Qed.

Lemma refilter_nodes_within : keeps view_within_dataset refilter_nodes.
Proof.
  intros self [Hn He]. split; simpl; [|done].
  apply (node_ids_subseteq self), sublist_subseteq, refs_where_sublist.
Qed.

Lemma refilter_edges_within : keeps view_within_dataset refilter_edges.
Proof.
  intros self [Hn He]. split; simpl; [done |].
  apply (edge_ids_subseteq self), sublist_subseteq, refs_where_sublist.
Qed.

Lemma refilter_nodes_sound : keeps sound_view refilter_nodes.
Proof.
  intros self [[Hn He] Hu]. split; [split |]; simpl; [| done | done].
  apply (node_ids_subseteq self), sublist_subseteq, refs_where_sublist.
Qed.

Lemma refilter_nodes_tidy : keeps tidy_view refilter_nodes.
Proof.
  intros self [Hsound Hu]. split; [by apply refilter_nodes_sound |].
  destruct Hsound as [_ Hdata]. simpl.
  eapply sublist_NoDup; [exact Hdata |].
  apply (node_ids_sublist self), refs_where_sublist.
Qed.

Lemma refilter_edges_sound : keeps sound_view refilter_edges.
Proof.
  intros self [[Hn He] Hu]. split; [split |]; simpl; [done | | done].
  apply (edge_ids_subseteq self), sublist_subseteq, refs_where_sublist.
Qed.

Lemma refilter_edges_tidy : keeps tidy_view refilter_edges.
Proof.
  intros self [Hsound Hu]. split; [by apply refilter_edges_sound | done].
Qed.

(** *** Colouring, sizing and search keep any such invariant *)

Section Keeps.
Variable py : interpreter.
Variable query : string → list (gmap string val) → option (list bool).
Variable get_distinct_colors : nat → list string.
Variable DEFAULT_COLOR : string.
Variable DEFAULT_NODE_SIZE : number.
Variable DEFAULT_EDGE_SIZE : number.

Variable I : Jaal → Prop.
Hypothesis I_identities : about_identities I.
Hypothesis I_refilter_nodes : keeps I refilter_nodes.
Hypothesis I_refilter_edges : keeps I refilter_edges.

Ltac keeps_auto :=
  first
    [ solve [apply inert_keeps; [exact I_identities | repeat inert_step]]
    | exact I_refilter_nodes
    | exact I_refilter_edges
    | apply keeps_bind; [keeps_auto | intros ?; keeps_auto] ].

Lemma search_keeps graph_data search_text :
  keeps I (_callback_search_graph py graph_data search_text).
Proof using Type*. apply inert_keeps; [done | apply search_inert]. Qed.

Lemma color_nodes_keeps graph_data attr :
  keeps I (_callback_color_nodes get_distinct_colors DEFAULT_COLOR graph_data attr).
Proof using Type*. unfold _callback_color_nodes. keeps_auto. Qed.

Lemma color_edges_keeps graph_data attr :
  keeps I (_callback_color_edges get_distinct_colors DEFAULT_COLOR graph_data attr).
Proof using Type*. unfold _callback_color_edges. keeps_auto. Qed.

Lemma size_nodes_keeps graph_data attr :
  keeps I (_callback_size_nodes py DEFAULT_NODE_SIZE graph_data attr).
Proof using Type*. unfold _callback_size_nodes. keeps_auto. Qed.

Lemma size_edges_keeps graph_data attr :
  keeps I (_callback_size_edges py DEFAULT_EDGE_SIZE graph_data attr).
Proof using Type*. unfold _callback_size_edges. keeps_auto. Qed.

End Keeps.

(** *** The filters *)

Lemma lookup_each_ids h refs ids found :
  Forall2 (λ k l, build_node_map h refs !! k = Some l) ids found →
  node_id <$> deref h found = ids ∧ found ⊆ refs.
Proof.
  unfold deref. induction 1 as [|k l ids found Hk _ [IHids IHsub]]; simpl.
  - split; [done | apply list_subseteq_nil].
  - apply build_node_map_lookup in Hk as (Hl & n & Hn & <-).
    rewrite Hn. simpl. split; [by f_equal |].
    intros l' [-> | Hl']%elem_of_cons; auto.
Qed.

Section FilterNodes.
Variable py : interpreter.
Variable query : string → list (gmap string val) → option (list bool).

(** The node list that the node filter installs holds nodes of the full
    dataset. *)
Lemma filtered_nodes_of_within self text ns :
  filtered_nodes_of py query self text = Ok ns → ns ⊆ nodes (data self).
Proof.
  unfold filtered_nodes_of. simpl.
  destruct (query_ids _ _ _ _ _) as [ids|e]; [|done]. simpl.
  destruct (lookup_each _ _) as [found|e] eqn:Hfound; [|done]. simpl.
  apply lookup_each_Ok, lookup_each_ids in Hfound as [_ Hfound].
  destruct (add_related_entities self).
  - destruct (_get_related_nodes _ _ _ _) as [more|e] eqn:Hmore; [|done]. simpl.
    intros [= <-] l [Hl | Hl]%elem_of_app; [by apply Hfound |].
    apply get_related_nodes_Ok in Hmore as [df' Hrun].
    destruct (expands_permitted _ _ _ _ _ _ _ Hrun l Hl) as (k & Hk & _).
    by apply build_node_map_lookup in Hk as [? _].
  - simpl. intros [= <-]. by rewrite app_nil_r.
Qed.

(** Without the expansion it lists each selected node once. *)
Lemma filtered_nodes_of_unique self text ns :
  add_related_entities self = false →
  NoDup (node_ids self (nodes (data self))) →
  filtered_nodes_of py query self text = Ok ns →
  NoDup (node_ids self ns).
Proof.
  intros Hoff Hdata. unfold filtered_nodes_of, query_ids. rewrite Hoff. simpl.
  destruct (query _ _) as [mask|]; [|done].
  destruct (negb _); [done |].
  destruct (deref (node_objs self) (nodes (data self))) as [|x table] eqn:Htable;
    [done |].
  simpl.
  destruct (lookup_each _ _) as [found|e] eqn:Hfound; [|done]. simpl.
  apply lookup_each_Ok, lookup_each_ids in Hfound as [Hids _].
  intros [= <-]. rewrite app_nil_r. unfold node_ids in *. rewrite Hids.
  eapply sublist_NoDup; [exact Hdata |].
  rewrite Htable. apply fmap_sublist, select_sublist.
Qed.

Lemma filter_nodes_within graph_data text related org wf tables :
  keeps view_within_dataset
    (_callback_filter_nodes py query graph_data text related org wf tables).
Proof.
  intros self _. rewrite filter_nodes_unfold. simpl.
  destruct (filtered_nodes_of _ _ _) as [ns|e] eqn:Hns; simpl.
  - split; simpl; [|done].
    apply filtered_nodes_of_within in Hns. by apply (node_ids_subseteq self).
  - by split.
Qed.

Lemma filter_nodes_sound graph_data text related org wf tables :
  keeps sound_view
    (_callback_filter_nodes py query graph_data text related org wf tables).
Proof.
  intros self [_ Hdata]. rewrite filter_nodes_unfold. simpl.
  destruct (filtered_nodes_of _ _ _) as [ns|e] eqn:Hns; simpl.
  - split; [split |]; simpl; [| done | done].
    apply filtered_nodes_of_within in Hns. by apply (node_ids_subseteq self).
  - by split; [split |].
Qed.

Lemma filter_nodes_tidy graph_data text org wf tables :
  keeps tidy_view
    (_callback_filter_nodes py query graph_data text false org wf tables).
Proof.
  intros self [Hsound _]. split; [by apply filter_nodes_sound |].
  destruct Hsound as [_ Hdata]. rewrite filter_nodes_unfold. simpl.
  destruct (filtered_nodes_of _ _ _) as [ns|e] eqn:Hns; simpl; [|done].
  by apply filtered_nodes_of_unique in Hns.
Qed.

Lemma filter_edges_within graph_data text :
  keeps view_within_dataset (_callback_filter_edges query graph_data text).
Proof.
  intros self _. rewrite filter_edges_unfold. simpl.
  destruct (query_ids _ _ _ _ _) as [ids|e]; simpl; [|by split].
  split; simpl; [done |].
  apply (edge_ids_subseteq self), sublist_subseteq, refs_where_sublist.
Qed.

Lemma filter_edges_sound graph_data text :
  keeps sound_view (_callback_filter_edges query graph_data text).
Proof.
  intros self [_ Hdata]. rewrite filter_edges_unfold. simpl.
  destruct (query_ids _ _ _ _ _) as [ids|e]; simpl; [|by split; [split |]].
  split; [split |]; simpl; [done | | done].
  apply (edge_ids_subseteq self), sublist_subseteq, refs_where_sublist.
Qed.

Lemma filter_edges_tidy graph_data text :
  keeps tidy_view (_callback_filter_edges query graph_data text).
Proof.
  intros self [Hsound _]. split; [by apply filter_edges_sound |].
  destruct Hsound as [_ Hdata]. rewrite filter_edges_unfold. simpl.
  by destruct (query_ids _ _ _ _ _).
Qed.

End FilterNodes.

(** *** Every operation *)

Section Dispatch.
Variable py : interpreter.
Variable query : string → list (gmap string val) → option (list bool).
Variable get_distinct_colors : nat → list string.
Variable DEFAULT_COLOR : string.
Variable DEFAULT_NODE_SIZE : number.
Variable DEFAULT_EDGE_SIZE : number.

Variable I : Jaal → Prop.
Hypothesis I_identities : about_identities I.
Hypothesis I_refilter_nodes : keeps I refilter_nodes.
Hypothesis I_refilter_edges : keeps I refilter_edges.
Hypothesis I_filter_edges :
  ∀ graph_data text, keeps I (_callback_filter_edges query graph_data text).

Lemma node_filter_control_spec input_id :
  bool_decide (input_id = "filter_nodes")
  || bool_decide (input_id = "add_related_entities")
  || bool_decide (input_id = "include_related_org")
  || bool_decide (input_id = "include_related_wf")
  || bool_decide (input_id = "include_related_tables") = true →
  input_id ∈ node_filter_controls.
Proof.
  rewrite !orb_true_iff, !bool_decide_eq_true. unfold node_filter_controls.
  intros [[[[-> | ->] | ->] | ->] | ->]; repeat first [by left | right].
Qed.

(** An invariant that the node filter keeps whenever it is the one that
    runs is kept by the dispatcher. *)
Lemma setting_pane_callback_keeps triggered search_text filter_nodes_text
    filter_edges_text add_related include_org include_wf include_tables
    color_nodes_value color_edges_value size_nodes_value size_edges_value graph_data :
  (∀ input_id graph_data,
     triggered = Some input_id →
     input_id ∈ node_filter_controls →
     keeps I (_callback_filter_nodes py query graph_data filter_nodes_text add_related
                include_org include_wf include_tables)) →
  keeps I
    (setting_pane_callback py query get_distinct_colors DEFAULT_COLOR DEFAULT_NODE_SIZE
       DEFAULT_EDGE_SIZE triggered search_text filter_nodes_text filter_edges_text
       add_related include_org include_wf include_tables color_nodes_value
       color_edges_value size_nodes_value size_edges_value graph_data).
Proof using Type*.
  intros Hfilter. unfold setting_pane_callback.
  destruct triggered as [input_id|];
    [|apply inert_keeps; [done | repeat inert_step]].
  apply keeps_bind.
  { destruct (bool_decide (input_id = "search_graph")); [by apply search_keeps |].
    destruct (bool_decide (input_id = "filter_nodes")
              || bool_decide (input_id = "add_related_entities")
              || bool_decide (input_id = "include_related_org")
              || bool_decide (input_id = "include_related_wf")
              || bool_decide (input_id = "include_related_tables")) eqn:Hcontrol.
    - apply (Hfilter input_id); [done | by apply node_filter_control_spec].
    - destruct (bool_decide (input_id = "filter_edges")); [apply I_filter_edges |].
      apply inert_keeps; [done | apply inert_ret]. }
  intros g1. apply keeps_bind.
  { destruct (bool_decide (input_id = "color_nodes"));
      [|apply inert_keeps; [done | apply inert_ret]].
    apply keeps_bind; [by apply color_nodes_keeps |].
    intros [g m]. apply inert_keeps; [done | repeat inert_step]. }
  intros g2. apply keeps_bind.
  { destruct (bool_decide (input_id = "color_edges"));
      [|apply inert_keeps; [done | apply inert_ret]].
    apply keeps_bind; [by apply color_edges_keeps |].
    intros [g m]. apply inert_keeps; [done | repeat inert_step]. }
  intros g3. apply keeps_bind.
  { destruct (bool_decide (input_id = "size_nodes"));
      [|apply inert_keeps; [done | apply inert_ret]].
    by apply size_nodes_keeps. }
  intros g4. apply keeps_bind.
  { destruct (bool_decide (input_id = "size_edges"));
      [|apply inert_keeps; [done | apply inert_ret]].
    by apply size_edges_keeps. }
  intros g5. apply inert_keeps; [done | repeat inert_step].
Qed.

End Dispatch.

(** C6, as the code has it. [__init__] sets up a filtered view that lies
    within the full dataset, and every operation keeps it so, whatever the
    dataset: every node and edge identifier of the filtered view occurs in
    the full dataset. Where the node identifiers of the full dataset are
    unique they stay so, and the node identifiers of the filtered view stay
    unique through every operation but one, the node filter run with the
    related-entity expansion, which lists a node once for each time it is
    met. *)
Theorem filtered_view_stays_within_dataset py query get_distinct_colors default_color
    default_node_size default_edge_size triggered search_text filter_nodes_text
    filter_edges_text add_related include_org include_wf include_tables
    color_nodes_value color_edges_value size_nodes_value size_edges_value
    graph_data self :
  view_within_dataset self →
  let after :=
    (setting_pane_callback py query get_distinct_colors default_color default_node_size
       default_edge_size triggered search_text filter_nodes_text filter_edges_text
       add_related include_org include_wf include_tables color_nodes_value
       color_edges_value size_nodes_value size_edges_value graph_data self).1 in
  view_within_dataset after
  ∧ (NoDup (node_ids self (nodes (data self))) →
     NoDup (node_ids after (nodes (data after)))
     ∧ (NoDup (node_ids self (nodes (filtered_data self))) →
        (add_related = true →
         ∀ input_id, triggered = Some input_id → input_id ∉ node_filter_controls) →
        NoDup (node_ids after (nodes (filtered_data after))))).
Proof.
  intros Hview. simpl. split; [|intros Hdata; split].
  - eapply (setting_pane_callback_keeps py query _ _ _ _ view_within_dataset);
      eauto using view_within_dataset_about_identities, refilter_nodes_within,
        refilter_edges_within, filter_edges_within, filter_nodes_within.
  - eapply (setting_pane_callback_keeps py query _ _ _ _ sound_view);
      eauto using sound_view_about_identities, refilter_nodes_sound,
        refilter_edges_sound, filter_edges_sound, filter_nodes_sound.
    by split.
  - intros Hview' Hoff.
    eapply (setting_pane_callback_keeps py query _ _ _ _ tidy_view);
      eauto using tidy_view_about_identities, refilter_nodes_tidy,
        refilter_edges_tidy, filter_edges_tidy.
    + intros input_id gd Htrig Hcontrol. destruct add_related.
      * by destruct (Hoff eq_refl input_id Htrig).
      * apply filter_nodes_tidy.
    + by split; [split |].
Qed.

(** [__init__] starts from a filtered view that is the full dataset. *)
Lemma init_view_within_dataset node_dicts edge_dicts parsed bounds :
  view_within_dataset (__init__ node_dicts edge_dicts parsed bounds).
Proof. by split. Qed.

Lemma filtered_view_stays_within_dataset_witness :
  view_within_dataset Sample.two_nodes
  ∧ NoDup (node_ids Sample.two_nodes (nodes (data Sample.two_nodes)))
  ∧ let after :=
      (setting_pane_callback Sample.python equality_query Sample.get_distinct_colors
         Sample.DEFAULT_COLOR Sample.DEFAULT_NODE_SIZE Sample.DEFAULT_EDGE_SIZE
         (Some "filter_nodes") "" "id=='A'" "" false true true true
         "None" "None" "None" "None" (data Sample.two_nodes) Sample.two_nodes).1 in
    view_within_dataset after
    ∧ NoDup (node_ids after (nodes (data after)))
    ∧ NoDup (node_ids after (nodes (filtered_data after))).
Proof.
  assert (view_within_dataset Sample.two_nodes) as Hview by (by split).
  assert (NoDup (node_ids Sample.two_nodes (nodes (data Sample.two_nodes)))) as Hdata.
  { apply (bool_decide_unpack _). reflexivity. }
  destruct (filtered_view_stays_within_dataset Sample.python equality_query
              Sample.get_distinct_colors Sample.DEFAULT_COLOR Sample.DEFAULT_NODE_SIZE
              Sample.DEFAULT_EDGE_SIZE (Some "filter_nodes") "" "id=='A'" "" false
              true true true "None" "None" "None" "None" (data Sample.two_nodes)
              Sample.two_nodes Hview) as (Hwithin & Hunique).
  destruct (Hunique Hdata) as (Hfull & Hfiltered).
  split; [exact Hview |]. split; [exact Hdata |].
  split; [exact Hwithin |]. split; [exact Hfull |].
  apply Hfiltered; [exact Hdata | discriminate].
Defined.

(** C6 as worded fails: a node filter with the expansion switched on
    leaves node A three times in the filtered view of a dataset whose
    identifiers are unique. *)
Lemma expansion_lists_a_node_twice :
  let after :=
    (setting_pane_callback Sample.python equality_query Sample.get_distinct_colors
       Sample.DEFAULT_COLOR Sample.DEFAULT_NODE_SIZE Sample.DEFAULT_EDGE_SIZE
       (Some "filter_nodes") "" "id=='A'" "" true true true true
       "None" "None" "None" "None" (data Sample.two_nodes) Sample.two_nodes).1 in
  NoDup (node_ids Sample.two_nodes (nodes (data Sample.two_nodes)))
  ∧ node_ids after (nodes (filtered_data after)) = ["A"; "A"; "B"; "A"]
  ∧ ¬ NoDup (node_ids after (nodes (filtered_data after))).
Proof.
  split; [apply (bool_decide_unpack _); reflexivity |].
  split; [reflexivity |].
  intros Hnodup. change (NoDup ["A"; "A"; "B"; "A"]) in Hnodup.
  apply NoDup_cons in Hnodup as [Hnot _]. apply Hnot. left.
Qed.

(** ** The examples of the specification *)

(** Nodes A "Alpha" and B "Beta", search "al": A visible, B hidden. *)
Example search_al :
  let after :=
    (_callback_search_graph Sample.python Sample.page_snapshot "al" Sample.browsing).1 in
  node_hidden <$> node_objs after !! 3%positive = Some (Some false)
  ∧ node_hidden <$> node_objs after !! 4%positive = Some (Some true).
Proof. split; reflexivity. Qed.

(** Edges A -> B, B -> C, C -> A, seed A, no exclusion: the expansion
    returns A, B and C (and meets B, A and C a second time). *)
Example triangle_expansion :
  node_ids Sample.triangle <$>
    _get_related_nodes Sample.python equality_query Sample.triangle ["A"]
      (Sample.edge_df Sample.triangle) (Sample.id_map Sample.triangle)
  = Ok ["A"; "B"; "C"; "B"; "A"; "C"].
Proof. reflexivity. Qed.

(** Values 0, 10, 20 with bounds (0, 20) scale to the offsets 0, 10, 20. *)
Example scaled_offsets :
  Forall2 (λ x d, scale_val Sample.python 0 20 (VNum (Finite x)) = Ok (Finite d))
    [0; 10; 20]%Q [0; 10; 20]%Q.
Proof. repeat constructor. Qed.

(** * Further properties of the code *)

(** ** Search *)

(** X1. A search overrides the one before it: searching for [s1] and then
    for [s2] on the same snapshot leaves the records exactly as a single
    search for [s2] does. In particular a repeated search changes
    nothing. *)
Theorem search_last_wins py graph_data s1 s2 self :
  node_objs (_callback_search_graph py graph_data s2
               (_callback_search_graph py graph_data s1 self).1).1
  = node_objs (_callback_search_graph py graph_data s2 self).1.
Proof.
  rewrite !search_unfold. simpl. apply map_eq. intros l.
  destruct (update_each_total (search_mark py s1) (nodes graph_data) (node_objs self)
              (λ _, eq_refl)) as [_ H1].
  destruct (update_each_total (search_mark py s2) (nodes graph_data) (node_objs self)
              (λ _, eq_refl)) as [_ H2].
  destruct (update_each_total (search_mark py s2) (nodes graph_data)
              (update_each (λ n, Ok (search_mark py s1 n)) (nodes graph_data)
                 (node_objs self)).1 (λ _, eq_refl)) as [_ H12].
  rewrite H12, H2, H1. case_decide; [|done].
  by destruct (node_objs self !! l).
Qed.

(** X2. The search never raises, hands back the snapshot it was given and
    writes nothing but ['hidden']: every record keeps its identifier,
    label, size, colour and other attributes, and no record appears or
    disappears. *)
Theorem search_writes_hidden_only py graph_data search_text self l :
  let after := _callback_search_graph py graph_data search_text self in
  after.2 = Ok graph_data
  ∧ match node_objs self !! l, node_objs after.1 !! l with
    | Some n, Some n' =>
        node_id n' = node_id n
        ∧ node_label n' = node_label n
        ∧ node_size n' = node_size n
        ∧ node_color n' = node_color n
        ∧ node_attrs n' = node_attrs n
        ∧ (l ∉ nodes graph_data → node_hidden n' = node_hidden n)
    | None, None => True
    | _, _ => False
    end.
Proof.
  rewrite search_unfold. simpl. split; [done |].
  destruct (update_each_total (search_mark py search_text) (nodes graph_data)
              (node_objs self) (λ _, eq_refl)) as [_ ->].
  destruct (node_objs self !! l) as [n|]; case_decide; simpl; done.
Qed.

(** ** Resetting colours and sizes *)

Lemma set_color_twice c n : set_color c (set_color c n) = set_color c n.
Proof. reflexivity. Qed.

Lemma color_nodes_None get_distinct_colors default_color graph_data self :
  _callback_color_nodes get_distinct_colors default_color graph_data "None" self
  = let h := (update_each (λ n, Ok (set_color default_color n)) (nodes (data self))
                (node_objs self)).1 in
    let self2 := (refilter_nodes (set_node_objs h self)).1 in
    (self2, Ok (filtered_data self2, [])).
Proof.
  unfold _callback_color_nodes, mbind, M_bind, modify, get_self, mret, M_ret,
    for_each_node. simpl.
  destruct (update_each_total (set_color default_color) (nodes (data self))
              (node_objs self) (λ _, eq_refl)) as [Hok _].
  destruct (update_each _ _ _) as [h r]. simpl in *. by subst r.
Qed.

Lemma color_edges_None get_distinct_colors default_color graph_data self :
  _callback_color_edges get_distinct_colors default_color graph_data "None" self
  = let h := (update_each (λ e, Ok (set_edge_color default_color e))
                (edges (data self)) (edge_objs self)).1 in
    let self2 := (refilter_edges (set_edge_objs h self)).1 in
    (self2, Ok (filtered_data self2, [])).
Proof.
  unfold _callback_color_edges, mbind, M_bind, modify, get_self, mret, M_ret,
    for_each_edge. simpl.
  destruct (update_each_total (set_edge_color default_color) (edges (data self))
              (edge_objs self) (λ _, eq_refl)) as [Hok _].
  destruct (update_each _ _ _) as [h r]. simpl in *. by subst r.
Qed.

Lemma size_nodes_None py default_node_size graph_data self :
  _callback_size_nodes py default_node_size graph_data "None" self
  = let h := (update_each (λ n, Ok (set_size default_node_size n)) (nodes (data self))
                (node_objs self)).1 in
    let self2 := (refilter_nodes (set_node_objs h self)).1 in
    (self2, Ok (filtered_data self2)).
Proof.
  unfold _callback_size_nodes, mbind, M_bind, modify, get_self, mret, M_ret,
    for_each_node. simpl.
  destruct (update_each_total (set_size default_node_size) (nodes (data self))
              (node_objs self) (λ _, eq_refl)) as [Hok _].
  destruct (update_each _ _ _) as [h r]. simpl in *. by subst r.
Qed.

Lemma size_edges_None py default_edge_size graph_data self :
  _callback_size_edges py default_edge_size graph_data "None" self
  = let h := (update_each (λ e, Ok (set_width default_edge_size e))
                (edges (data self)) (edge_objs self)).1 in
    let self2 := (refilter_edges (set_edge_objs h self)).1 in
    (self2, Ok (filtered_data self2)).
Proof.
  unfold _callback_size_edges, mbind, M_bind, modify, get_self, mret, M_ret,
    for_each_edge. simpl.
  destruct (update_each_total (set_width default_edge_size) (edges (data self))
              (edge_objs self) (λ _, eq_refl)) as [Hok _].
  destruct (update_each _ _ _) as [h r]. simpl in *. by subst r.
Qed.

(** X3. Colouring by ['None'] never raises and returns an empty legend;
    afterwards every node (edge) of the full dataset has the default
    colour and is otherwise as before, and the records outside the full
    dataset are untouched. *)
Theorem color_None_resets get_distinct_colors default_color graph_data self l :
  (let after :=
     _callback_color_nodes get_distinct_colors default_color graph_data "None" self in
   after.2 = Ok (filtered_data after.1, [])
   ∧ node_objs after.1 !! l
     = if decide (l ∈ nodes (data self))
       then set_color default_color <$> node_objs self !! l
       else node_objs self !! l)
  ∧ (let after :=
       _callback_color_edges get_distinct_colors default_color graph_data "None" self in
     after.2 = Ok (filtered_data after.1, [])
     ∧ edge_objs after.1 !! l
       = if decide (l ∈ edges (data self))
         then set_edge_color default_color <$> edge_objs self !! l
         else edge_objs self !! l).
Proof.
  split.
  - rewrite color_nodes_None. simpl. split; [done |].
    by destruct (update_each_total (set_color default_color) (nodes (data self))
                   (node_objs self) (λ _, eq_refl)) as [_ ->].
  - rewrite color_edges_None. simpl. split; [done |].
    by destruct (update_each_total (set_edge_color default_color) (edges (data self))
                   (edge_objs self) (λ _, eq_refl)) as [_ ->].
Qed.

(** X4. Sizing by ['None'] never raises; afterwards every node of the full
    dataset has the default size, every edge the default width, and the
    records are otherwise as before. *)
Theorem size_None_resets py default_node_size default_edge_size graph_data self l :
  (let after := _callback_size_nodes py default_node_size graph_data "None" self in
   after.2 = Ok (filtered_data after.1)
   ∧ node_objs after.1 !! l
     = if decide (l ∈ nodes (data self))
       then set_size default_node_size <$> node_objs self !! l
       else node_objs self !! l)
  ∧ (let after := _callback_size_edges py default_edge_size graph_data "None" self in
     after.2 = Ok (filtered_data after.1)
     ∧ edge_objs after.1 !! l
       = if decide (l ∈ edges (data self))
         then set_width default_edge_size <$> edge_objs self !! l
         else edge_objs self !! l).
Proof.
  split.
  - rewrite size_nodes_None. simpl. split; [done |].
    by destruct (update_each_total (set_size default_node_size) (nodes (data self))
                   (node_objs self) (λ _, eq_refl)) as [_ ->].
  - rewrite size_edges_None. simpl. split; [done |].
    by destruct (update_each_total (set_width default_edge_size) (edges (data self))
                   (edge_objs self) (λ _, eq_refl)) as [_ ->].
Qed.

(** ** Loops over distinct references *)

(** A loop over distinct references that returns has run its body once on
    each dict, as it was before the loop. *)
Lemma update_each_Ok_NoDup {A : Type} (body : A → result A) refs h h' l :
  NoDup refs →
  update_each body refs h = (h', Ok tt) →
  l ∈ refs →
  match h !! l with
  | Some x => ∃ x', body x = Ok x' ∧ h' !! l = Some x'
  | None => h' !! l = None
  end.
Proof.
  intros Hnd. revert h. induction Hnd as [|r refs Hr Hnd IH]; intros h Hrun Hl;
    [by apply elem_of_nil in Hl |].
  simpl in Hrun. apply elem_of_cons in Hl as [-> | Hl].
  - destruct (h !! r) as [x|] eqn:Hx.
    + destruct (body x) as [x'|e] eqn:Hbody; [|done].
      exists x'. split; [done |].
      replace h' with (update_each body refs (<[r:=x']> h)).1 by (by rewrite Hrun).
      by rewrite update_each_frame, lookup_insert_eq.
    + replace h' with (update_each body refs h).1 by (by rewrite Hrun).
      by rewrite update_each_frame.
  - assert (l ≠ r) as Hne by (by intros ->).
    destruct (h !! r) as [x|] eqn:Hx; [|by apply IH].
    destruct (body x) as [x'|e] eqn:Hbody; [|done].
    specialize (IH _ Hrun Hl). by rewrite lookup_insert_ne in IH.
Qed.

(** It returns when the body returns on each dict. *)
Lemma update_each_all_Ok {A : Type} (body : A → result A) refs h :
  NoDup refs →
  (∀ l x, l ∈ refs → h !! l = Some x → ∃ x', body x = Ok x') →
  (update_each body refs h).2 = Ok tt.
Proof.
  intros Hnd. revert h. induction Hnd as [|r refs Hr Hnd IH]; intros h Hbody; [done |].
  simpl. destruct (h !! r) as [x|] eqn:Hx.
  - destruct (Hbody r x) as [x' ->]; [left | done |].
    apply IH. intros l y Hl Hy. apply (Hbody l y); [by right |].
    rewrite lookup_insert_ne in Hy; [done |]. by intros ->.
  - apply IH. intros l y Hl. apply Hbody. by right.
Qed.

(** ** Colouring by an attribute *)

(** What the colouring of nodes has done when it returns. *)
Lemma color_nodes_returns get_distinct_colors default_color graph_data attr self
    g mapping :
  attr ≠ "None" →
  NoDup (nodes (data self)) →
  (_callback_color_nodes get_distinct_colors default_color graph_data attr self).2
  = Ok (g, mapping) →
  (∃ unique_values,
      unique_of_column node_dict (deref (node_objs self) (nodes (data self))) attr
      = Ok unique_values
      ∧ mapping = zip unique_values (get_distinct_colors (length unique_values)))
  ∧ (∀ l n, l ∈ nodes (data self) → node_objs self !! l = Some n →
       ∃ v c, node_dict n !! attr = Some v
              ∧ color_of mapping v = Ok c
              ∧ node_objs
                  (_callback_color_nodes get_distinct_colors default_color graph_data
                     attr self).1 !! l
                = Some (set_color c n)).
Proof.
  intros Hattr Hnd. rewrite color_nodes_unfold by done. simpl.
  destruct (unique_of_column _ _ _) as [unique_values|e]; [|done]. simpl.
  destruct (update_each _ _ _) as [h [[]|e]] eqn:Hloop; [|done]. simpl.
  intros [= <- <-].
  split; [by exists unique_values |].
  intros l n Hl Hn.
  pose proof (update_each_Ok_NoDup _ _ _ _ l Hnd Hloop Hl) as Hrun.
  rewrite Hn in Hrun. destruct Hrun as (n' & Hbody & Hn').
  unfold item, mbind, result_bind in Hbody.
  destruct (node_dict n !! attr) as [v|] eqn:Hv; [|done].
  destruct (color_of _ v) as [c|] eqn:Hc; [|done].
  injection Hbody as <-. by exists v, c.
Qed.

(** X5. When the colouring of nodes by an attribute returns, the legend it
    returns pairs the distinct values of the column with the colours of
    [get_distinct_colors], and every node of the full dataset has the
    colour the legend gives to its value and is otherwise as before: nodes
    with the same value have the same colour (the node list of the full
    dataset holding each node once). *)
Theorem color_nodes_by_value get_distinct_colors default_color graph_data attr self
    g mapping :
  attr ≠ "None" →
  NoDup (nodes (data self)) →
  let after :=
    _callback_color_nodes get_distinct_colors default_color graph_data attr self in
  after.2 = Ok (g, mapping) →
  (∃ unique_values,
      unique_of_column node_dict (deref (node_objs self) (nodes (data self))) attr
      = Ok unique_values
      ∧ mapping = zip unique_values (get_distinct_colors (length unique_values)))
  ∧ (∀ l n, l ∈ nodes (data self) → node_objs self !! l = Some n →
       ∃ v c, node_dict n !! attr = Some v
              ∧ color_of mapping v = Ok c
              ∧ node_objs after.1 !! l = Some (set_color c n))
  ∧ (∀ l1 l2 n1 n2 n1' n2',
       l1 ∈ nodes (data self) → l2 ∈ nodes (data self) →
       node_objs self !! l1 = Some n1 → node_objs self !! l2 = Some n2 →
       node_dict n1 !! attr = node_dict n2 !! attr →
       node_objs after.1 !! l1 = Some n1' → node_objs after.1 !! l2 = Some n2' →
       node_color n1' = node_color n2').
Proof.
  intros Hattr Hnd after Hrun.
  destruct (color_nodes_returns get_distinct_colors default_color graph_data attr
              self g mapping Hattr Hnd Hrun) as [Hlegend Hcolor].
  fold after in Hcolor.
  split; [done |]. split; [done |].
  intros l1 l2 n1 n2 n1' n2' Hl1 Hl2 Hn1 Hn2 Hsame Hn1' Hn2'.
  destruct (Hcolor l1 n1 Hl1 Hn1) as (v1 & c1 & Hv1 & Hc1 & Hh1).
  destruct (Hcolor l2 n2 Hl2 Hn2) as (v2 & c2 & Hv2 & Hc2 & Hh2).
  assert (v1 = v2) as -> by congruence.
  assert (c1 = c2) as -> by congruence.
  assert (n1' = set_color c2 n1) as -> by congruence.
  assert (n2' = set_color c2 n2) as -> by congruence.
  done.
Qed.

Lemma color_nodes_by_value_witness :
  "weight" ≠ "None"
  ∧ NoDup (nodes (data Sample.flat_weights))
  ∧ let after :=
      _callback_color_nodes Sample.get_distinct_colors Sample.DEFAULT_COLOR
        (Graph [] []) "weight" Sample.flat_weights in
    after.2 = Ok (Graph [1; 2]%positive [1%positive], [(Some (VNum 5), "#e6194b")])
    ∧ (∃ unique_values,
          unique_of_column node_dict
            (deref (node_objs Sample.flat_weights) (nodes (data Sample.flat_weights)))
            "weight"
          = Ok unique_values
          ∧ [(Some (VNum 5), "#e6194b")]
            = zip unique_values (Sample.get_distinct_colors (length unique_values)))
    ∧ (∀ l n, l ∈ nodes (data Sample.flat_weights) →
         node_objs Sample.flat_weights !! l = Some n →
         ∃ v c, node_dict n !! "weight" = Some v
                ∧ color_of [(Some (VNum 5), "#e6194b")] v = Ok c
                ∧ node_objs after.1 !! l = Some (set_color c n))
    ∧ (∀ l1 l2 n1 n2 n1' n2',
         l1 ∈ nodes (data Sample.flat_weights) →
         l2 ∈ nodes (data Sample.flat_weights) →
         node_objs Sample.flat_weights !! l1 = Some n1 →
         node_objs Sample.flat_weights !! l2 = Some n2 →
         node_dict n1 !! "weight" = node_dict n2 !! "weight" →
         node_objs after.1 !! l1 = Some n1' → node_objs after.1 !! l2 = Some n2' →
         node_color n1' = node_color n2').
Proof.
  assert ("weight" ≠ "None") as Hattr by discriminate.
  assert (NoDup (nodes (data Sample.flat_weights))) as Hnd
    by (apply (bool_decide_unpack _); reflexivity).
  split; [exact Hattr |]. split; [exact Hnd |]. split; [reflexivity |].
  exact (color_nodes_by_value Sample.get_distinct_colors Sample.DEFAULT_COLOR
           (Graph [] []) "weight" Sample.flat_weights
           (Graph [1; 2]%positive [1%positive]) [(Some (VNum 5), "#e6194b")]
           Hattr Hnd eq_refl).
Defined.

(** *** Equality of cells *)

Lemma number_eqb_sym x y : number_eqb x y = number_eqb y x.
Proof.
  destruct x as [a| |s], y as [b| |t]; simpl; try done.
  - rewrite eq_iff_eq_true, !Qeq_bool_iff. split; intros H; by rewrite H.
  - by destruct s, t.
Qed.

Lemma number_eqb_trans x y z :
  number_eqb x y = true → number_eqb y z = true → number_eqb x z = true.
Proof.
  destruct x as [a| |s], y as [b| |t], z as [c| |u]; simpl; try done.
  - rewrite !Qeq_bool_iff. intros H1 H2. by rewrite H1.
  - by destruct s, t, u.
Qed.

Lemma val_eqb_sym a b : val_eqb a b = val_eqb b a.
Proof.
  destruct a, b; cbn -[number_eqb]; try done;
    try (apply bool_decide_ext; split; congruence);
    apply number_eqb_sym.
Qed.

Lemma val_eqb_trans a b c :
  val_eqb a b = true → val_eqb b c = true → val_eqb a c = true.
Proof.
  destruct a, b, c; cbn -[number_eqb]; try done;
    rewrite ?bool_decide_eq_true; try congruence;
    apply number_eqb_trans.
Qed.

Lemma color_of_lookup values colors v c :
  color_of (zip values colors) v = Ok c →
  ∃ i u, values !! i = Some u ∧ colors !! i = Some c ∧ cell_eqb u (Some v) = true.
Proof.
  revert colors. induction values as [|u values IH]; intros [|c' colors]; simpl;
    try done.
  destruct (cell_eqb u (Some v)) eqn:Hu.
  - intros [= ->]. by exists 0, u.
  - intros (i & u' & ? & ? & ?)%IH. by exists (S i), u'.
Qed.

(** X6. Distinct values get distinct colours as long as the generator
    gives distinct colours: when the colouring returns, two nodes of the
    full dataset that end up with the same colour have equal values of the
    attribute. *)
Theorem color_nodes_tells_values_apart get_distinct_colors default_color graph_data
    attr self g mapping l1 l2 n1 n2 v1 v2 n1' n2' :
  attr ≠ "None" →
  NoDup (nodes (data self)) →
  (∀ n, NoDup (get_distinct_colors n)) →
  let after :=
    _callback_color_nodes get_distinct_colors default_color graph_data attr self in
  after.2 = Ok (g, mapping) →
  l1 ∈ nodes (data self) → l2 ∈ nodes (data self) →
  node_objs self !! l1 = Some n1 → node_objs self !! l2 = Some n2 →
  node_dict n1 !! attr = Some v1 → node_dict n2 !! attr = Some v2 →
  node_objs after.1 !! l1 = Some n1' → node_objs after.1 !! l2 = Some n2' →
  node_color n1' = node_color n2' →
  val_eqb v1 v2 = true.
Proof.
  intros Hattr Hnd Hgen after Hrun Hl1 Hl2 Hn1 Hn2 Hv1 Hv2 Hn1' Hn2' Hsame.
  destruct (color_nodes_returns get_distinct_colors default_color graph_data
              attr self g mapping Hattr Hnd Hrun) as ((uniq & _ & ->) & Hcolor).
  destruct (Hcolor l1 n1 Hl1 Hn1) as (w1 & c1 & Hw1 & Hc1 & Hh1).
  destruct (Hcolor l2 n2 Hl2 Hn2) as (w2 & c2 & Hw2 & Hc2 & Hh2).
  assert (w1 = v1) as -> by congruence. assert (w2 = v2) as -> by congruence.
  fold after in Hh1, Hh2.
  assert (n1' = set_color c1 n1) as -> by congruence.
  assert (n2' = set_color c2 n2) as -> by congruence.
  simpl in Hsame. subst c2.
  apply color_of_lookup in Hc1 as (i1 & u1 & Hu1 & Hi1 & He1).
  apply color_of_lookup in Hc2 as (i2 & u2 & Hu2 & Hi2 & He2).
  assert (i1 = i2) as ->
    by (eapply NoDup_lookup; [apply Hgen | exact Hi1 | exact Hi2]).
  assert (u1 = u2) as -> by congruence.
  destruct u2 as [u|]; [|done]. simpl in *.
  rewrite val_eqb_sym in He1. by eapply val_eqb_trans.
Qed.

Lemma color_nodes_tells_values_apart_witness :
  "weight" ≠ "None"
  ∧ NoDup (nodes (data Sample.flat_weights))
  ∧ (∀ n, NoDup (Sample.get_distinct_colors n))
  ∧ let after :=
      _callback_color_nodes Sample.get_distinct_colors Sample.DEFAULT_COLOR
        (Graph [] []) "weight" Sample.flat_weights in
    after.2 = Ok (Graph [1; 2]%positive [1%positive], [(Some (VNum 5), "#e6194b")])
    ∧ 1%positive ∈ nodes (data Sample.flat_weights)
    ∧ 2%positive ∈ nodes (data Sample.flat_weights)
    ∧ node_objs Sample.flat_weights !! 1%positive
      = Some (Sample.weighted_node "A" "Alpha" 5)
    ∧ node_objs Sample.flat_weights !! 2%positive
      = Some (Sample.weighted_node "B" "Beta" 5)
    ∧ node_dict (Sample.weighted_node "A" "Alpha" 5) !! "weight" = Some (VNum 5)
    ∧ node_dict (Sample.weighted_node "B" "Beta" 5) !! "weight" = Some (VNum 5)
    ∧ node_objs after.1 !! 1%positive
      = Some (set_color "#e6194b" (Sample.weighted_node "A" "Alpha" 5))
    ∧ node_objs after.1 !! 2%positive
      = Some (set_color "#e6194b" (Sample.weighted_node "B" "Beta" 5))
    ∧ node_color (set_color "#e6194b" (Sample.weighted_node "A" "Alpha" 5))
      = node_color (set_color "#e6194b" (Sample.weighted_node "B" "Beta" 5))
    ∧ val_eqb (VNum 5) (VNum 5) = true.
Proof.
  assert ("weight" ≠ "None") as Hattr by discriminate.
  assert (NoDup (nodes (data Sample.flat_weights))) as Hnd
    by (apply (bool_decide_unpack _); reflexivity).
  assert (∀ n, NoDup (Sample.get_distinct_colors n)) as Hgen.
  { intros n. eapply sublist_NoDup; [|apply sublist_take].
    apply (bool_decide_unpack _). reflexivity. }
  assert (1%positive ∈ nodes (data Sample.flat_weights)) as H1 by left.
  assert (2%positive ∈ nodes (data Sample.flat_weights)) as H2 by (right; left).
  split; [exact Hattr |]. split; [exact Hnd |]. split; [exact Hgen |].
  split; [reflexivity |]. split; [exact H1 |]. split; [exact H2 |].
  do 7 (split; [reflexivity |]).
  exact (color_nodes_tells_values_apart Sample.get_distinct_colors
           Sample.DEFAULT_COLOR (Graph [] []) "weight" Sample.flat_weights
           (Graph [1; 2]%positive [1%positive]) [(Some (VNum 5), "#e6194b")]
           1%positive 2%positive _ _ (VNum 5) (VNum 5) _ _
           Hattr Hnd Hgen eq_refl H1 H2 eq_refl eq_refl eq_refl eq_refl
           eq_refl eq_refl eq_refl).
Defined.

(** ** Sizing by an attribute *)



(** The scaling is one division, by [maxx - minn]. *)
Lemma scale_val_divides py minn maxx v x a b c :
  as_number v = Ok x →
  num_sub py x minn = Ok a →
  num_mul py 20 a = Ok b →
  num_sub py maxx minn = Ok c →
  scale_val py minn maxx v = num_truediv py b c.
Proof.
  intros Hx Ha Hb Hc. unfold scale_val. rewrite Hx. simpl.
  rewrite Ha. simpl. rewrite Hb. simpl. by rewrite Hc.
Qed.

(** The sizing of nodes returns when the arithmetic does on every node of
    the full dataset, and has then written each sum. *)
Lemma size_nodes_returns py default_node_size graph_data attr self minn maxx :
  attr ≠ "None" →
  NoDup (nodes (data self)) →
  scaling_node (scaling_vars self) !! attr = Some (minn, maxx) →
  (∀ l n, l ∈ nodes (data self) → node_objs self !! l = Some n →
     ∃ v d s, node_dict n !! attr = Some v
              ∧ scale_val py minn maxx v = Ok d
              ∧ num_add py (node_size n) d = Ok s) →
  (_callback_size_nodes py default_node_size graph_data attr self).2
  = Ok (filtered_data (_callback_size_nodes py default_node_size graph_data attr self).1)
  ∧ ∀ l, l ∈ nodes (data self) →
      match node_objs self !! l with
      | Some n =>
          ∃ v d s, node_dict n !! attr = Some v
                   ∧ scale_val py minn maxx v = Ok d
                   ∧ num_add py (node_size n) d = Ok s
                   ∧ node_objs (_callback_size_nodes py default_node_size graph_data attr
                                  self).1 !! l
                     = Some (set_size s n)
      | None =>
          node_objs (_callback_size_nodes py default_node_size graph_data attr self).1 !! l
          = None
      end.
Proof.
  intros Hattr Hnd Hbounds Hnum.
  rewrite size_nodes_unfold by done. unfold bounds_of. rewrite Hbounds. simpl.
  destruct (update_each _ _ _) as [h r] eqn:Hloop.
  assert (r = Ok tt) as ->.
  { replace r with (h, r).2 by done. rewrite <- Hloop.
    apply update_each_all_Ok; [done |]. intros l n Hl Hn.
    destruct (Hnum l n Hl Hn) as (v & d & s & Hv & Hd & Hs).
    unfold item. rewrite Hv. simpl. rewrite Hd. simpl. rewrite Hs. simpl.
    by eexists. }
  simpl. split; [done |].
  intros l Hl.
  pose proof (update_each_Ok_NoDup _ _ _ _ l Hnd Hloop Hl) as Hrun.
  destruct (node_objs self !! l) as [n|] eqn:Hn; [|done].
  destruct (Hnum l n Hl Hn) as (v & d & s & Hv & Hd & Hs). exists v, d, s.
  do 3 (split; [done |]).
  destruct Hrun as (n' & Hbody & ->).
  unfold item in Hbody. rewrite Hv in Hbody. simpl in Hbody.
  rewrite Hd in Hbody. simpl in Hbody. rewrite Hs in Hbody. simpl in Hbody.
  by injection Hbody as <-.
Qed.

Lemma size_edges_returns py default_edge_size graph_data attr self minn maxx :
  attr ≠ "None" →
  NoDup (edges (data self)) →
  scaling_edge (scaling_vars self) !! attr = Some (minn, maxx) →
  (∀ l e, l ∈ edges (data self) → edge_objs self !! l = Some e →
     ∃ v d, edge_dict e !! attr = Some v ∧ scale_val py minn maxx v = Ok d) →
  (_callback_size_edges py default_edge_size graph_data attr self).2
  = Ok (filtered_data (_callback_size_edges py default_edge_size graph_data attr self).1)
  ∧ ∀ l, l ∈ edges (data self) →
      match edge_objs self !! l with
      | Some e =>
          ∃ v d, edge_dict e !! attr = Some v
                 ∧ scale_val py minn maxx v = Ok d
                 ∧ edge_objs (_callback_size_edges py default_edge_size graph_data attr
                                self).1 !! l
                   = Some (set_width d e)
      | None =>
          edge_objs (_callback_size_edges py default_edge_size graph_data attr self).1 !! l
          = None
      end.
Proof.
  intros Hattr Hnd Hbounds Hnum.
  rewrite size_edges_unfold by done. unfold bounds_of. rewrite Hbounds. simpl.
  destruct (update_each _ _ _) as [h r] eqn:Hloop.
  assert (r = Ok tt) as ->.
  { replace r with (h, r).2 by done. rewrite <- Hloop.
    apply update_each_all_Ok; [done |]. intros l e Hl He.
    destruct (Hnum l e Hl He) as (v & d & Hv & Hd).
    unfold item. rewrite Hv. simpl. rewrite Hd. simpl. by eexists. }
  simpl. split; [done |].
  intros l Hl.
  pose proof (update_each_Ok_NoDup _ _ _ _ l Hnd Hloop Hl) as Hrun.
  destruct (edge_objs self !! l) as [e|] eqn:He; [|done].
  destruct (Hnum l e Hl He) as (v & d & Hv & Hd). exists v, d.
  do 2 (split; [done |]).
  destruct Hrun as (e' & Hbody & ->).
  unfold item in Hbody. rewrite Hv in Hbody. simpl in Hbody.
  rewrite Hd in Hbody. simpl in Hbody.
  by injection Hbody as <-.
Qed.

(** C1, as the code has it. Neither sizing guards its division or puts a
    value in the place of the quotient: the offset of an element is
    [20 * (x - min)] divided by [max - min], as the numbers at hand divide.
    With bounds min == max, where the division raises at the first element
    of the full dataset the sizing raises the same exception, writes no
    size or width and leaves the filtered view as it was; where it returns
    on every element (each listed once) the sizing returns the filtered
    view, every node has for size the sum of its size and the quotient,
    and every edge has the quotient for width. *)
Theorem degenerate_bounds_divide py default_node_size default_edge_size graph_data attr
    self minn maxx :
  attr ≠ "None" →
  number_eqb minn maxx = true →
  (∀ v x a b c,
     as_number v = Ok x → num_sub py x minn = Ok a → num_mul py 20 a = Ok b →
     num_sub py maxx minn = Ok c →
     scale_val py minn maxx v = num_truediv py b c)
  ∧ (∀ n rest v e,
       scaling_node (scaling_vars self) !! attr = Some (minn, maxx) →
       deref (node_objs self) (nodes (data self)) = n :: rest →
       node_dict n !! attr = Some v →
       scale_val py minn maxx v = Raise e →
       let after := _callback_size_nodes py default_node_size graph_data attr self in
       after.2 = Raise e
       ∧ node_objs after.1 = node_objs self
       ∧ filtered_data after.1 = filtered_data self
       ∧ data after.1 = data self)
  ∧ (∀ e rest v err,
       scaling_edge (scaling_vars self) !! attr = Some (minn, maxx) →
       deref (edge_objs self) (edges (data self)) = e :: rest →
       edge_dict e !! attr = Some v →
       scale_val py minn maxx v = Raise err →
       let after := _callback_size_edges py default_edge_size graph_data attr self in
       after.2 = Raise err
       ∧ edge_objs after.1 = edge_objs self
       ∧ filtered_data after.1 = filtered_data self
       ∧ data after.1 = data self)
  ∧ (scaling_node (scaling_vars self) !! attr = Some (minn, maxx) →
     NoDup (nodes (data self)) →
     (∀ l n, l ∈ nodes (data self) → node_objs self !! l = Some n →
        ∃ v d s, node_dict n !! attr = Some v
                 ∧ scale_val py minn maxx v = Ok d
                 ∧ num_add py (node_size n) d = Ok s) →
     let after := _callback_size_nodes py default_node_size graph_data attr self in
     after.2 = Ok (filtered_data after.1)
     ∧ ∀ l n v d s,
         l ∈ nodes (data self) → node_objs self !! l = Some n →
         node_dict n !! attr = Some v → scale_val py minn maxx v = Ok d →
         num_add py (node_size n) d = Ok s →
         node_objs after.1 !! l = Some (set_size s n))
  ∧ (scaling_edge (scaling_vars self) !! attr = Some (minn, maxx) →
     NoDup (edges (data self)) →
     (∀ l e, l ∈ edges (data self) → edge_objs self !! l = Some e →
        ∃ v d, edge_dict e !! attr = Some v ∧ scale_val py minn maxx v = Ok d) →
     let after := _callback_size_edges py default_edge_size graph_data attr self in
     after.2 = Ok (filtered_data after.1)
     ∧ ∀ l e v d,
         l ∈ edges (data self) → edge_objs self !! l = Some e →
         edge_dict e !! attr = Some v → scale_val py minn maxx v = Ok d →
         edge_objs after.1 !! l = Some (set_width d e)).
Proof.
  intros Hattr _. split; [|split; [|split; [|split]]].
  - intros v x a b c. apply scale_val_divides.
  - intros n rest v e Hbounds Hfirst Hv Hraise.
    rewrite size_nodes_unfold by done. unfold bounds_of. rewrite Hbounds. simpl.
    erewrite update_each_raises_first; [done | exact Hfirst |].
    unfold item. rewrite Hv. simpl. by rewrite Hraise.
  - intros e rest v err Hbounds Hfirst Hv Hraise.
    rewrite size_edges_unfold by done. unfold bounds_of. rewrite Hbounds. simpl.
    erewrite update_each_raises_first; [done | exact Hfirst |].
    unfold item. rewrite Hv. simpl. by rewrite Hraise.
  - intros Hbounds Hnd Hnum after.
    destruct (size_nodes_returns py default_node_size graph_data attr self minn maxx
                Hattr Hnd Hbounds Hnum) as [Hret Hall].
    split; [done |]. intros l n v d s Hl Hn Hv Hd Hs.
    specialize (Hall l Hl). rewrite Hn in Hall.
    destruct Hall as (v' & d' & s' & Hv' & Hd' & Hs' & Hl').
    assert (v' = v) as -> by congruence. assert (d' = d) as -> by congruence.
    by assert (s' = s) as -> by congruence.
  - intros Hbounds Hnd Hnum after.
    destruct (size_edges_returns py default_edge_size graph_data attr self minn maxx
                Hattr Hnd Hbounds Hnum) as [Hret Hall].
    split; [done |]. intros l e v d Hl He Hv Hd.
    specialize (Hall l Hl). rewrite He in Hall.
    destruct Hall as (v' & d' & Hv' & Hd' & Hl').
    assert (v' = v) as -> by congruence. by assert (d' = d) as -> by congruence.
Qed.

Lemma degenerate_bounds_divide_witness :
  "weight" ≠ "None"
  ∧ number_eqb 5 5 = true
  ∧ (as_number (VNum 5) = Ok (Finite 5)
     ∧ num_sub Sample.python 5 5 = Ok (Finite 0)
     ∧ num_mul Sample.python 20 0 = Ok (Finite 0)
     ∧ num_sub Sample.python 5 5 = Ok (Finite 0)
     ∧ scale_val Sample.python 5 5 (VNum 5) = num_truediv Sample.python 0 0)
  ∧ (scaling_node (scaling_vars Sample.flat_weights) !! "weight"
     = Some (Finite 5, Finite 5)
     ∧ deref (node_objs Sample.flat_weights) (nodes (data Sample.flat_weights))
       = Sample.weighted_node "A" "Alpha" 5 :: [Sample.weighted_node "B" "Beta" 5]
     ∧ node_dict (Sample.weighted_node "A" "Alpha" 5) !! "weight" = Some (VNum 5)
     ∧ scale_val Sample.python 5 5 (VNum 5) = Raise ZeroDivisionError
     ∧ let after := _callback_size_nodes Sample.python Sample.DEFAULT_NODE_SIZE
                      (Graph [] []) "weight" Sample.flat_weights in
       after.2 = Raise ZeroDivisionError
       ∧ node_objs after.1 = node_objs Sample.flat_weights
       ∧ filtered_data after.1 = filtered_data Sample.flat_weights
       ∧ data after.1 = data Sample.flat_weights)
  ∧ (scaling_edge (scaling_vars Sample.flat_weights) !! "weight"
     = Some (Finite 5, Finite 5)
     ∧ deref (edge_objs Sample.flat_weights) (edges (data Sample.flat_weights))
       = Sample.weighted_edge "A" "B" 5 :: []
     ∧ edge_dict (Sample.weighted_edge "A" "B" 5) !! "weight" = Some (VNum 5)
     ∧ scale_val Sample.python 5 5 (VNum 5) = Raise ZeroDivisionError
     ∧ let after := _callback_size_edges Sample.python Sample.DEFAULT_EDGE_SIZE
                      (Graph [] []) "weight" Sample.flat_weights in
       after.2 = Raise ZeroDivisionError
       ∧ edge_objs after.1 = edge_objs Sample.flat_weights
       ∧ filtered_data after.1 = filtered_data Sample.flat_weights
       ∧ data after.1 = data Sample.flat_weights)
  ∧ (NoDup (nodes (data Sample.flat_weights))
     ∧ (∀ l n, l ∈ nodes (data Sample.flat_weights) →
          node_objs Sample.flat_weights !! l = Some n →
          ∃ v d s, node_dict n !! "weight" = Some v
                   ∧ scale_val Sample.numpy 5 5 v = Ok d
                   ∧ num_add Sample.numpy (node_size n) d = Ok s)
     ∧ let after := _callback_size_nodes Sample.numpy Sample.DEFAULT_NODE_SIZE
                      (Graph [] []) "weight" Sample.flat_weights in
       after.2 = Ok (filtered_data after.1)
       ∧ node_objs after.1 !! 1%positive
         = Some (set_size NaN (Sample.weighted_node "A" "Alpha" 5)))
  ∧ (NoDup (edges (data Sample.flat_weights))
     ∧ (∀ l e, l ∈ edges (data Sample.flat_weights) →
          edge_objs Sample.flat_weights !! l = Some e →
          ∃ v d, edge_dict e !! "weight" = Some v
                 ∧ scale_val Sample.numpy 5 5 v = Ok d)
     ∧ let after := _callback_size_edges Sample.numpy Sample.DEFAULT_EDGE_SIZE
                      (Graph [] []) "weight" Sample.flat_weights in
       after.2 = Ok (filtered_data after.1)
       ∧ edge_objs after.1 !! 1%positive
         = Some (set_width NaN (Sample.weighted_edge "A" "B" 5))).
Proof.
  assert ("weight" ≠ "None") as Hattr by discriminate.
  assert (number_eqb 5 5 = true) as Heq by reflexivity.
  assert (NoDup (nodes (data Sample.flat_weights))) as Hnodes
    by (apply (bool_decide_unpack _); reflexivity).
  assert (NoDup (edges (data Sample.flat_weights))) as Hedges
    by (apply (bool_decide_unpack _); reflexivity).
  assert (∀ l n, l ∈ nodes (data Sample.flat_weights) →
            node_objs Sample.flat_weights !! l = Some n →
            ∃ v d s, node_dict n !! "weight" = Some v
                     ∧ scale_val Sample.numpy 5 5 v = Ok d
                     ∧ num_add Sample.numpy (node_size n) d = Ok s) as Hn.
  { intros l n Hl Hn. change (l ∈ [1; 2]%positive) in Hl.
    repeat (apply elem_of_cons in Hl as [-> | Hl]);
      [| | by apply elem_of_nil in Hl];
      injection Hn as <-; eexists _, _, _; repeat split; reflexivity. }
  assert (∀ l e, l ∈ edges (data Sample.flat_weights) →
            edge_objs Sample.flat_weights !! l = Some e →
            ∃ v d, edge_dict e !! "weight" = Some v
                   ∧ scale_val Sample.numpy 5 5 v = Ok d) as He.
  { intros l e Hl He. change (l ∈ [1]%positive) in Hl.
    repeat (apply elem_of_cons in Hl as [-> | Hl]);
      [| by apply elem_of_nil in Hl];
      injection He as <-; eexists _, _; repeat split; reflexivity. }
  destruct (degenerate_bounds_divide Sample.python Sample.DEFAULT_NODE_SIZE
              Sample.DEFAULT_EDGE_SIZE (Graph [] []) "weight"
              Sample.flat_weights 5 5 Hattr Heq)
    as (Hdiv & Hraise_nodes & Hraise_edges & _ & _).
  destruct (degenerate_bounds_divide Sample.numpy Sample.DEFAULT_NODE_SIZE
              Sample.DEFAULT_EDGE_SIZE (Graph [] []) "weight"
              Sample.flat_weights 5 5 Hattr Heq)
    as (_ & _ & _ & Hret_nodes & Hret_edges).
  split; [exact Hattr |]. split; [exact Heq |]. split; [|split; [|split; [|split]]].
  - do 4 (split; [reflexivity |]).
    exact (Hdiv (VNum 5) (Finite 5) (Finite 0) (Finite 0) (Finite 0)
             eq_refl eq_refl eq_refl eq_refl).
  - do 4 (split; [reflexivity |]).
    exact (Hraise_nodes (Sample.weighted_node "A" "Alpha" 5)
             [Sample.weighted_node "B" "Beta" 5] (VNum 5) ZeroDivisionError
             eq_refl eq_refl eq_refl eq_refl).
  - do 4 (split; [reflexivity |]).
    exact (Hraise_edges (Sample.weighted_edge "A" "B" 5) [] (VNum 5)
             ZeroDivisionError eq_refl eq_refl eq_refl eq_refl).
  - split; [exact Hnodes |]. split; [exact Hn |].
    destruct (Hret_nodes eq_refl Hnodes Hn) as [Hret Hall].
    split; [exact Hret |].
    apply (Hall 1%positive _ (VNum 5) NaN NaN); [left | reflexivity ..].
  - split; [exact Hedges |]. split; [exact He |].
    destruct (Hret_edges eq_refl Hedges He) as [Hret Hall].
    split; [exact Hret |].
    apply (Hall 1%positive _ (VNum 5) NaN); [left | reflexivity ..].
Defined.

(** C1 as worded fails: with bounds (5, 5) no fallback value is produced.
    On the scalars of numpy both sizings return and write nan, which is no
    number, for the size and the width; on the numbers of Python both
    raise the division error. *)
Lemma degenerate_bounds_give_no_size :
  scaling_node (scaling_vars Sample.flat_weights) !! "weight"
  = Some (Finite 5, Finite 5)
  ∧ scaling_edge (scaling_vars Sample.flat_weights) !! "weight"
    = Some (Finite 5, Finite 5)
  ∧ (let after := _callback_size_nodes Sample.numpy Sample.DEFAULT_NODE_SIZE
                    (Graph [] []) "weight" Sample.flat_weights in
     after.2 = Ok (filtered_data after.1)
     ∧ node_size <$> node_objs after.1 !! 1%positive = Some NaN
     ∧ node_size <$> node_objs after.1 !! 2%positive = Some NaN)
  ∧ (let after := _callback_size_edges Sample.numpy Sample.DEFAULT_EDGE_SIZE
                    (Graph [] []) "weight" Sample.flat_weights in
     after.2 = Ok (filtered_data after.1)
     ∧ edge_width <$> edge_objs after.1 !! 1%positive = Some (Some NaN))
  ∧ (_callback_size_nodes Sample.python Sample.DEFAULT_NODE_SIZE (Graph [] [])
       "weight" Sample.flat_weights).2 = Raise ZeroDivisionError
  ∧ (_callback_size_edges Sample.python Sample.DEFAULT_EDGE_SIZE (Graph [] [])
       "weight" Sample.flat_weights).2 = Raise ZeroDivisionError.
Proof. repeat split; reflexivity. Qed.

(** ** What an operation leaves alone *)

Section Preserves.
Context {X : Type}.
Variable f : Jaal → X.

Lemma preserves_bind {A B : Type} (m : M A) (k : A → M B) :
  preserves f m → (∀ a, preserves f (k a)) → preserves f (m ≫= k).
Proof.
  intros Hm Hk self. unfold mbind, M_bind.
  specialize (Hm self). destruct (m self) as [self' [a|e]]; simpl in *; [|done].
  by rewrite Hk.
Qed.

Lemma preserves_ret {A : Type} (a : A) : preserves f (mret a).
Proof. by intros self. Qed.

Lemma preserves_get_self : preserves f get_self.
Proof. by intros self. Qed.

Lemma preserves_lift {A : Type} (r : result A) : preserves f (lift r).
Proof. by intros self. Qed.

Lemma preserves_modify (g : Jaal → Jaal) :
  (∀ self, f (g self) = f self) → preserves f (modify g).
Proof. intros Hg self. apply Hg. Qed.

Lemma preserves_try_except {A : Type} (body : M A) (handler : exn → M A) :
  preserves f body → (∀ e, preserves f (handler e)) →
  preserves f (try_except body handler).
Proof.
  intros Hbody Hhandler self. unfold try_except.
  specialize (Hbody self). destruct (body self) as [self' [a|e]]; simpl in *; [done |].
  by rewrite Hhandler.
Qed.

Lemma preserves_for_each_node refs body :
  (∀ h self, f (set_node_objs h self) = f self) →
  preserves f (for_each_node refs body).
Proof.
  intros Hf self. unfold for_each_node.
  destruct (update_each body refs (node_objs self)) as [h r]. apply Hf.
Qed.

Lemma preserves_for_each_edge refs body :
  (∀ h self, f (set_edge_objs h self) = f self) →
  preserves f (for_each_edge refs body).
Proof.
  intros Hf self. unfold for_each_edge.
  destruct (update_each body refs (edge_objs self)) as [h r]. apply Hf.
Qed.

End Preserves.

(** A part of the object that no write to a record, to the filtered view
    or to the console touches is left alone by every callback but, for the
    flags, the node filter; the dispatcher adds its two assignments of
    the colour dicts. *)
Section Frame.
Context {X : Type}.
Variable f : Jaal → X.
Hypothesis f_node_objs : ∀ h self, f (set_node_objs h self) = f self.
Hypothesis f_edge_objs : ∀ h self, f (set_edge_objs h self) = f self.
Hypothesis f_filtered_data : ∀ g self, f (set_filtered_data g self) = f self.
Hypothesis f_console : ∀ c self, f (set_console c self) = f self.

Variable py : interpreter.
Variable query : string → list (gmap string val) → option (list bool).
Variable get_distinct_colors : nat → list string.
Variable DEFAULT_COLOR : string.
Variable DEFAULT_NODE_SIZE : number.
Variable DEFAULT_EDGE_SIZE : number.

Ltac frame_step :=
  first
    [ apply preserves_bind; [|intros ?]
    | apply preserves_ret
    | apply preserves_get_self
    | apply preserves_lift
    | apply preserves_try_except; [|intros ?]
    | apply preserves_for_each_node; exact f_node_objs
    | apply preserves_for_each_edge; exact f_edge_objs
    | apply preserves_modify; intros;
      first [apply f_filtered_data | apply f_console]
    | match goal with
      | |- preserves _ (if ?b then _ else _) => destruct b
      | |- preserves _ (let '(_, _) := ?p in _) => destruct p
      | |- preserves _ (match ?p with (_, _) => _ end) => destruct p
      end ].

Lemma search_preserves graph_data search_text :
  preserves f (_callback_search_graph py graph_data search_text).
Proof using Type*. unfold _callback_search_graph. repeat frame_step. Qed.

Lemma filter_edges_preserves graph_data text :
  preserves f (_callback_filter_edges query graph_data text).
Proof using Type*. unfold _callback_filter_edges, print. repeat frame_step. Qed.

Lemma filter_nodes_preserves graph_data text related org wf tables :
  (∀ self, f (set_flags related org wf tables self) = f self) →
  preserves f (_callback_filter_nodes py query graph_data text related org wf tables).
Proof using Type*.
  intros Hflags. unfold _callback_filter_nodes, print.
  apply preserves_bind; [by apply preserves_modify |]. intros _.
  repeat frame_step.
Qed.

Lemma color_nodes_preserves graph_data attr :
  preserves f (_callback_color_nodes get_distinct_colors DEFAULT_COLOR graph_data attr).
Proof using Type*.
  unfold _callback_color_nodes, refilter_nodes, print. repeat frame_step.
Qed.

Lemma color_edges_preserves graph_data attr :
  preserves f (_callback_color_edges get_distinct_colors DEFAULT_COLOR graph_data attr).
Proof using Type*.
  unfold _callback_color_edges, refilter_edges, print. repeat frame_step.
Qed.

Lemma size_nodes_preserves graph_data attr :
  preserves f (_callback_size_nodes py DEFAULT_NODE_SIZE graph_data attr).
Proof using Type*.
  unfold _callback_size_nodes, refilter_nodes, print. repeat frame_step.
Qed.

Lemma size_edges_preserves graph_data attr :
  preserves f (_callback_size_edges py DEFAULT_EDGE_SIZE graph_data attr).
Proof using Type*.
  unfold _callback_size_edges, refilter_edges, print. repeat frame_step.
Qed.

Lemma setting_pane_callback_preserves triggered search_text filter_nodes_text
    filter_edges_text add_related include_org include_wf include_tables
    color_nodes_value color_edges_value size_nodes_value size_edges_value graph_data :
  ((∃ input_id, triggered = Some input_id ∧ input_id ∈ node_filter_controls) →
   ∀ self, f (set_flags add_related include_org include_wf include_tables self) = f self) →
  (triggered = Some "color_nodes" →
   ∀ m self, f (set_node_value_color_mapping m self) = f self) →
  (triggered = Some "color_edges" →
   ∀ m self, f (set_edge_value_color_mapping m self) = f self) →
  preserves f
    (setting_pane_callback py query get_distinct_colors DEFAULT_COLOR DEFAULT_NODE_SIZE
       DEFAULT_EDGE_SIZE triggered search_text filter_nodes_text filter_edges_text
       add_related include_org include_wf include_tables color_nodes_value
       color_edges_value size_nodes_value size_edges_value graph_data).
Proof using Type*.
  intros Hflags Hnodes Hedges. unfold setting_pane_callback.
  destruct triggered as [input_id|]; [|unfold print; repeat frame_step].
  apply preserves_bind.
  { destruct (bool_decide (input_id = "search_graph")); [apply search_preserves |].
    destruct (bool_decide (input_id = "filter_nodes")
              || bool_decide (input_id = "add_related_entities")
              || bool_decide (input_id = "include_related_org")
              || bool_decide (input_id = "include_related_wf")
              || bool_decide (input_id = "include_related_tables")) eqn:Hcontrol.
    - apply filter_nodes_preserves, Hflags. exists input_id.
      split; [done | by apply node_filter_control_spec].
    - destruct (bool_decide (input_id = "filter_edges"));
        [apply filter_edges_preserves | apply preserves_ret]. }
  intros g1. apply preserves_bind.
  { destruct (bool_decide (input_id = "color_nodes")) eqn:Hid; [|apply preserves_ret].
    apply bool_decide_eq_true in Hid as ->.
    apply preserves_bind; [apply color_nodes_preserves |]. intros [g m].
    apply preserves_bind; [|intros ?; apply preserves_ret].
    apply preserves_modify. by apply Hnodes. }
  intros g2. apply preserves_bind.
  { destruct (bool_decide (input_id = "color_edges")) eqn:Hid; [|apply preserves_ret].
    apply bool_decide_eq_true in Hid as ->.
    apply preserves_bind; [apply color_edges_preserves |]. intros [g m].
    apply preserves_bind; [|intros ?; apply preserves_ret].
    apply preserves_modify. by apply Hedges. }
  intros g3. apply preserves_bind.
  { destruct (bool_decide (input_id = "size_nodes"));
      [apply size_nodes_preserves | apply preserves_ret]. }
  intros g4. apply preserves_bind.
  { destruct (bool_decide (input_id = "size_edges"));
      [apply size_edges_preserves | apply preserves_ret]. }
  intros g5. repeat frame_step.
Qed.

End Frame.

(** X7. No operation of the dispatcher replaces the full dataset's node
    and edge lists or the scaling bounds. The four flags change only when
    a control of the node filter triggers, the colour dict of the nodes
    only when [color_nodes] triggers, that of the edges only when
    [color_edges] does. This holds also when the operation raises. *)
Theorem dispatcher_frame py query get_distinct_colors default_color default_node_size
    default_edge_size triggered search_text filter_nodes_text filter_edges_text
    add_related include_org include_wf include_tables color_nodes_value
    color_edges_value size_nodes_value size_edges_value graph_data self :
  let after :=
    (setting_pane_callback py query get_distinct_colors default_color default_node_size
       default_edge_size triggered search_text filter_nodes_text filter_edges_text
       add_related include_org include_wf include_tables color_nodes_value
       color_edges_value size_nodes_value size_edges_value graph_data self).1 in
  data after = data self
  ∧ scaling_vars after = scaling_vars self
  ∧ ((∀ input_id, triggered = Some input_id → input_id ∉ node_filter_controls) →
     flags after = flags self)
  ∧ (triggered ≠ Some "color_nodes" →
     node_value_color_mapping after = node_value_color_mapping self)
  ∧ (triggered ≠ Some "color_edges" →
     edge_value_color_mapping after = edge_value_color_mapping self).
Proof.
  simpl. repeat apply conj.
  - by apply (setting_pane_callback_preserves data).
  - by apply (setting_pane_callback_preserves scaling_vars).
  - intros Hnot. apply (setting_pane_callback_preserves flags); try done.
    intros (input_id & Hid & Hin). by destruct (Hnot input_id Hid).
  - intros Hnot. by apply (setting_pane_callback_preserves node_value_color_mapping).
  - intros Hnot. by apply (setting_pane_callback_preserves edge_value_color_mapping).
Qed.

Lemma dispatcher_frame_witness :
  let after :=
    (setting_pane_callback Sample.python equality_query Sample.get_distinct_colors
       Sample.DEFAULT_COLOR Sample.DEFAULT_NODE_SIZE Sample.DEFAULT_EDGE_SIZE
       (Some "size_nodes") "" "" "" false false false false
       "None" "None" "weight" "None" (data Sample.flat_weights)
       Sample.flat_weights).1 in
  (∀ input_id, Some "size_nodes" = Some input_id → input_id ∉ node_filter_controls)
  ∧ Some "size_nodes" ≠ Some "color_nodes"
  ∧ Some "size_nodes" ≠ Some "color_edges"
  ∧ data after = data Sample.flat_weights
  ∧ scaling_vars after = scaling_vars Sample.flat_weights
  ∧ flags after = flags Sample.flat_weights
  ∧ node_value_color_mapping after = node_value_color_mapping Sample.flat_weights
  ∧ edge_value_color_mapping after = edge_value_color_mapping Sample.flat_weights.
Proof.
  assert (∀ input_id, Some "size_nodes" = Some input_id →
                      input_id ∉ node_filter_controls) as Hnot.
  { intros input_id [= <-] Hin. unfold node_filter_controls in Hin.
    repeat (apply elem_of_cons in Hin as [Hin | Hin]; [discriminate Hin |]).
    by apply elem_of_nil in Hin. }
  assert (Some "size_nodes" ≠ Some "color_nodes") as Hn by discriminate.
  assert (Some "size_nodes" ≠ Some "color_edges") as He by discriminate.
  destruct (dispatcher_frame Sample.python equality_query Sample.get_distinct_colors
              Sample.DEFAULT_COLOR Sample.DEFAULT_NODE_SIZE Sample.DEFAULT_EDGE_SIZE
              (Some "size_nodes") "" "" "" false false false false
              "None" "None" "weight" "None" (data Sample.flat_weights)
              Sample.flat_weights) as (H1 & H2 & H3 & H4 & H5).
  split; [exact Hnot |]. split; [exact Hn |]. split; [exact He |].
  split; [exact H1 |]. split; [exact H2 |]. split; [exact (H3 Hnot) |].
  split; [exact (H4 Hn) | exact (H5 He)].
Defined.

(** ** Sizing, once and again *)





Lemma update_each_fails_second {A : Type} (body : A → result A) l1 l2 rest h
    x1 x1' x2 e :
  l1 ≠ l2 →
  h !! l1 = Some x1 → h !! l2 = Some x2 →
  body x1 = Ok x1' → body x2 = Raise e →
  update_each body (l1 :: l2 :: rest) h = (<[l1 := x1']> h, Raise e).
Proof.
  intros Hne H1 H2 Hb1 Hb2. simpl.
  by rewrite H1, Hb1, lookup_insert_ne, H2, Hb2.
Qed.

(** X10. A sizing that fails half-way is not undone: when the scaling and
    the sum return on the first node of the full dataset and the second
    lacks the attribute, the sizing raises [KeyError], the first node keeps
    its new size, and the filtered view is not re-derived. *)
Theorem failed_sizing_is_not_undone py default_node_size graph_data attr self minn maxx
    l1 l2 rest n1 n2 v d s :
  attr ≠ "None" →
  scaling_node (scaling_vars self) !! attr = Some (minn, maxx) →
  nodes (data self) = l1 :: l2 :: rest →
  l1 ≠ l2 →
  node_objs self !! l1 = Some n1 → node_objs self !! l2 = Some n2 →
  node_dict n1 !! attr = Some v →
  scale_val py minn maxx v = Ok d →
  num_add py (node_size n1) d = Ok s →
  node_dict n2 !! attr = None →
  let after := _callback_size_nodes py default_node_size graph_data attr self in
  after.2 = Raise KeyError
  ∧ node_objs after.1 !! l1 = Some (set_size s n1)
  ∧ (∀ l, l ≠ l1 → node_objs after.1 !! l = node_objs self !! l)
  ∧ filtered_data after.1 = filtered_data self.
Proof.
  intros Hattr Hbounds Hnodes Hl Hn1 Hn2 Hv Hd Hs Hmiss. simpl.
  rewrite size_nodes_unfold by done. unfold bounds_of. rewrite Hbounds, Hnodes.
  cbv beta iota zeta.
  rewrite (update_each_fails_second _ l1 l2 rest _ n1 (set_size s n1) n2 KeyError);
    try done.
  - simpl. split; [done |]. split; [by rewrite lookup_insert_eq |].
    split; [|done]. intros l Hne'. by rewrite lookup_insert_ne.
  - unfold item. rewrite Hv. simpl. rewrite Hd. simpl. by rewrite Hs.
  - unfold item. by rewrite Hmiss.
Qed.

Lemma failed_sizing_is_not_undone_witness :
  "height" ≠ "None"
  ∧ scaling_node (scaling_vars Sample.half_measured) !! "height"
    = Some (Finite 0, Finite 2)
  ∧ nodes (data Sample.half_measured) = 1%positive :: 2%positive :: []
  ∧ 1%positive ≠ 2%positive
  ∧ node_objs Sample.half_measured !! 1%positive
    = Some (Sample.measured_node "A" "Alpha" 1)
  ∧ node_objs Sample.half_measured !! 2%positive = Some (Sample.plain_node "B" "Beta")
  ∧ node_dict (Sample.measured_node "A" "Alpha" 1) !! "height" = Some (VNum 1)
  ∧ scale_val Sample.python 0 2 (VNum 1) = Ok (Finite 10)
  ∧ num_add Sample.python (node_size (Sample.measured_node "A" "Alpha" 1)) 10
    = Ok (Finite 17)
  ∧ node_dict (Sample.plain_node "B" "Beta") !! "height" = None
  ∧ let after := _callback_size_nodes Sample.python Sample.DEFAULT_NODE_SIZE (Graph [] [])
                   "height" Sample.half_measured in
    after.2 = Raise KeyError
    ∧ node_objs after.1 !! 1%positive
      = Some (set_size 17 (Sample.measured_node "A" "Alpha" 1))
    ∧ (∀ l, l ≠ 1%positive →
            node_objs after.1 !! l = node_objs Sample.half_measured !! l)
    ∧ filtered_data after.1 = filtered_data Sample.half_measured.
Proof.
  assert ("height" ≠ "None") as Hattr by discriminate.
  assert (1%positive ≠ 2%positive) as Hl by discriminate.
  split; [exact Hattr |]. split; [reflexivity |].
  split; [reflexivity |]. split; [exact Hl |].
  do 6 (split; [reflexivity |]).
  exact (failed_sizing_is_not_undone Sample.python Sample.DEFAULT_NODE_SIZE (Graph [] [])
           "height" Sample.half_measured 0 2 1%positive 2%positive []
           (Sample.measured_node "A" "Alpha" 1) (Sample.plain_node "B" "Beta")
           (VNum 1) 10 17 Hattr eq_refl eq_refl Hl eq_refl eq_refl eq_refl
           eq_refl eq_refl eq_refl).
Defined.

(** ** The filters start afresh *)

(** The expansion reads the object through its three category flags
    only. *)
Lemma filter_entities_flags self self' ids :
  flags self = flags self' → _filter_entities self ids = _filter_entities self' ids.
Proof. unfold flags, _filter_entities. by intros [= _ -> -> ->]. Qed.

Lemma visit_flags query self self' node_map recurse recurse' k df :
  flags self = flags self' →
  (∀ ids df, recurse ids df = recurse' ids df) →
  visit query self node_map recurse k df = visit query self' node_map recurse' k df.
Proof.
  intros Hflags Hrec. unfold visit.
  destruct (node_map !! k); [|done]. destruct (negb _); [done |].
  destruct (targets_of _ _ _) as [tos|e]; [|done].
  destruct (sources_of _ _ _) as [froms|e]; [|done].
  rewrite !(filter_entities_flags self self') by done.
  destruct (_ ++ _); [done |]. by rewrite Hrec.
Qed.

Lemma visit_all_flags query self self' node_map recurse recurse' ids df :
  flags self = flags self' →
  (∀ ids df, recurse ids df = recurse' ids df) →
  visit_all query self node_map recurse ids df
  = visit_all query self' node_map recurse' ids df.
Proof.
  intros Hflags Hrec. revert df. induction ids as [|k ids IH]; intros df; simpl;
    [done |].
  rewrite (visit_flags query self self' node_map recurse recurse') by done.
  destruct (visit query self' node_map recurse' k df) as [[[here df1]|e]|]; [|done..].
  by rewrite IH.
Qed.

Lemma upto_flags query depth self self' node_map ids df :
  flags self = flags self' →
  get_related_nodes_upto query depth self node_map ids df
  = get_related_nodes_upto query depth self' node_map ids df.
Proof.
  intros Hflags. revert ids df. induction depth as [|depth IH]; intros ids df; simpl;
    [done |].
  by apply visit_all_flags.
Qed.

(** What the node filter computes depends on the dicts, the full dataset
    and the flags, not on the filtered view or the console. *)
Lemma filtered_nodes_of_agree py query self self' text :
  node_objs self = node_objs self' → edge_objs self = edge_objs self' →
  data self = data self' → flags self = flags self' →
  filtered_nodes_of py query self text = filtered_nodes_of py query self' text.
Proof.
  intros Hn He Hd Hflags. unfold filtered_nodes_of, _get_related_nodes.
  rewrite Hn, He, Hd.
  assert (add_related_entities self = add_related_entities self') as ->
    by (unfold flags in Hflags; congruence).
  destruct (query_ids _ _ _ _ _) as [ids|e]; [|done]. simpl.
  destruct (lookup_each _ _) as [found|e]; [|done]. simpl.
  destruct (add_related_entities self'); [|done].
  by rewrite (upto_flags query _ self self').
Qed.

(** X11. The node filter is idempotent: run a second time with the same
    expression and flags, from whatever snapshot, it returns the same graph
    and leaves the same filtered view as the first time; this holds as well
    when the filter fails and falls back. *)
Theorem node_filter_idempotent py query g1 g2 text related org wf tables self :
  let once := _callback_filter_nodes py query g1 text related org wf tables self in
  let twice := _callback_filter_nodes py query g2 text related org wf tables once.1 in
  twice.2 = once.2
  ∧ filtered_data twice.1 = filtered_data once.1
  ∧ flags twice.1 = (related, org, wf, tables).
Proof.
  simpl. rewrite (filter_nodes_unfold py query g1). cbv zeta.
  destruct (filtered_nodes_of py query _ text) as [ns|e] eqn:Hns.
  - rewrite filter_nodes_unfold. cbv zeta.
    erewrite filtered_nodes_of_agree; [rewrite Hns | done..]. done.
  - rewrite filter_nodes_unfold. cbv zeta.
    erewrite filtered_nodes_of_agree; [rewrite Hns | done..]. done.
Qed.

(** X12. The edge filter is idempotent in the same sense. *)
Theorem edge_filter_idempotent query g1 g2 text self :
  let once := _callback_filter_edges query g1 text self in
  let twice := _callback_filter_edges query g2 text once.1 in
  twice.2 = once.2 ∧ filtered_data twice.1 = filtered_data once.1.
Proof.
  simpl. rewrite (filter_edges_unfold query g1). cbv zeta.
  destruct (query_ids query edge_dict edge_id _ text) as [ids|e] eqn:Hids.
  - rewrite filter_edges_unfold. cbv zeta. simpl. by rewrite Hids.
  - rewrite filter_edges_unfold. cbv zeta. simpl. by rewrite Hids.
Qed.

(** ** The node filter without the expansion *)

Lemma NoDup_fmap_eq {A B : Type} (f : A → B) (l : list A) x y :
  NoDup (f <$> l) → x ∈ l → y ∈ l → f x = f y → x = y.
Proof.
  intros Hl [i Hi]%list_elem_of_lookup [j Hj]%list_elem_of_lookup Hxy.
  assert (i = j) as ->.
  { apply (NoDup_lookup (f <$> l) i j (f x)); [done | |].
    - by rewrite list_lookup_fmap, Hi.
    - by rewrite list_lookup_fmap, Hj, Hxy. }
  congruence.
Qed.

(** With identifiers of their own, the rows of the table are found again
    through [node_map], each as itself. *)
Lemma lookup_each_deref h refs sel :
  NoDup (node_id <$> deref h refs) →
  sel ⊆ deref h refs →
  ∃ found, lookup_each (build_node_map h refs) (node_id <$> sel) = Ok found
           ∧ deref h found = sel.
Proof.
  intros Hids. induction sel as [|n sel IH]; intros Hsub; [by exists [] |].
  rewrite fmap_cons. cbn [lookup_each].
  destruct IH as (found & Hfound & Hsel);
    [intros x Hx; apply Hsub; by right |].
  assert (n ∈ deref h refs) as Hn by (apply Hsub; left).
  pose proof Hn as (l & Hl & Hhl)%elem_of_deref.
  destruct (build_node_map_is_Some h refs l n Hl Hhl) as [l' Hl'].
  rewrite Hl', Hfound. simpl. exists (l' :: found). split; [done |].
  apply build_node_map_lookup in Hl' as (Hin & n' & Hn' & Hid).
  assert (n' = n) as ->.
  { apply (NoDup_fmap_eq node_id (deref h refs)); [done | | done | done].
    apply elem_of_deref. eauto. }
  unfold deref in *. simpl. rewrite Hn'. simpl. by f_equal.
Qed.

(** X13. Without the expansion, and when every node of the full dataset has
    an identifier of its own, the node filter shows exactly the rows that
    the expression selects, in the order of the table, and all the edges of
    the full dataset: an earlier edge filter is gone. *)
Theorem node_filter_shows_the_selected_rows py query graph_data text org wf tables self
    mask :
  NoDup (node_ids self (nodes (data self))) →
  nodes (data self) ≠ [] →
  (∀ l, l ∈ nodes (data self) → is_Some (node_objs self !! l)) →
  query text (node_dict <$> deref (node_objs self) (nodes (data self))) = Some mask →
  length mask = length (nodes (data self)) →
  let after := _callback_filter_nodes py query graph_data text false org wf tables self in
  after.2 = Ok (filtered_data after.1)
  ∧ deref (node_objs after.1) (nodes (filtered_data after.1))
    = select mask (deref (node_objs self) (nodes (data self)))
  ∧ edges (filtered_data after.1) = edges (data self)
  ∧ console after.1 = console self.
Proof.
  intros Hids Hsome Hlive Hq Hlen.
  assert (length (deref (node_objs self) (nodes (data self)))
          = length (nodes (data self))) as Hsame.
  { unfold deref. clear -Hlive.
    induction (nodes (data self)) as [|l refs IH]; simpl; [done |].
    destruct (Hlive l) as [n ->]; [left |]. simpl. f_equal. apply IH.
    intros l' Hl'. apply Hlive. by right. }
  assert (∃ found,
            filtered_nodes_of py query
              (set_filtered_data (data self) (set_flags false org wf tables self)) text
            = Ok found
            ∧ deref (node_objs self) found
              = select mask (deref (node_objs self) (nodes (data self))))
    as (found & Hfound & Hsel).
  { unfold filtered_nodes_of, query_ids. simpl. rewrite Hq.
    rewrite bool_decide_eq_true_2 by congruence. simpl.
    destruct (lookup_each_deref (node_objs self) (nodes (data self))
                (select mask (deref (node_objs self) (nodes (data self)))))
      as (found & Hfound & Hsel);
      [done | apply sublist_subseteq, select_sublist |].
    destruct (deref (node_objs self) (nodes (data self))) as [|x table] eqn:Htable.
    { destruct (nodes (data self)); [done | discriminate Hsame]. }
    exists found. unfold mbind at 1, result_bind at 1. rewrite Hfound. simpl.
    by rewrite app_nil_r. }
  simpl. rewrite filter_nodes_unfold. cbv zeta. rewrite Hfound. done.
Qed.

Lemma node_filter_shows_the_selected_rows_witness :
  NoDup (node_ids Sample.two_nodes (nodes (data Sample.two_nodes)))
  ∧ nodes (data Sample.two_nodes) ≠ []
  ∧ (∀ l, l ∈ nodes (data Sample.two_nodes) →
          is_Some (node_objs Sample.two_nodes !! l))
  ∧ equality_query "id=='A'"
      (node_dict <$> deref (node_objs Sample.two_nodes) (nodes (data Sample.two_nodes)))
    = Some [true; false]
  ∧ length [true; false] = length (nodes (data Sample.two_nodes))
  ∧ let after := _callback_filter_nodes Sample.python equality_query (Graph [] []) "id=='A'"
                   false true true true Sample.two_nodes in
    after.2 = Ok (filtered_data after.1)
    ∧ deref (node_objs after.1) (nodes (filtered_data after.1))
      = select [true; false]
          (deref (node_objs Sample.two_nodes) (nodes (data Sample.two_nodes)))
    ∧ edges (filtered_data after.1) = edges (data Sample.two_nodes)
    ∧ console after.1 = console Sample.two_nodes.
Proof.
  assert (NoDup (node_ids Sample.two_nodes (nodes (data Sample.two_nodes)))) as Hids
    by (apply (bool_decide_unpack _); reflexivity).
  assert (nodes (data Sample.two_nodes) ≠ []) as Hsome by discriminate.
  assert (∀ l, l ∈ nodes (data Sample.two_nodes) →
               is_Some (node_objs Sample.two_nodes !! l)) as Hlive.
  { intros l Hl. apply elem_of_cons in Hl as [-> | Hl]; [by eexists |].
    apply elem_of_cons in Hl as [-> | Hl]; [by eexists |].
    by apply elem_of_nil in Hl. }
  split; [exact Hids |]. split; [exact Hsome |]. split; [exact Hlive |].
  split; [reflexivity |]. split; [reflexivity |].
  exact (node_filter_shows_the_selected_rows Sample.python equality_query (Graph [] []) "id=='A'"
           true true true Sample.two_nodes [true; false] Hids Hsome Hlive
           eq_refl eq_refl).
Defined.

(** ** Datasets without nodes or without edges *)

(** X14. A dataset without nodes cannot be filtered: whatever the
    expression and the flags, the node filter ends in its handler, returns
    the (empty) full dataset and reports a wrong query. The same holds for
    the edge filter on a dataset without edges. *)
Theorem filters_of_nothing_fall_back py query graph_data text related org wf tables self :
  (nodes (data self) = [] →
   let after := _callback_filter_nodes py query graph_data text related org wf tables self in
   after.2 = Ok (data self)
   ∧ filtered_data after.1 = data self
   ∧ ∃ e, console after.1
          = console self ++ [PrintTraceback e; PrintException e;
                             Print ["wrong node filter query!!"]])
  ∧ (edges (data self) = [] →
     let after := _callback_filter_edges query graph_data text self in
     after.2 = Ok (data self)
     ∧ filtered_data after.1 = data self
     ∧ console after.1 = console self ++ [Print ["wrong edge filter query!!"]]).
Proof.
  split; intros Hnone; simpl.
  - assert (∃ e, filtered_nodes_of py query
                   (set_filtered_data (data self) (set_flags related org wf tables self))
                   text = Raise e) as [e He].
    { unfold filtered_nodes_of, query_ids. simpl. rewrite Hnone. simpl.
      destruct (query text []) as [mask|]; [|by eexists].
      destruct (negb _); by eexists. }
    rewrite filter_nodes_unfold. cbv zeta. rewrite He. simpl.
    split; [done |]. split; [done |]. exists e. by rewrite <- app_assoc.
  - assert (∃ e, query_ids query edge_dict edge_id
                   (deref (edge_objs self) (edges (data self))) text = Raise e)
      as [e He].
    { unfold query_ids. rewrite Hnone. simpl.
      destruct (query text []) as [mask|]; [|by eexists].
      destruct (negb _); by eexists. }
    rewrite filter_edges_unfold. cbv zeta. rewrite He. done.
Qed.

Lemma filters_of_nothing_fall_back_witness :
  nodes (data Sample.no_data) = []
  ∧ edges (data Sample.no_data) = []
  ∧ (let after := _callback_filter_nodes Sample.python equality_query (Graph [] []) "id=='A'"
                    false true true true Sample.no_data in
     after.2 = Ok (data Sample.no_data)
     ∧ filtered_data after.1 = data Sample.no_data
     ∧ ∃ e, console after.1
            = console Sample.no_data ++ [PrintTraceback e; PrintException e;
                                         Print ["wrong node filter query!!"]])
  ∧ (let after := _callback_filter_edges equality_query (Graph [] []) "id=='A__B'"
                    Sample.no_data in
     after.2 = Ok (data Sample.no_data)
     ∧ filtered_data after.1 = data Sample.no_data
     ∧ console after.1
       = console Sample.no_data ++ [Print ["wrong edge filter query!!"]]).
Proof.
  split; [reflexivity |]. split; [reflexivity |].
  split.
  - exact (proj1 (filters_of_nothing_fall_back Sample.python equality_query
                    (Graph [] []) "id=='A'" false true true true Sample.no_data)
             eq_refl).
  - exact (proj2 (filters_of_nothing_fall_back Sample.python equality_query
                    (Graph [] []) "id=='A__B'" false true true true Sample.no_data)
             eq_refl).
Defined.

(** X15. The expansion needs an edge: on a dataset without edges, a node
    filter with the expansion switched on whose expression selects at
    least one node ends in its handler and returns the full dataset, not
    the selected nodes. *)
Theorem expansion_without_edges_falls_back py query graph_data text org wf tables self ids :
  edges (data self) = [] →
  query_ids query node_dict node_id (deref (node_objs self) (nodes (data self))) text
  = Ok ids →
  ids ≠ [] →
  let after := _callback_filter_nodes py query graph_data text true org wf tables self in
  after.2 = Ok (data self)
  ∧ filtered_data after.1 = data self
  ∧ ∃ e, console after.1
         = console self ++ [PrintTraceback e; PrintException e;
                            Print ["wrong node filter query!!"]].
Proof.
  intros Hnone Hq Hsome.
  assert (∃ e, filtered_nodes_of py query
                 (set_filtered_data (data self) (set_flags true org wf tables self))
                 text = Raise e) as [e He].
  { unfold filtered_nodes_of. simpl. rewrite Hq, Hnone.
    unfold mbind at 1, result_bind at 1.
    destruct (lookup_each _ ids) as [found|e] eqn:Hfound; [|by eexists].
    unfold mbind at 1, result_bind at 1.
    destruct ids as [|k ids]; [done |]. simpl in Hfound.
    destruct (build_node_map _ _ !! k) as [l|] eqn:Hk; [|done].
    unfold _get_related_nodes.
    destruct (recursion_limit py) as [|depth]; simpl; [by eexists |].
    unfold visit. rewrite Hk. simpl. by eexists. }
  simpl. rewrite filter_nodes_unfold. cbv zeta. rewrite He. simpl.
  split; [done |]. split; [done |]. exists e. by rewrite <- app_assoc.
Qed.

Lemma expansion_without_edges_falls_back_witness :
  edges (data Sample.no_edges) = []
  ∧ query_ids equality_query node_dict node_id
      (deref (node_objs Sample.no_edges) (nodes (data Sample.no_edges))) "id=='A'"
    = Ok ["A"]
  ∧ ["A"] ≠ []
  ∧ let after := _callback_filter_nodes Sample.python equality_query (Graph [] []) "id=='A'"
                   true true true true Sample.no_edges in
    after.2 = Ok (data Sample.no_edges)
    ∧ filtered_data after.1 = data Sample.no_edges
    ∧ ∃ e, console after.1
           = console Sample.no_edges ++ [PrintTraceback e; PrintException e;
                                         Print ["wrong node filter query!!"]].
Proof.
  assert (["A"] ≠ @nil string) as Hsome by discriminate.
  split; [reflexivity |]. split; [reflexivity |]. split; [exact Hsome |].
  exact (expansion_without_edges_falls_back Sample.python equality_query (Graph [] []) "id=='A'"
           true true true Sample.no_edges ["A"] eq_refl eq_refl Hsome).
Defined.

(** ** Colouring and sizing show what was shown *)

Lemma shows_about_identities ns es : about_identities (shows ns es).
Proof.
  intros self self' Hsame (Hn & He & Hns & Hes).
  pose proof Hsame as (Hd & Hf & _ & _). unfold shows.
  rewrite !(same_identities_node_ids self self'), !(same_identities_edge_ids self self'),
    Hd, Hf by done.
  done.
Qed.

Lemma refilter_nodes_shows ns es : keeps (shows ns es) refilter_nodes.
Proof.
  intros self (Hn & He & Hns & Hes). split; [|done]. simpl. intros k.
  rewrite <- Hn. unfold node_ids. rewrite list_elem_of_fmap. split.
  - intros (x & -> & (l & Hl & Hx)%elem_of_deref).
    apply elem_of_refs_where in Hl as (_ & x' & Hx' & Hin). simpl in Hx.
    rewrite Hx in Hx'. injection Hx' as <-. by apply bool_decide_eq_true in Hin.
  - intros Hk. pose proof Hk as Hshown. apply Hn, Hns in Hk.
    apply list_elem_of_fmap in Hk as (x & -> & (l & Hl & Hx)%elem_of_deref).
    exists x. split; [done |]. apply elem_of_deref. exists l. split; [|done].
    apply elem_of_refs_where. split; [done |]. exists x. split; [done |].
    by apply bool_decide_eq_true.
Qed.

Lemma refilter_edges_shows ns es : keeps (shows ns es) refilter_edges.
Proof.
  intros self (Hn & He & Hns & Hes). split; [done |]. split; [|done]. simpl.
  intros k. rewrite <- He. unfold edge_ids. rewrite list_elem_of_fmap. split.
  - intros (x & -> & (l & Hl & Hx)%elem_of_deref).
    apply elem_of_refs_where in Hl as (_ & x' & Hx' & Hin). simpl in Hx.
    rewrite Hx in Hx'. injection Hx' as <-. by apply bool_decide_eq_true in Hin.
  - intros Hk. pose proof Hk as Hshown. apply He, Hes in Hk.
    apply list_elem_of_fmap in Hk as (x & -> & (l & Hl & Hx)%elem_of_deref).
    exists x. split; [done |]. apply elem_of_deref. exists l. split; [|done].
    apply elem_of_refs_where. split; [done |]. exists x. split; [done |].
    by apply bool_decide_eq_true.
Qed.

Lemma shows_itself self :
  view_within_dataset self →
  shows (node_ids self (nodes (filtered_data self)))
    (edge_ids self (edges (filtered_data self))) self.
Proof. intros [Hn He]. by repeat split. Qed.

(** X16. Colouring and sizing never change which elements are shown: when
    the filtered view lies within the full dataset, then after colouring or
    sizing nodes or edges by any attribute, whether the operation returns
    or raises, the filtered view shows nodes and edges with the same
    identifiers as before. *)
Theorem restyling_shows_the_same py get_distinct_colors default_color default_node_size
    default_edge_size graph_data attr self after :
  view_within_dataset self →
  after ∈ [(_callback_color_nodes get_distinct_colors default_color graph_data attr self).1;
           (_callback_color_edges get_distinct_colors default_color graph_data attr self).1;
           (_callback_size_nodes py default_node_size graph_data attr self).1;
           (_callback_size_edges py default_edge_size graph_data attr self).1] →
  (∀ k, k ∈ node_ids after (nodes (filtered_data after))
        ↔ k ∈ node_ids self (nodes (filtered_data self)))
  ∧ (∀ k, k ∈ edge_ids after (edges (filtered_data after))
          ↔ k ∈ edge_ids self (edges (filtered_data self))).
Proof.
  intros Hview%shows_itself Hafter.
  set (ns := node_ids self (nodes (filtered_data self))) in *.
  set (es := edge_ids self (edges (filtered_data self))) in *.
  assert (shows ns es after) as (Hn & He & _); [|done].
  repeat (apply elem_of_cons in Hafter as [-> | Hafter]).
  - apply color_nodes_keeps;
      auto using shows_about_identities, refilter_nodes_shows, refilter_edges_shows.
  - apply color_edges_keeps;
      auto using shows_about_identities, refilter_nodes_shows, refilter_edges_shows.
  - apply size_nodes_keeps;
      auto using shows_about_identities, refilter_nodes_shows, refilter_edges_shows.
  - apply size_edges_keeps;
      auto using shows_about_identities, refilter_nodes_shows, refilter_edges_shows.
  - by apply elem_of_nil in Hafter.
Qed.

Lemma restyling_shows_the_same_witness :
  let after :=
    (_callback_size_nodes Sample.python Sample.DEFAULT_NODE_SIZE (Graph [] []) "weight"
       Sample.graded).1 in
  view_within_dataset Sample.graded
  ∧ (∀ k, k ∈ node_ids after (nodes (filtered_data after))
          ↔ k ∈ node_ids Sample.graded (nodes (filtered_data Sample.graded)))
  ∧ (∀ k, k ∈ edge_ids after (edges (filtered_data after))
          ↔ k ∈ edge_ids Sample.graded (edges (filtered_data Sample.graded))).
Proof.
  assert (view_within_dataset Sample.graded) as Hview by (by split).
  split; [exact Hview |].
  apply (restyling_shows_the_same Sample.python Sample.get_distinct_colors Sample.DEFAULT_COLOR
           Sample.DEFAULT_NODE_SIZE Sample.DEFAULT_EDGE_SIZE (Graph [] []) "weight"
           Sample.graded _ Hview).
  right. right. left.
Defined.

(** ** The dispatcher and its controls *)

(** X17. The five controls of the node filter are one trigger: whichever
    of them changed, the dispatcher does what it does for
    ["filter_nodes"]. *)
Theorem node_filter_controls_agree py query get_distinct_colors default_color
    default_node_size default_edge_size input_id search_text filter_nodes_text
    filter_edges_text add_related include_org include_wf include_tables
    color_nodes_value color_edges_value size_nodes_value size_edges_value
    graph_data self :
  input_id ∈ node_filter_controls →
  setting_pane_callback py query get_distinct_colors default_color default_node_size
    default_edge_size (Some input_id) search_text filter_nodes_text filter_edges_text
    add_related include_org include_wf include_tables color_nodes_value
    color_edges_value size_nodes_value size_edges_value graph_data self
  = setting_pane_callback py query get_distinct_colors default_color default_node_size
      default_edge_size (Some "filter_nodes") search_text filter_nodes_text
      filter_edges_text add_related include_org include_wf include_tables
      color_nodes_value color_edges_value size_nodes_value size_edges_value
      graph_data self.
Proof.
  intros Hin. unfold node_filter_controls in Hin.
  repeat (apply elem_of_cons in Hin as [-> | Hin]); try reflexivity.
  by apply elem_of_nil in Hin.
Qed.

Lemma node_filter_controls_agree_witness :
  "include_related_wf" ∈ node_filter_controls
  ∧ setting_pane_callback Sample.python equality_query Sample.get_distinct_colors
      Sample.DEFAULT_COLOR Sample.DEFAULT_NODE_SIZE Sample.DEFAULT_EDGE_SIZE
      (Some "include_related_wf") "" "id=='A'" "" true true false true
      "None" "None" "None" "None" (data Sample.two_nodes) Sample.two_nodes
    = setting_pane_callback Sample.python equality_query Sample.get_distinct_colors
        Sample.DEFAULT_COLOR Sample.DEFAULT_NODE_SIZE Sample.DEFAULT_EDGE_SIZE
        (Some "filter_nodes") "" "id=='A'" "" true true false true
        "None" "None" "None" "None" (data Sample.two_nodes) Sample.two_nodes.
Proof.
  assert ("include_related_wf" ∈ node_filter_controls) as Hin
    by (apply (bool_decide_unpack _); reflexivity).
  split; [exact Hin |].
  exact (node_filter_controls_agree Sample.python equality_query Sample.get_distinct_colors
           Sample.DEFAULT_COLOR Sample.DEFAULT_NODE_SIZE Sample.DEFAULT_EDGE_SIZE
           "include_related_wf" "" "id=='A'" "" true true false true
           "None" "None" "None" "None" (data Sample.two_nodes) Sample.two_nodes Hin).
Defined.

(** X18. A trigger that is none of the eleven controls runs no callback:
    the object is left as it was, nothing is printed, and the dispatcher
    returns the snapshot it was given with the legend of the stored colour
    mappings. *)
Theorem unknown_control_does_nothing py query get_distinct_colors default_color
    default_node_size default_edge_size input_id search_text filter_nodes_text
    filter_edges_text add_related include_org include_wf include_tables
    color_nodes_value color_edges_value size_nodes_value size_edges_value
    graph_data self :
  input_id ∉ controls →
  setting_pane_callback py query get_distinct_colors default_color default_node_size
    default_edge_size (Some input_id) search_text filter_nodes_text filter_edges_text
    add_related include_org include_wf include_tables color_nodes_value
    color_edges_value size_nodes_value size_edges_value graph_data self
  = (self, Ok (graph_data,
               (node_value_color_mapping self, edge_value_color_mapping self))).
Proof.
  intros Hnot. unfold setting_pane_callback.
  assert (∀ c, c ∈ controls → bool_decide (input_id = c) = false) as Hc.
  { intros c Hin. apply bool_decide_eq_false. by intros ->. }
  rewrite !Hc by (apply (bool_decide_unpack _); reflexivity).
  reflexivity.
Qed.

Lemma unknown_control_does_nothing_witness :
  ("graph" ∉ controls)
  ∧ setting_pane_callback Sample.python equality_query Sample.get_distinct_colors
      Sample.DEFAULT_COLOR Sample.DEFAULT_NODE_SIZE Sample.DEFAULT_EDGE_SIZE
      (Some "graph") "al" "id=='A'" "" true true true true
      "None" "None" "None" "None" (data Sample.two_nodes) Sample.two_nodes
    = (Sample.two_nodes,
       Ok (data Sample.two_nodes,
           (node_value_color_mapping Sample.two_nodes,
            edge_value_color_mapping Sample.two_nodes))).
Proof.
  assert ("graph" ∉ controls) as Hnot by (apply (bool_decide_unpack _); reflexivity).
  split; [exact Hnot |].
  exact (unknown_control_does_nothing Sample.python equality_query Sample.get_distinct_colors
           Sample.DEFAULT_COLOR Sample.DEFAULT_NODE_SIZE Sample.DEFAULT_EDGE_SIZE
           "graph" "al" "id=='A'" "" true true true true
           "None" "None" "None" "None" (data Sample.two_nodes) Sample.two_nodes Hnot).
Defined.

(** ** The legend popover *)

(** X19. The legend popover holds two headers, then for each of the two
    colour dicts one entry per value in the order of the dict, or one
    filler line when the dict is empty: its entries are those of the node
    colours followed by those of the edge colours, and it has
    [2 + max 1 n + max 1 m] children for [n] node colours and [m] edge
    colours. *)
Theorem legend_children_follow_the_mappings {legend_entry : Type}
    (create_color_legend : option val → string → legend_entry)
    (node_value_color_mapping edge_value_color_mapping : color_mapping) :
  let children :=
    get_color_popover_legend_children create_color_legend
      node_value_color_mapping edge_value_color_mapping in
  legend_entries children
  = (λ kv, create_color_legend kv.1 kv.2)
      <$> (node_value_color_mapping ++ edge_value_color_mapping)
  ∧ length children
    = 2 + length node_value_color_mapping `max` 1
        + length edge_value_color_mapping `max` 1
  ∧ head children = Some (PopoverHeader "Node legends").
Proof.
  assert (∀ title (legends : color_mapping),
            legend_entries (create_legends_for create_color_legend title legends)
            = (λ kv, create_color_legend kv.1 kv.2) <$> legends) as Hentries.
  { intros title [|kv legends]; [done |]. unfold legend_entries, create_legends_for.
    cbn [omap list_omap]. generalize (kv :: legends). intros l.
    induction l as [|x l IH]; [done |]. rewrite !fmap_cons. simpl. f_equal.
    exact IH. }
  assert (∀ title (legends : color_mapping),
            length (create_legends_for create_color_legend title legends)
            = 1 + length legends `max` 1) as Hlength.
  { intros title [|kv legends]; [done |]. unfold create_legends_for.
    simpl. rewrite length_fmap. lia. }
  cbv zeta. unfold get_color_popover_legend_children.
  split; [|split; [|reflexivity]].
  - unfold legend_entries in *. by rewrite omap_app, !Hentries, fmap_app.
  - rewrite length_app, !Hlength. lia.
Qed.

(** ** What the expansion returns *)

(** The run of the expansion lists its seeds, in order, among the nodes
    it returns. *)
Lemma expands_seeds query self node_map ids df found df' :
  expands query self node_map ids df found df' →
  ∃ seeds, lookup_each node_map ids = Ok seeds ∧ seeds `sublist_of` found.
Proof.
  induction 1 as [df|k rest df n tos froms there df' Hk _ _ _ _ _
                    (seeds & Hseeds & Hsub)
                  |k rest df n tos froms sub df1 there df' Hk _ _ _ _ _ _ _
                    (seeds & Hseeds & Hsub)].
  - by exists [].
  - exists (n :: seeds). simpl. rewrite Hk, Hseeds. split; [done |].
    by apply sublist_skip.
  - exists (n :: seeds). simpl. rewrite Hk, Hseeds. split; [done |].
    apply sublist_skip. by apply sublist_inserts_l.
Qed.

(** X20. With the expansion switched on, a node filter that does not end
    in its handler lists every selected node at least twice: the node list
    of the filtered view is the selected nodes followed by what the
    expansion returned, and the selected nodes are, in order, among the
    latter again. *)
Theorem expansion_repeats_the_selected py query graph_data text org wf tables self ids :
  query_ids query node_dict node_id (deref (node_objs self) (nodes (data self))) text
  = Ok ids →
  let after := _callback_filter_nodes py query graph_data text true org wf tables self in
  console after.1 = console self →
  ∃ found related,
    after.2 = Ok (filtered_data after.1)
    ∧ nodes (filtered_data after.1) = found ++ related
    ∧ node_ids self found = ids
    ∧ found `sublist_of` related.
Proof.
  intros Hq. simpl. rewrite filter_nodes_unfold. cbv zeta.
  destruct (filtered_nodes_of py query _ text) as [ns|e] eqn:Hns; simpl.
  - intros _. unfold filtered_nodes_of in Hns. simpl in Hns. rewrite Hq in Hns.
    unfold mbind at 1, result_bind at 1 in Hns.
    destruct (lookup_each _ ids) as [found|e] eqn:Hfound; [|done].
    unfold mbind at 1, result_bind at 1 in Hns.
    destruct (_get_related_nodes _ _ _ _) as [related|e] eqn:Hrelated; [|done].
    injection Hns as <-.
    apply get_related_nodes_Ok in Hrelated as [df' Hrun].
    apply expands_seeds in Hrun as (seeds & Hseeds & Hsub).
    rewrite Hfound in Hseeds. injection Hseeds as <-.
    apply lookup_each_Ok, lookup_each_ids in Hfound as [Hids _].
    by exists found, related.
  - intros Hconsole. apply (f_equal length) in Hconsole.
    rewrite !length_app in Hconsole. simpl in Hconsole. lia.
Qed.

Lemma expansion_repeats_the_selected_witness :
  query_ids equality_query node_dict node_id
    (deref (node_objs Sample.two_nodes) (nodes (data Sample.two_nodes))) "id=='A'"
  = Ok ["A"]
  ∧ let after := _callback_filter_nodes Sample.python equality_query (Graph [] []) "id=='A'"
                   true true true true Sample.two_nodes in
    console after.1 = console Sample.two_nodes
    ∧ ∃ found related,
        after.2 = Ok (filtered_data after.1)
        ∧ nodes (filtered_data after.1) = found ++ related
        ∧ node_ids Sample.two_nodes found = ["A"]
        ∧ found `sublist_of` related.
Proof.
  split; [reflexivity |]. split; [reflexivity |].
  exact (expansion_repeats_the_selected Sample.python equality_query (Graph [] []) "id=='A'"
           true true true Sample.two_nodes ["A"] eq_refl eq_refl).
Defined.

Lemma filter_all {A : Type} (P : A → Prop) `{!∀ x, Decision (P x)} (l : list A) :
  Forall P l → filter P l = l.
Proof.
  induction 1 as [|x l Hx _ IH]; [done |]. by rewrite filter_cons_True, IH.
Qed.

Lemma filter_entities_permitted self ids :
  Forall (permitted self) ids → _filter_entities self ids = ids.
Proof.
  intros Hids. unfold _filter_entities.
  pose proof (λ (P : string → Prop) `{!∀ i, Decision (P i)}, filter_all P ids) as Hall.
  destruct (include_related_org self) eqn:Horg,
    (include_related_wf self) eqn:Hwf,
    (include_related_tables self) eqn:Htables;
    rewrite ?Hall; try done;
    (eapply Forall_impl; [exact Hids |]); intros i (Ho & Hw & Ht); auto.
Qed.

(** X21. The guard against cycles also hides siblings: the edges leaving
    a source are dropped before the source is visited. With the two edges
    p -> k and p -> s and the seed k, where the queries for k and p are the
    tests of equality they are meant to be and two nested calls are
    allowed, the expansion returns k and p only, although s is linked to
    p. *)
Theorem expansion_misses_a_sibling py query self node_map k p s lk lp e1 e2 :
  answers_by_equality query [k; p] →
  2 ≤ recursion_limit py →
  k ≠ p → k ≠ s →
  edge_from e1 = p → edge_to e1 = k →
  edge_from e2 = p → edge_to e2 = s →
  permitted self p →
  node_map !! k = Some lk → node_map !! p = Some lp →
  _get_related_nodes py query self [k] (DataFrame_of_edges [e1; e2]) node_map
  = Ok [lk; lp]
  ∧ reachable [e1; e2] k s.
Proof.
  intros Hq Hdepth Hkp Hks Hf1 Ht1 Hf2 Ht2 Hp Hk Hlp. split.
  - set (df := DataFrame_of_edges [e1; e2]).
    set (df0 := EdgeFrame true []).
    destruct (Hq k [e1; e2]) as [Htk Hsk]; [left |].
    destruct (Hq p []) as [Htp Hsp]; [right; left |].
    assert (targets_by_equality k [e1; e2] = []) as Hin.
    { unfold targets_by_equality.
      rewrite !filter_cons_False by congruence. by rewrite filter_nil. }
    assert (sources_by_equality k [e1; e2] = [p]) as Hout.
    { unfold sources_by_equality.
      rewrite filter_cons_True by done.
      rewrite filter_cons_False by congruence. rewrite filter_nil. simpl.
      by rewrite Hf1. }
    assert (_filter_entities self [p] = [p]) as Hfp
      by (apply filter_entities_permitted; by constructor).
    assert (_filter_entities self [] = []) as Hnil
      by (by apply filter_entities_permitted).
    assert (after_drop self [p] df = df0) as Hdrop.
    { unfold after_drop. rewrite Hfp. unfold drop_from. simpl.
      rewrite !filter_cons_False; [done | |]; intros Hno; apply Hno;
        apply list_elem_of_singleton; done. }
    rewrite Hin in Htk. rewrite Hout in Hsk.
    assert (get_related_nodes_upto query 2 self node_map [k] df
            = Some (Ok ([lk; lp], df0))) as Hrun.
    { cbn [get_related_nodes_upto visit_all].
      rewrite visit_unfold, Hk. cbn [has_columns rows df DataFrame_of_edges].
      rewrite Htk, Hsk, Hnil, Hfp. cbn [app]. fold df. rewrite Hdrop.
      cbn [visit_all]. rewrite visit_unfold, Hlp. cbn [has_columns rows df0].
      rewrite Htp, Hsp. unfold targets_by_equality, sources_by_equality.
      rewrite !filter_nil. cbn [fmap list_fmap]. unfold after_drop.
      rewrite !Hnil. done. }
    unfold _get_related_nodes.
    by rewrite (upto_mono query self node_map 2 (recursion_limit py) _ _ _ Hdepth Hrun).
  - eapply rtc_l; [|apply rtc_once].
    + exists e1. split; [left |]. right. done.
    + exists e2. split; [right; left |]. left. done.
Qed.

Lemma expansion_misses_a_sibling_witness :
  let node_map : gmap string loc := <["K" := 1%positive]> (<["P" := 2%positive]> ∅) in
  answers_by_equality equality_query ["K"; "P"]
  ∧ 2 ≤ recursion_limit Sample.python
  ∧ "K" ≠ "P" ∧ "K" ≠ "S"
  ∧ permitted Sample.two_nodes "P"
  ∧ _get_related_nodes Sample.python equality_query Sample.two_nodes ["K"]
      (DataFrame_of_edges [Sample.plain_edge "P" "K"; Sample.plain_edge "P" "S"])
      node_map
    = Ok [1%positive; 2%positive]
  ∧ reachable [Sample.plain_edge "P" "K"; Sample.plain_edge "P" "S"] "K" "S".
Proof.
  assert (answers_by_equality equality_query ["K"; "P"]) as Hq
    by (apply equality_query_answers; repeat constructor).
  assert (2 ≤ recursion_limit Sample.python) as Hdepth by (simpl; lia).
  assert ("K" ≠ "P") as Hkp by discriminate.
  assert ("K" ≠ "S") as Hks by discriminate.
  assert (permitted Sample.two_nodes "P") as Hp
    by (split; [|split]; intros Hoff; discriminate Hoff).
  split; [exact Hq |]. split; [exact Hdepth |].
  split; [exact Hkp |]. split; [exact Hks |]. split; [exact Hp |].
  exact (expansion_misses_a_sibling Sample.python equality_query Sample.two_nodes
           (<["K" := 1%positive]> (<["P" := 2%positive]> ∅)) "K" "P" "S"
           1%positive 2%positive (Sample.plain_edge "P" "K") (Sample.plain_edge "P" "S")
           Hq Hdepth Hkp Hks eq_refl eq_refl eq_refl eq_refl Hp eq_refl eq_refl).
Defined.

(** ** The last colour wins *)

Lemma node_dict_set_color attr c n :
  attr ≠ "color" → node_dict (set_color c n) !! attr = node_dict n !! attr.
Proof.
  intros Hattr. unfold node_dict. simpl.
  destruct (node_hidden n); simpl; rewrite !lookup_insert;
    repeat case_decide; congruence.
Qed.

(** A loop whose body writes the colour only. *)
Lemma update_each_recolours (body : node → result node) refs h l :
  (∀ y y', body y = Ok y' → ∃ c, y' = set_color c y) →
  match h !! l with
  | Some n => ∃ c, (update_each body refs h).1 !! l = Some (set_color c n)
  | None => (update_each body refs h).1 !! l = None
  end.
Proof.
  intros Hbody. destruct (h !! l) as [n|] eqn:Hl; [|by apply update_each_None].
  assert (Reflexive (λ x x' : node, ∃ c, x' = set_color c x)) as Hrefl
    by (intros [] ; by eexists).
  assert (Transitive (λ x x' : node, ∃ c, x' = set_color c x)) as Htrans
    by (intros x ? ? [c1 ->] [c2 ->]; by exists c2).
  destruct (update_each_related (λ x x', ∃ c, x' = set_color c x) body refs h l n)
    as (x' & Hx' & [c ->]); [done | done |].
  by exists c.
Qed.

(** Whatever its outcome, the colouring of nodes writes the colour of
    nodes of the full dataset and nothing else in a dict. *)
Lemma color_nodes_heap get_distinct_colors default_color graph_data attr self :
  let after :=
    (_callback_color_nodes get_distinct_colors default_color graph_data attr self).1 in
  (∀ l, l ∉ nodes (data self) → node_objs after !! l = node_objs self !! l)
  ∧ (∀ l, match node_objs self !! l with
          | Some n => ∃ c, node_objs after !! l = Some (set_color c n)
          | None => node_objs after !! l = None
          end).
Proof.
  assert (∀ l, match node_objs self !! l with
               | Some n => ∃ c, node_objs self !! l = Some (set_color c n)
               | None => node_objs self !! l = None
               end) as Hsame.
  { intros l. destruct (node_objs self !! l) as [[]|]; [|done].
    by eexists. }
  destruct (decide (attr = "None")) as [->|Hattr].
  - rewrite color_nodes_None. simpl. split.
    + intros l Hl. by apply update_each_frame.
    + intros l. apply update_each_recolours. intros y y' [= <-]. by eexists.
  - rewrite color_nodes_unfold by done. simpl.
    destruct (unique_of_column _ _ _) as [unique_values|e]; [|done].
    pose proof (λ l, update_each_frame
                  (λ n, v ← item (node_dict n) attr;
                        c ← color_of (zip unique_values
                                        (get_distinct_colors (length unique_values))) v;
                        Ok (set_color c n))
                  (nodes (data self)) (node_objs self) l) as Hframe.
    pose proof (λ l, update_each_recolours
                  (λ n, v ← item (node_dict n) attr;
                        c ← color_of (zip unique_values
                                        (get_distinct_colors (length unique_values))) v;
                        Ok (set_color c n))
                  (nodes (data self)) (node_objs self) l) as Hcol.
    simpl in *. destruct (update_each _ _ _) as [h [[]|e]]; simpl in *.
    + split; [done |]. intros l. apply Hcol. intros y y' Hy.
      unfold mbind, result_bind in Hy.
      destruct (item _ _); [|done]. destruct (color_of _ _); [|done].
      injection Hy as <-. by eexists.
    + split; [done |]. intros l. apply Hcol. intros y y' Hy.
      unfold mbind, result_bind in Hy.
      destruct (item _ _); [|done]. destruct (color_of _ _); [|done].
      injection Hy as <-. by eexists.
Qed.

(** The cells of a column other than the colour do not change with the
    colours. *)
Lemma recoloured_cells attr (h h' : gmap loc node) refs :
  attr ≠ "color" →
  (∀ l, match h !! l with
        | Some n => ∃ c, h' !! l = Some (set_color c n)
        | None => h' !! l = None
        end) →
  (λ x, node_dict x !! attr) <$> deref h' refs
  = (λ x, node_dict x !! attr) <$> deref h refs.
Proof.
  intros Hattr Hcol. unfold deref.
  induction refs as [|r refs IH]; [done |]. simpl.
  specialize (Hcol r). destruct (h !! r) as [n|].
  - destruct Hcol as [c ->]. simpl. rewrite node_dict_set_color by done.
    f_equal. exact IH.
  - rewrite Hcol. exact IH.
Qed.

(** X22. The last colour wins: when the colouring of nodes by an attribute
    [b] (not the colour itself) returns, it also returns after any earlier
    colouring, by whatever attribute and whether that one returned or
    raised half-way, with the same legend and the same dicts: no trace of
    the earlier colours is left. *)
Theorem last_color_wins get_distinct_colors default_color g1 g2 g3 a b self g mapping :
  b ≠ "None" → b ≠ "color" →
  NoDup (nodes (data self)) →
  let first := _callback_color_nodes get_distinct_colors default_color g1 a self in
  let second := _callback_color_nodes get_distinct_colors default_color g2 b first.1 in
  let direct := _callback_color_nodes get_distinct_colors default_color g3 b self in
  direct.2 = Ok (g, mapping) →
  second.2 = Ok (filtered_data second.1, mapping)
  ∧ ∀ l, node_objs second.1 !! l = node_objs direct.1 !! l.
Proof.
  intros Hb Hcolor Hnd first second direct Hdirect.
  destruct (color_nodes_heap get_distinct_colors default_color g1 a self)
    as [Hframe1 Hcol1]. fold first in Hframe1, Hcol1.
  assert (data first.1 = data self) as Hdata
    by (by apply (color_nodes_preserves data)).
  destruct (color_nodes_heap get_distinct_colors default_color g3 b self)
    as [Hframed Hcold]. fold direct in Hframed, Hcold.
  destruct (color_nodes_returns get_distinct_colors default_color g3 b self g mapping
              Hb Hnd Hdirect) as [(unique_values & Hunique & Hmapping) Hdone].
  fold direct in Hdone.
  assert (unique_of_column node_dict (deref (node_objs first.1) (nodes (data self))) b
          = Ok unique_values) as Hunique1.
  { unfold unique_of_column in *.
    by rewrite (recoloured_cells b (node_objs self) (node_objs first.1)). }
  set (body := λ n : node,
         v ← item (node_dict n) b; c ← color_of mapping v; Ok (set_color c n)).
  assert (∀ l x, l ∈ nodes (data self) → node_objs first.1 !! l = Some x →
            ∃ n c, node_objs self !! l = Some n
                   ∧ body x = Ok (set_color c n)
                   ∧ node_objs direct.1 !! l = Some (set_color c n)) as Hbody.
  { intros l x Hl Hx. specialize (Hcol1 l).
    destruct (node_objs self !! l) as [n|] eqn:Hn; [|congruence].
    destruct Hcol1 as [ca Hca]. rewrite Hx in Hca. injection Hca as ->.
    destruct (Hdone l n Hl Hn) as (v & c & Hv & Hc & Hd).
    exists n, c. split; [done |]. split; [|done].
    unfold body, item. rewrite node_dict_set_color, Hv by done. simpl.
    by rewrite Hc. }
  assert (second = (let self0 :=
                      set_console (console first.1 ++ [Print ["inside color node"; b]])
                        first.1 in
                    let h := (update_each body (nodes (data self)) (node_objs first.1)).1 in
                    let self2 := (refilter_nodes (set_node_objs h self0)).1 in
                    (self2, Ok (filtered_data self2, mapping)))) as ->.
  { unfold second. rewrite color_nodes_unfold by done. cbv zeta.
    rewrite Hdata, Hunique1, <- Hmapping. fold body.
    pose proof (update_each_all_Ok body (nodes (data self)) (node_objs first.1) Hnd)
      as Hok.
    destruct (update_each body _ _) as [h [[]|e]]; [done |].
    discriminate Hok. intros l x Hl Hx.
    destruct (Hbody l x Hl Hx) as (n & c & _ & Hx' & _). eauto. }
  split; [done |]. intros l. simpl.
  destruct (decide (l ∈ nodes (data self))) as [Hl|Hl].
  - destruct (update_each body (nodes (data self)) (node_objs first.1))
      as [h r] eqn:Hloop.
    assert (r = Ok tt) as ->.
    { replace r with (update_each body (nodes (data self)) (node_objs first.1)).2
        by (by rewrite Hloop).
      apply update_each_all_Ok; [done |]. intros l' x Hl' Hx.
      destruct (Hbody l' x Hl' Hx) as (n & c & _ & Hx' & _). eauto. }
    pose proof (update_each_Ok_NoDup _ _ _ _ l Hnd Hloop Hl) as Hrun. simpl.
    destruct (node_objs first.1 !! l) as [x|] eqn:Hx.
    + destruct Hrun as (x' & Hx' & ->).
      destruct (Hbody l x Hl Hx) as (n & c & _ & Hx'' & ->). congruence.
    + rewrite Hrun. specialize (Hcol1 l). specialize (Hcold l).
      destruct (node_objs self !! l) as [n|]; [|done].
      destruct Hcol1 as [c Hc]. congruence.
  - rewrite update_each_frame, Hframe1, Hframed by done. done.
Qed.

Lemma last_color_wins_witness :
  "weight" ≠ "None" ∧ "weight" ≠ "color"
  ∧ NoDup (nodes (data Sample.flat_weights))
  ∧ let first :=
      _callback_color_nodes Sample.get_distinct_colors Sample.DEFAULT_COLOR
        (Graph [] []) "label" Sample.flat_weights in
    let second :=
      _callback_color_nodes Sample.get_distinct_colors Sample.DEFAULT_COLOR
        (Graph [] []) "weight" first.1 in
    let direct :=
      _callback_color_nodes Sample.get_distinct_colors Sample.DEFAULT_COLOR
        (Graph [] []) "weight" Sample.flat_weights in
    direct.2 = Ok (Graph [1; 2]%positive [1%positive], [(Some (VNum 5), "#e6194b")])
    ∧ second.2 = Ok (filtered_data second.1, [(Some (VNum 5), "#e6194b")])
    ∧ ∀ l, node_objs second.1 !! l = node_objs direct.1 !! l.
Proof.
  assert ("weight" ≠ "None") as Hb by discriminate.
  assert ("weight" ≠ "color") as Hcolor by discriminate.
  assert (NoDup (nodes (data Sample.flat_weights))) as Hnd
    by (apply (bool_decide_unpack _); reflexivity).
  split; [exact Hb |]. split; [exact Hcolor |]. split; [exact Hnd |].
  split; [reflexivity |].
  exact (last_color_wins Sample.get_distinct_colors Sample.DEFAULT_COLOR
           (Graph [] []) (Graph [] []) (Graph [] []) "label" "weight"
           Sample.flat_weights (Graph [1; 2]%positive [1%positive])
           [(Some (VNum 5), "#e6194b")] Hb Hcolor Hnd eq_refl).
Defined.

(** ** The category filter *)

(** X23. [_filter_entities] keeps the order of the identifiers it is given
    and drops exactly those that contain the marker of a switched-off
    category; it hands the list back unchanged exactly when there is none
    to drop. *)
Theorem filter_entities_keeps_the_permitted self ids :
  _filter_entities self ids `sublist_of` ids
  ∧ (∀ k, k ∈ _filter_entities self ids ↔ k ∈ ids ∧ permitted self k)
  ∧ (_filter_entities self ids = ids ↔ Forall (permitted self) ids).
Proof.
  split; [apply filter_entities_sublist |].
  split; [intros k; apply filter_entities_spec |].
  split; [|apply filter_entities_permitted].
  intros Hsame. apply Forall_forall. intros k Hk.
  rewrite <- Hsame in Hk. by apply filter_entities_spec in Hk as [_ Hk].
Qed.

(** ** Colouring edges by their colour *)

(** X24. The colour of an edge is a dict, and a column of dicts has no
    distinct values to take: as soon as the full dataset has an edge,
    colouring the edges by ["color"] raises [TypeError] before any edge is
    written, and the filtered view is left as it was. *)
Theorem color_edges_by_color_raises get_distinct_colors default_color graph_data self
    l e :
  l ∈ edges (data self) →
  edge_objs self !! l = Some e →
  let after :=
    _callback_color_edges get_distinct_colors default_color graph_data "color" self in
  after.2 = Raise TypeError
  ∧ edge_objs after.1 = edge_objs self
  ∧ node_objs after.1 = node_objs self
  ∧ filtered_data after.1 = filtered_data self.
Proof.
  intros Hl He.
  assert (unique_of_column edge_dict (deref (edge_objs self) (edges (data self)))
            "color" = Raise TypeError) as Hunique.
  { assert (e ∈ deref (edge_objs self) (edges (data self))) as Hin
      by (apply elem_of_deref; eauto).
    assert (∀ x : edge, edge_dict x !! "color" = Some (VDict (edge_color x))) as Hcell.
    { intros x. unfold edge_dict.
      destruct (edge_width x); simpl; rewrite !lookup_insert;
        repeat case_decide; congruence. }
    unfold unique_of_column.
    destruct (deref (edge_objs self) (edges (data self))) as [|x table];
      [by apply elem_of_nil in Hin |].
    rewrite fmap_cons, Hcell. reflexivity. }
  simpl. rewrite color_edges_unfold by discriminate. cbv zeta.
  by rewrite Hunique.
Qed.

Lemma color_edges_by_color_raises_witness :
  1%positive ∈ edges (data Sample.two_nodes)
  ∧ edge_objs Sample.two_nodes !! 1%positive = Some (Sample.plain_edge "A" "B")
  ∧ let after :=
      _callback_color_edges Sample.get_distinct_colors Sample.DEFAULT_COLOR
        (Graph [] []) "color" Sample.two_nodes in
    after.2 = Raise TypeError
    ∧ edge_objs after.1 = edge_objs Sample.two_nodes
    ∧ node_objs after.1 = node_objs Sample.two_nodes
    ∧ filtered_data after.1 = filtered_data Sample.two_nodes.
Proof.
  assert (1%positive ∈ edges (data Sample.two_nodes)) as Hl by left.
  split; [exact Hl |]. split; [reflexivity |].
  exact (color_edges_by_color_raises Sample.get_distinct_colors Sample.DEFAULT_COLOR
           (Graph [] []) Sample.two_nodes 1%positive (Sample.plain_edge "A" "B")
           Hl eq_refl).
Defined.
